(** * Authentication, session and audit core of the appointment-booking API

    A shallow embedding of the TypeScript sources
    [api/src/lib/auth.ts], [api/src/lib/logger.ts],
    [api/src/lib/passwordBreach.ts], [api/src/repos/auditLogRepo.ts],
    [api/src/repos/refreshTokenRepo.ts], [api/src/repos/userRepo.ts],
    [api/src/middleware/error.ts] and [api/src/routes/auth.ts].

    MongoDB collections are lists of documents in insertion order, the
    wall clock and every other source of non-determinism (random tokens,
    the breach-lookup HTTP call, the mail transport, the per-route
    express-rate-limit middlewares) are read from an explicit
    environment, and an [async] handler is a function of the database in
    a state-and-exception monad whose state survives a [throw].

    A JavaScript string is represented by its bytes in UTF-8 (a lone
    surrogate by its three-byte form), so that equality, [split] on an
    ASCII separator and the ASCII character classes are those of the
    source; [length], [trim] and [parseInt] below account for the
    characters outside ASCII, and [toLowerCase], which depends on the
    Unicode case tables, is taken from the platform. *)

From Stdlib Require Import String Ascii List ZArith NArith Bool Arith Lia DecimalString.
From Stdlib Require Import Sorted Permutation.
Import ListNotations.
Local Open Scope string_scope.
Local Open Scope Z_scope.

(** ** JavaScript values and string primitives *)

Module Js.

  (** The values a JSON request body can hold in one of its fields. *)
Inductive Value :=
  | Undefined
  | Null
  | Bool (b : bool)
  | Num (n : Z)
  | Str (s : string)
  | Obj.

  (** [!!v] *)
Definition truthy (v : Value) : bool :=
    match v with
    | Undefined | Null => false
    | Bool b => b
    | Num n => negb (n =? 0)
    | Str s => negb (s =? "")%string
    | Obj => true
    end.

  (** [!!s] for a value known to be a string *)
Definition nonEmpty (s : string) : bool := negb (s =? "")%string.

  (** [!!o] for an optional string ([undefined] and [""] are falsy) *)
Definition truthyOpt (o : option string) : bool :=
    match o with
    | Some s => nonEmpty s
    | None => false
    end.

  (** [a || b] on optional strings *)
Definition orElse (a b : option string) : option string :=
    if truthyOpt a then a else b.

Definition isUpper (c : ascii) : bool :=
    let n := nat_of_ascii c in (65 <=? n)%nat && (n <=? 90)%nat.
Definition isLower (c : ascii) : bool :=
    let n := nat_of_ascii c in (97 <=? n)%nat && (n <=? 122)%nat.
Definition isDigit (c : ascii) : bool :=
    let n := nat_of_ascii c in (48 <=? n)%nat && (n <=? 57)%nat.

  (** The single-byte white space and line terminators: TAB, LF, VT, FF,
      CR and SP. *)
Definition isSpace (c : ascii) : bool :=
    let n := nat_of_ascii c in
    ((9 <=? n)%nat && (n <=? 13)%nat) || (n =? 32)%nat.

  (** The number of bytes of the white-space character or line terminator
      the string starts with, [0] when it starts with none: U+0009 to
      U+000D, U+0020, U+00A0, U+1680, U+2000 to U+200A, U+2028, U+2029,
      U+202F, U+205F, U+3000 and U+FEFF. *)
Definition spaceWidth (s : string) : nat :=
    match s with
    | EmptyString => 0%nat
    | String c r =>
        if isSpace c then 1%nat
        else
          match nat_of_ascii c, r with
          | 194%nat, String d _ => if (nat_of_ascii d =? 160)%nat then 2%nat else 0%nat
          | 225%nat, String d (String e _) =>
              if (nat_of_ascii d =? 154)%nat && (nat_of_ascii e =? 128)%nat
              then 3%nat else 0%nat
          | 226%nat, String d (String e _) =>
              let x := nat_of_ascii e in
              if (nat_of_ascii d =? 128)%nat
                 && (((128 <=? x)%nat && (x <=? 138)%nat)
                     || (x =? 168)%nat || (x =? 169)%nat || (x =? 175)%nat)
              then 3%nat
              else if (nat_of_ascii d =? 129)%nat && (x =? 159)%nat then 3%nat
              else 0%nat
          | 227%nat, String d (String e _) =>
              if (nat_of_ascii d =? 128)%nat && (nat_of_ascii e =? 128)%nat
              then 3%nat else 0%nat
          | 239%nat, String d (String e _) =>
              if (nat_of_ascii d =? 187)%nat && (nat_of_ascii e =? 191)%nat
              then 3%nat else 0%nat
          | _, _ => 0%nat
          end
    end.

  (** Is every byte below 128? *)
Fixpoint isAscii (s : string) : bool :=
    match s with
    | EmptyString => true
    | String c r => (nat_of_ascii c <? 128)%nat && isAscii r
    end.

Definition lowerChar (c : ascii) : ascii :=
    if isUpper c then ascii_of_nat (nat_of_ascii c + 32) else c.

  (** What [s.toLowerCase()] is on a string of ASCII characters: the
      letters A to Z are lowered, nothing else changes. *)
Fixpoint asciiLower (s : string) : string :=
    match s with
    | EmptyString => EmptyString
    | String c r => String (lowerChar c) (asciiLower r)
    end.

  (** [s.length]: the number of UTF-16 code units.  A continuation byte
      adds nothing, the lead byte of a four-byte sequence stands for a
      surrogate pair. *)
Fixpoint length (s : string) : nat :=
    match s with
    | EmptyString => 0%nat
    | String c r =>
        let n := nat_of_ascii c in
        ((if (128 <=? n)%nat && (n <? 192)%nat then 0
          else if (240 <=? n)%nat then 2 else 1) + length r)%nat
    end.

Fixpoint trimStart (s : string) : string :=
    match s with
    | EmptyString => EmptyString
    | String c r =>
        match spaceWidth s, r with
        | 1%nat, _ => trimStart r
        | 2%nat, String _ r2 => trimStart r2
        | 3%nat, String _ (String _ r3) => trimStart r3
        | _, _ => s
        end
    end.

  (** Nothing but white space from here on. *)
Definition allSpace (s : string) : bool :=
    match trimStart s with
    | EmptyString => true
    | String _ _ => false
    end.

Fixpoint trimEnd (s : string) : string :=
    match s with
    | EmptyString => EmptyString
    | String c r => if allSpace s then EmptyString else String c (trimEnd r)
    end.

  (** [s.trim()] *)
Definition trim (s : string) : string := trimEnd (trimStart s).

  (** [s.split(sep)] for a one-character separator: never empty. *)
Fixpoint split (sep : ascii) (s : string) : list string :=
    match s with
    | EmptyString => [EmptyString]
    | String c r =>
        if Ascii.eqb c sep then EmptyString :: split sep r
        else match split sep r with
             | [] => [String c EmptyString]
             | h :: t => String c h :: t
             end
    end.

  (** The three bytes of a UTF-16 code unit from U+0800 on, which is how a
      lone surrogate is written. *)
Definition unit3 (u : N) : string :=
    String (ascii_of_N (224 + u / 4096))
      (String (ascii_of_N (128 + (u / 64) mod 64))
         (String (ascii_of_N (128 + u mod 64)) EmptyString)).

  (** The two surrogates of the character a four-byte sequence encodes. *)
Definition surrogates (b0 b1 b2 b3 : ascii) : string * string :=
    let cp := ((N_of_ascii b0 - 240) * 262144 + (N_of_ascii b1 - 128) * 4096
               + (N_of_ascii b2 - 128) * 64 + (N_of_ascii b3 - 128))%N in
    let v := (cp - 65536)%N in
    (unit3 (55296 + v / 1024)%N, unit3 (56320 + v mod 1024)%N).

  (** The string cut after its first [n] UTF-16 code units; a cut inside a
      surrogate pair leaves one surrogate on each side. *)
Fixpoint cut (n : nat) (s : string) : string * string :=
    match s with
    | EmptyString => (EmptyString, EmptyString)
    | String c r =>
        let b := nat_of_ascii c in
        if (128 <=? b)%nat && (b <? 192)%nat then
          let (a, z) := cut n r in (String c a, z)
        else
          match n with
          | O => (EmptyString, s)
          | S k =>
              if (240 <=? b)%nat then
                match r with
                | String c1 (String c2 (String c3 r')) =>
                    match k with
                    | O => let (hi, lo) := surrogates c c1 c2 c3 in (hi, lo ++ r')
                    | S k' =>
                        let (a, z) := cut k' r' in
                        (String c (String c1 (String c2 (String c3 a))), z)
                    end
                | _ => (s, EmptyString)
                end
              else let (a, z) := cut k r in (String c a, z)
          end
    end.

  (** [s.substring(0, n)] and [s.substring(n)] *)
Definition take (n : nat) (s : string) : string := fst (cut n s).
Definition drop (n : nat) (s : string) : string := snd (cut n s).

Fixpoint existsb (p : ascii -> bool) (s : string) : bool :=
    match s with
    | EmptyString => false
    | String c r => p c || existsb p r
    end.

  (** The digits read by [parseInt(s, 10)] after white space and sign. *)
Fixpoint digits (acc : option Z) (s : string) : option Z :=
    match s with
    | String c r =>
        if isDigit c then
          let d := Z.of_nat (nat_of_ascii c - 48) in
          digits (Some (match acc with Some a => 10 * a + d | None => d end)) r
        else acc
    | EmptyString => acc
    end.

  (** The Number value of an integer: the nearest IEEE 754 double, ties
      to even.  Integers up to 2^53 in size are exact; from 2^1024 - 2^970
      on the value is [Infinity], which [2^1024], the first integer beyond
      every finite double, stands for. *)
Definition toNumber (n : Z) : Z :=
    let a := Z.abs n in
    if a <? 2 ^ 53 then n
    else
      let e := Z.log2 a - 52 in
      let q := Z.shiftr a e in
      let r := a - Z.shiftl q e in
      let half := Z.shiftl 1 (e - 1) in
      let q' := if (half <? r) || ((r =? half) && Z.odd q) then q + 1 else q in
      let m := Z.shiftl q' e in
      Z.sgn n * (if 2 ^ 1024 <=? m then 2 ^ 1024 else m).

  (** [parseInt(s, 10)]; [None] is [NaN]. *)
Definition parseInt (s : string) : option Z :=
    option_map toNumber
      match trimStart s with
      | String "-" r => option_map Z.opp (digits None r)
      | String "+" r => digits None r
      | t => digits None t
      end.

End Js.

(** ** Data model *)

(** Document ids.  The driver's [ObjectId] and its hexadecimal string
    form ([toHexString], [new ObjectId(id)]) are one abstract key here;
    such a string is never empty, so [if (userId)] asks whether an id was
    passed at all. *)
Definition ObjectId := nat.
Bind Scope nat_scope with ObjectId.
(** Milliseconds since the epoch, as [Date.getTime()] reports them. *)
Definition Date := Z.
Bind Scope Z_scope with Date.

Inductive SeverityLevel := low | medium | high | critical.

Inductive SecurityEventType :=
| LOGIN_SUCCESS
| LOGIN_FAILED
| LOGIN_BLOCKED
| REGISTRATION_SUCCESS
| REGISTRATION_FAILED
| PASSWORD_RESET_REQUESTED
| PASSWORD_RESET_SUCCESS
| PASSWORD_RESET_FAILED
| TOKEN_VALIDATION_FAILED
| SUSPICIOUS_ACTIVITY
| ACCOUNT_LOCKED
| MULTIPLE_FAILED_ATTEMPTS.

Inductive UserRole := customer | admin | staff.

Definition SeverityLevel_eqb (a b : SeverityLevel) : bool :=
  match a, b with
  | low, low | medium, medium | high, high | critical, critical => true
  | _, _ => false
  end.

Definition SecurityEventType_eqb (a b : SecurityEventType) : bool :=
  match a, b with
  | LOGIN_SUCCESS, LOGIN_SUCCESS
  | LOGIN_FAILED, LOGIN_FAILED
  | LOGIN_BLOCKED, LOGIN_BLOCKED
  | REGISTRATION_SUCCESS, REGISTRATION_SUCCESS
  | REGISTRATION_FAILED, REGISTRATION_FAILED
  | PASSWORD_RESET_REQUESTED, PASSWORD_RESET_REQUESTED
  | PASSWORD_RESET_SUCCESS, PASSWORD_RESET_SUCCESS
  | PASSWORD_RESET_FAILED, PASSWORD_RESET_FAILED
  | TOKEN_VALIDATION_FAILED, TOKEN_VALIDATION_FAILED
  | SUSPICIOUS_ACTIVITY, SUSPICIOUS_ACTIVITY
  | ACCOUNT_LOCKED, ACCOUNT_LOCKED
  | MULTIPLE_FAILED_ATTEMPTS, MULTIPLE_FAILED_ATTEMPTS => true
  | _, _ => false
  end.

(** [a === b] where [a] is a possibly missing string field *)
Definition optStrIs (a : option string) (b : string) : bool :=
  match a with
  | Some s => (s =? b)%string
  | None => false
  end.

(** The [users] collection (the profile, business and notification
    sub-fields are not read by the authentication core and are left out). *)
Module UserDoc.
Record t := mk {
    _id : ObjectId;
    email : string;
    fullName : string;
    passwordHash : string;
    createdAt : Date;
    updatedAt : Date;
    emailVerified : bool;
    lastLogin : option Date;
    role : UserRole;
    locked : bool;
    lockReason : option string;
    lockedAt : option Date
  }.
End UserDoc.

(** The [refreshTokens] collection. *)
Module RefreshTokenDoc.
Record t := mk {
    _id : ObjectId;
    userId : ObjectId;
    token : string;
    expiresAt : Date;
    revoked : bool;
    revokedAt : option Date;
    createdAt : Date;
    ipAddress : option string;
    userAgent : option string
  }.
End RefreshTokenDoc.

Module CreateRefreshTokenInput.
Record t := mk {
    userId : ObjectId;
    token : string;
    expiresAt : Date;
    ipAddress : option string;
    userAgent : option string
  }.
End CreateRefreshTokenInput.

(** The [passwordResetTokens] collection. *)
Module PasswordResetTokenDoc.
Record t := mk {
    _id : ObjectId;
    userId : ObjectId;
    token : string;
    expiresAt : Date;
    used : bool;
    createdAt : Date
  }.
End PasswordResetTokenDoc.

(** The [auditLogs] collection. *)
Module AuditLogDoc.
Record t := mk {
    _id : ObjectId;
    eventType : SecurityEventType;
    severity : SeverityLevel;
    userId : option ObjectId;
    email : option string;
    ipAddress : option string;
    userAgent : option string;
    details : list (string * Js.Value);
    timestamp : Date;
    resolved : bool
  }.
End AuditLogDoc.

(** The claims carried by an access token. *)
Module JWTPayload.
Record t := mk {
    userId : ObjectId;
    email : string;
    role : UserRole;
    ipAddress : option string;
    userAgent : option string
  }.
End JWTPayload.

(** ** MongoDB collection primitives *)

Section Mongo.
Context {D : Type}.

  (** [col.findOne(q)]: the first matching document in natural order. *)
Definition findOne (q : D -> bool) (col : list D) : option D := find q col.

  (** [col.updateOne(q, upd)]: only the first matching document changes. *)
Fixpoint updateOne (q : D -> bool) (upd : D -> D) (col : list D) : list D :=
    match col with
    | [] => []
    | d :: r => if q d then upd d :: r else d :: updateOne q upd r
    end.

  (** [col.updateMany(q, upd)] *)
Definition updateMany (q : D -> bool) (upd : D -> D) (col : list D) : list D :=
    map (fun d => if q d then upd d else d) col.

  (** [col.countDocuments(q)] *)
Definition countDocuments (q : D -> bool) (col : list D) : nat :=
    length (filter q col).

  (** [col.insertOne(d)] *)
Definition insertOne (d : D) (col : list D) : list D := col ++ [d].
End Mongo.

(** ** Requests, responses and the handler monad *)

(** What a handler reads of an Express request. *)
Module Request.
Record t := mk {
    body : list (string * Js.Value);
    authorization : option string;      (* [req.headers.authorization] *)
    xForwardedFor : option string;      (* [req.headers['x-forwarded-for']] *)
    userAgentHeader : option string;    (* [req.headers['user-agent']] *)
    remoteAddress : option string       (* [req.socket.remoteAddress] *)
  }.
End Request.

(** [const { f } = req.body ?? {}] *)
Fixpoint field (f : string) (body : list (string * Js.Value)) : Js.Value :=
  match body with
  | [] => Js.Undefined
  | (k, v) :: r => if (k =? f)%string then v else field f r
  end.

(** An [Error] with the optional numeric [status] the routes attach. *)
Module HttpError.
Record t := mk { message : string; status : option nat }.
End HttpError.

(** The part of a user document returned to clients ([toUserProfile]). *)
Module UserProfile.
Record t := mk {
    id : ObjectId;
    email : string;
    fullName : string;
    emailVerified : bool;
    lastLogin : option Date;
    role : UserRole;
    createdAt : Date
  }.
End UserProfile.

(** The JSON bodies the modelled routes answer with. *)
Inductive Json :=
| ErrorJson (error : string)                          (* [{ error }] *)
| LimiterJson (error : string)                        (* [{ success: false, error }] *)
| MessageJson (message : string)                      (* [{ success: true, message }] *)
| LoginJson (user : UserProfile.t) (token refreshToken : string)
| ValidateJson (user : UserProfile.t)                 (* [{ user, valid: true }] *)
| MeJson (user : UserProfile.t).

Module Response.
Record t := mk { status : nat; json : Json }.
End Response.

(** A message handed to the nodemailer transport. *)
Module Mail.
Record t := mk { to : string; subject : string; resetToken : string }.
End Mail.

(** A line written by the winston logger. *)
Module LogLine.
Record t := mk { level : string; message : string }.
End LogLine.

(** The outcome of [fetch] on the breach-lookup endpoint, once it has
    settled.  The source sets no timeout: a lookup that never settles
    leaves the request pending and is not an outcome here. *)
Inductive FetchOutcome :=
| FetchThrows                                  (* network error: the promise rejects *)
| FetchResponse (ok : bool) (status : nat) (text : string).

(** The database and the other observable effects of the process. *)
Module World.
Record t := mk {
    users : list UserDoc.t;
    refreshTokens : list RefreshTokenDoc.t;
    passwordResetTokens : list PasswordResetTokenDoc.t;
    auditLogs : list AuditLogDoc.t;
    nextObjectId : ObjectId;
    outbox : list Mail.t;
    winston : list LogLine.t
  }.

Definition with_users (f : list UserDoc.t -> list UserDoc.t) (w : t) : t :=
    mk (f (users w)) (refreshTokens w) (passwordResetTokens w) (auditLogs w)
       (nextObjectId w) (outbox w) (winston w).
Definition with_refreshTokens
      (f : list RefreshTokenDoc.t -> list RefreshTokenDoc.t) (w : t) : t :=
    mk (users w) (f (refreshTokens w)) (passwordResetTokens w) (auditLogs w)
       (nextObjectId w) (outbox w) (winston w).
Definition with_passwordResetTokens
      (f : list PasswordResetTokenDoc.t -> list PasswordResetTokenDoc.t) (w : t) : t :=
    mk (users w) (refreshTokens w) (f (passwordResetTokens w)) (auditLogs w)
       (nextObjectId w) (outbox w) (winston w).
Definition with_auditLogs (f : list AuditLogDoc.t -> list AuditLogDoc.t) (w : t) : t :=
    mk (users w) (refreshTokens w) (passwordResetTokens w) (f (auditLogs w))
       (nextObjectId w) (outbox w) (winston w).
Definition with_nextObjectId (f : ObjectId -> ObjectId) (w : t) : t :=
    mk (users w) (refreshTokens w) (passwordResetTokens w) (auditLogs w)
       (f (nextObjectId w)) (outbox w) (winston w).
Definition with_outbox (f : list Mail.t -> list Mail.t) (w : t) : t :=
    mk (users w) (refreshTokens w) (passwordResetTokens w) (auditLogs w)
       (nextObjectId w) (f (outbox w)) (winston w).
Definition with_winston (f : list LogLine.t -> list LogLine.t) (w : t) : t :=
    mk (users w) (refreshTokens w) (passwordResetTokens w) (auditLogs w)
       (nextObjectId w) (outbox w) (f (winston w)).
End World.

(** What one request observes of the outside world while it is handled.
    A handler reads the clock whenever it stamps a record or compares a
    date; these readings are taken to be one, [now], except in the
    refresh route, whose outcome depends on a second one: there the
    handler works at [now] and the rotation it calls at [nowAgain]. *)
Module Env.
Record t := make {
    now : Date;                    (* [new Date()], [Date.now()] *)
    nowAgain : Date;               (* [new Date()] once more, in [rotateRefreshToken] *)
    randomToken : nat -> string;   (* [crypto.randomBytes(n).toString('base64url')] *)
    fetchOutcome : FetchOutcome;   (* the answer of api.pwnedpasswords.com *)
    sendMailOk : bool;             (* does [transporter.sendMail] resolve? *)
    apiLimiterAllows : bool;       (* does [apiLimiter], mounted on /v1/, call [next()]? *)
    routeLimiterAllows : bool      (* does the route's own limiter call [next()]? *)
  }.

  (** A request during which the clock does not advance. *)
Definition mk (now : Date) (randomToken : nat -> string) (fetchOutcome : FetchOutcome)
      (sendMailOk apiLimiterAllows routeLimiterAllows : bool) : t :=
    make now now randomToken fetchOutcome sendMailOk apiLimiterAllows routeLimiterAllows.

  (** The same request at its later reading of the clock. *)
Definition again (env : t) : t :=
    make (nowAgain env) (nowAgain env) (randomToken env) (fetchOutcome env)
      (sendMailOk env) (apiLimiterAllows env) (routeLimiterAllows env).
End Env.

(** [LocalTime(t)] and [UTC(t)] of ECMAScript, for a local time zone
    adjustment [tza t isUTC]. *)
Definition localTimeOf (tza : Date -> bool -> Z) (t : Date) : Z := t + tza t true.
Definition utcOf (tza : Date -> bool -> Z) (t : Z) : Date := t - tza t false.

(** What the sources take from their libraries and from the JavaScript
    runtime: bcrypt, jsonwebtoken (with the issuer, audience and secret
    the sources fix), SHA-1, the Unicode case tables behind
    [String.prototype.toLowerCase], the time zone of the server
    ([LocalTZA(t, isUTC)], in milliseconds) and its default locale
    ([Number.prototype.toLocaleString]). *)
Class Platform := {
  bcrypt_hash : string -> string;
  bcrypt_compare : string -> string -> bool;
  jwt_sign : JWTPayload.t -> Date -> string;
  jwt_verify : string -> Date -> option JWTPayload.t;
  sha1_hex_upper : string -> string;
  toLowerCase : string -> string;
  toLowerCase_ascii :
    forall s, Js.isAscii s = true -> toLowerCase s = Js.asciiLower s;
  localTZA : Date -> bool -> Z;
  toLocaleString : Z -> string
}.

(** [d.setDate(d.getDate() + n)], [d.setHours(d.getHours() + n)]: the
    date's local time moved by [delta] milliseconds and read back as a
    time value.  Where the zone's offset is the same at both ends this is
    [t + delta].  Times stay far inside the range of [Date], so that
    [TimeClip] does nothing. *)
Definition plusLocalTime `{Platform} (t : Date) (delta : Z) : Date :=
  utcOf localTZA (localTimeOf localTZA t + delta).

Inductive Outcome (A : Type) :=
| Ok (a : A)
| Throw (e : HttpError.t).
Arguments Ok {A} a.
Arguments Throw {A} e.

(** An [async] function over the database: writes made before a [throw]
    stay in the store. *)
Definition M (A : Type) : Type := World.t -> Outcome A * World.t.

Definition ret {A} (a : A) : M A := fun w => (Ok a, w).
Definition throw {A} (e : HttpError.t) : M A := fun w => (Throw e, w).
Definition bind {A B} (m : M A) (k : A -> M B) : M B :=
  fun w =>
    match m w with
    | (Ok a, w') => k a w'
    | (Throw e, w') => (Throw e, w')
    end.
Definition gets {A} (f : World.t -> A) : M A := fun w => (Ok (f w), w).
Definition modify (f : World.t -> World.t) : M unit := fun w => (Ok tt, f w).

Declare Scope handler_scope.
Delimit Scope handler_scope with handler.
Notation "x <- m ;; k" := (bind m (fun x => k))
  (at level 61, m at next level, right associativity) : handler_scope.
Notation "m ;; k" := (bind m (fun _ => k))
  (at level 61, right associativity) : handler_scope.
Local Open Scope handler_scope.

(** [insertOne] with the [_id] the driver allocates.  The driver's ids
    are opaque 12-byte values; the counter below is a stand-in that only
    keeps them apart. *)
Definition freshObjectId : M ObjectId :=
  id <- gets World.nextObjectId ;;
  modify (World.with_nextObjectId S) ;;
  ret id.

(** ** lib/validate.ts and middleware/error.ts *)

Definition badRequest (message : string) : HttpError.t :=
  HttpError.mk message (Some 400%nat).

Definition httpError (status : nat) (message : string) : HttpError.t :=
  HttpError.mk message (Some status).

Definition errorHandler (err : HttpError.t) : Response.t :=
  let status := match HttpError.status err with Some s => s | None => 500%nat end in
  Response.mk status (ErrorJson (HttpError.message err)).

(** A route: the handler's [try { ... } catch (e) { next(e) }] followed
    by [errorHandler]. *)
Definition route (handler : M Response.t) (w : World.t) : Response.t * World.t :=
  match handler w with
  | (Ok r, w') => (r, w')
  | (Throw e, w') => (errorHandler e, w')
  end.

(** The verdict of an express-rate-limit middleware on this request is
    read from the environment; a refusal answers 429 with the
    middleware's own body and never reaches what is mounted behind it. *)
Definition rateLimit (allows : bool) (limiterMessage : string)
    (next : World.t -> Response.t * World.t) (w : World.t) : Response.t * World.t :=
  if allows then next w
  else (Response.mk 429 (LimiterJson limiterMessage), w).

(** [app.use('/v1/', apiLimiter)] of the server entry point *)
Definition apiLimiter (env : Env.t) :=
  rateLimit (Env.apiLimiterAllows env)
    "Too many requests from this IP, please try again after 15 minutes".

(** middleware/rateLimit.ts *)
Definition authLimiter (env : Env.t) :=
  rateLimit (Env.routeLimiterAllows env)
    "Too many authentication attempts from this IP. Please try again after 15 minutes".

Definition passwordResetLimiter (env : Env.t) :=
  rateLimit (Env.routeLimiterAllows env)
    "Too many password reset requests from this IP. Please try again after 1 hour".

(** ** repos/auditLogRepo.ts *)

Definition createAuditLog (env : Env.t) (eventType : SecurityEventType)
    (severity : SeverityLevel) (userId : option ObjectId)
    (email ipAddress userAgent : option string)
    (details : list (string * Js.Value)) : M AuditLogDoc.t :=
  id <- freshObjectId ;;
  let doc := AuditLogDoc.mk id eventType severity userId email ipAddress userAgent
               details (Env.now env) false in
  modify (World.with_auditLogs (insertOne doc)) ;;
  ret doc.

(** [new Date(Date.now() - sinceMinutes * 60 * 1000)] *)
Definition sinceDate (env : Env.t) (sinceMinutes : Z) : Date :=
  Env.now env - sinceMinutes * 60 * 1000.

(** The query shared by the four counters below:
    [{ eventType, <field>: <value>, timestamp: { $gte: since } }]. *)
Definition loggedSince (since : Date) (eventType : SecurityEventType)
    (fieldIs : AuditLogDoc.t -> bool) (logs : list AuditLogDoc.t) : nat :=
  countDocuments
    (fun d => SecurityEventType_eqb (AuditLogDoc.eventType d) eventType
              && fieldIs d
              && (since <=? AuditLogDoc.timestamp d))
    logs.

(** [email: email.toLowerCase()] *)
Definition byEmail `{Platform} (email : string) (d : AuditLogDoc.t) : bool :=
  optStrIs (AuditLogDoc.email d) (toLowerCase email).

(** [ipAddress] *)
Definition byIP (ipAddress : string) (d : AuditLogDoc.t) : bool :=
  optStrIs (AuditLogDoc.ipAddress d) ipAddress.

Definition getFailedLoginAttempts `{Platform} (env : Env.t) (email : string) (sinceMinutes : Z)
    : M nat :=
  gets (fun w => loggedSince (sinceDate env sinceMinutes) LOGIN_FAILED
                   (byEmail email) (World.auditLogs w)).

Definition getFailedLoginAttemptsByIP (env : Env.t) (ipAddress : string)
    (sinceMinutes : Z) : M nat :=
  gets (fun w => loggedSince (sinceDate env sinceMinutes) LOGIN_FAILED
                   (byIP ipAddress) (World.auditLogs w)).

Definition getPasswordResetRequestsByEmail `{Platform} (env : Env.t) (email : string)
    (sinceMinutes : Z) : M nat :=
  gets (fun w => loggedSince (sinceDate env sinceMinutes) PASSWORD_RESET_REQUESTED
                   (byEmail email) (World.auditLogs w)).

Definition getPasswordResetRequestsByIP (env : Env.t) (ipAddress : string)
    (sinceMinutes : Z) : M nat :=
  gets (fun w => loggedSince (sinceDate env sinceMinutes) PASSWORD_RESET_REQUESTED
                   (byIP ipAddress) (World.auditLogs w)).

(** ** repos/refreshTokenRepo.ts *)

(** The read-back [findOne({ _id: result.insertedId })] is by primary
    key and returns the document just inserted. *)
Definition createRefreshToken (env : Env.t) (input : CreateRefreshTokenInput.t)
    : M RefreshTokenDoc.t :=
  id <- freshObjectId ;;
  let doc := RefreshTokenDoc.mk id
               (CreateRefreshTokenInput.userId input)
               (CreateRefreshTokenInput.token input)
               (CreateRefreshTokenInput.expiresAt input)
               false None (Env.now env)
               (CreateRefreshTokenInput.ipAddress input)
               (CreateRefreshTokenInput.userAgent input) in
  modify (World.with_refreshTokens (insertOne doc)) ;;
  ret doc.

(** The filter [{ token, revoked: false, expiresAt: { $gt: new Date() } }] *)
Definition isValidRefreshToken (now : Date) (token : string) (d : RefreshTokenDoc.t)
    : bool :=
  (RefreshTokenDoc.token d =? token)%string
  && negb (RefreshTokenDoc.revoked d)
  && (now <? RefreshTokenDoc.expiresAt d).

Definition findValidRefreshToken (env : Env.t) (token : string)
    : M (option RefreshTokenDoc.t) :=
  gets (fun w => findOne (isValidRefreshToken (Env.now env) token) (World.refreshTokens w)).

(** [$set: { revoked: true, revokedAt: new Date() }] *)
Definition setRevoked (now : Date) (d : RefreshTokenDoc.t) : RefreshTokenDoc.t :=
  RefreshTokenDoc.mk (RefreshTokenDoc._id d) (RefreshTokenDoc.userId d)
    (RefreshTokenDoc.token d) (RefreshTokenDoc.expiresAt d)
    true (Some now) (RefreshTokenDoc.createdAt d)
    (RefreshTokenDoc.ipAddress d) (RefreshTokenDoc.userAgent d).

Definition revokeRefreshToken (env : Env.t) (token : string) : M unit :=
  modify (World.with_refreshTokens
    (updateOne (fun d => (RefreshTokenDoc.token d =? token)%string)
               (setRevoked (Env.now env)))).

Definition revokeAllUserRefreshTokens (env : Env.t) (userId : ObjectId) : M unit :=
  modify (World.with_refreshTokens
    (updateMany (fun d => (RefreshTokenDoc.userId d =? userId)%nat
                          && negb (RefreshTokenDoc.revoked d))
                (setRevoked (Env.now env)))).

Definition rotateRefreshToken (env : Env.t) (oldToken : string)
    (newTokenData : CreateRefreshTokenInput.t) : M (option RefreshTokenDoc.t) :=
  oldRefreshToken <- findValidRefreshToken env oldToken ;;
  match oldRefreshToken with
  | None => ret None
  | Some _ =>
      revokeRefreshToken env oldToken ;;
      newRefreshToken <- createRefreshToken env newTokenData ;;
      ret (Some newRefreshToken)
  end.

(** ** repos/userRepo.ts *)

Definition findUserByEmail `{Platform} (email : string) : M (option UserDoc.t) :=
  gets (fun w =>
    findOne (fun d => (UserDoc.email d =? Js.trim (toLowerCase email))%string)
            (World.users w)).

Definition findUserById (id : ObjectId) : M (option UserDoc.t) :=
  gets (fun w => findOne (fun d => (UserDoc._id d =? id)%nat) (World.users w)).

Definition updateUser (id : ObjectId) (upd : UserDoc.t -> UserDoc.t) : M unit :=
  modify (World.with_users (updateOne (fun d => (UserDoc._id d =? id)%nat) upd)).

Definition updateLastLogin (env : Env.t) (userId : ObjectId) : M unit :=
  updateUser userId (fun d =>
    UserDoc.mk (UserDoc._id d) (UserDoc.email d) (UserDoc.fullName d)
      (UserDoc.passwordHash d) (UserDoc.createdAt d) (Env.now env)
      (UserDoc.emailVerified d) (Some (Env.now env)) (UserDoc.role d)
      (UserDoc.locked d) (UserDoc.lockReason d) (UserDoc.lockedAt d)).

Definition updatePassword (env : Env.t) (userId : ObjectId) (newPasswordHash : string)
    : M unit :=
  updateUser userId (fun d =>
    UserDoc.mk (UserDoc._id d) (UserDoc.email d) (UserDoc.fullName d)
      newPasswordHash (UserDoc.createdAt d) (Env.now env)
      (UserDoc.emailVerified d) (UserDoc.lastLogin d) (UserDoc.role d)
      (UserDoc.locked d) (UserDoc.lockReason d) (UserDoc.lockedAt d)).

Definition lockAccount (env : Env.t) (userId : ObjectId) (reason : string) : M unit :=
  updateUser userId (fun d =>
    UserDoc.mk (UserDoc._id d) (UserDoc.email d) (UserDoc.fullName d)
      (UserDoc.passwordHash d) (UserDoc.createdAt d) (Env.now env)
      (UserDoc.emailVerified d) (UserDoc.lastLogin d) (UserDoc.role d)
      true (Some reason) (Some (Env.now env))).

Definition createPasswordResetToken (env : Env.t) (userId : ObjectId) (token : string)
    (expiresAt : Date) : M PasswordResetTokenDoc.t :=
  id <- freshObjectId ;;
  let doc := PasswordResetTokenDoc.mk id userId token expiresAt false (Env.now env) in
  modify (World.with_passwordResetTokens (insertOne doc)) ;;
  ret doc.

Definition findPasswordResetToken (token : string) : M (option PasswordResetTokenDoc.t) :=
  gets (fun w =>
    findOne (fun d => (PasswordResetTokenDoc.token d =? token)%string
                      && negb (PasswordResetTokenDoc.used d))
            (World.passwordResetTokens w)).

Definition setUsed (d : PasswordResetTokenDoc.t) : PasswordResetTokenDoc.t :=
  PasswordResetTokenDoc.mk (PasswordResetTokenDoc._id d) (PasswordResetTokenDoc.userId d)
    (PasswordResetTokenDoc.token d) (PasswordResetTokenDoc.expiresAt d)
    true (PasswordResetTokenDoc.createdAt d).

Definition markTokenAsUsed (tokenId : ObjectId) : M unit :=
  modify (World.with_passwordResetTokens
    (updateOne (fun d => (PasswordResetTokenDoc._id d =? tokenId)%nat) setUsed)).

(** [toUserProfile] of models/user.ts *)
Definition toUserProfile (user : UserDoc.t) : UserProfile.t :=
  UserProfile.mk (UserDoc._id user) (UserDoc.email user) (UserDoc.fullName user)
    (UserDoc.emailVerified user) (UserDoc.lastLogin user) (UserDoc.role user)
    (UserDoc.createdAt user).

(** ** lib/auth.ts *)

Definition generateAccessToken `{Platform} (env : Env.t) (payload : JWTPayload.t) : string :=
  jwt_sign payload (Env.now env).

(** [jwt.verify] throws on a bad signature, expiry, issuer or audience;
    the [catch] turns that into [null]. *)
Definition verifyAccessToken `{Platform} (env : Env.t) (token : string)
    : option JWTPayload.t :=
  jwt_verify token (Env.now env).

Module Mismatch.
Record t := mk {
  ipChanged : bool;
  userAgentChanged : bool;
  originalIp : option string;
  currentIp : option string;
  originalUserAgent : option string;
  currentUserAgent : option string
}.
End Mismatch.

Module Verification.
Record t := mk {
  valid : bool;
  payload : option JWTPayload.t;
  mismatch : option Mismatch.t
}.
End Verification.

(** [a !== b] where [a] is a present claim *)
Definition differs (a : option string) (b : string) : bool := negb (optStrIs a b).

Definition verifyAccessTokenWithContext `{Platform} (env : Env.t) (token : string)
    (currentIpAddress currentUserAgent : string) : Verification.t :=
  match verifyAccessToken env token with
  | None => Verification.mk false None None
  | Some payload =>
      if negb (Js.truthyOpt (JWTPayload.ipAddress payload))
         || negb (Js.truthyOpt (JWTPayload.userAgent payload))
      then Verification.mk true (Some payload) None
      else
        let ipChanged := differs (JWTPayload.ipAddress payload) currentIpAddress in
        let userAgentChanged := differs (JWTPayload.userAgent payload) currentUserAgent in
        if ipChanged || userAgentChanged then
          Verification.mk false (Some payload)
            (Some (Mismatch.mk ipChanged userAgentChanged
                     (JWTPayload.ipAddress payload) (Some currentIpAddress)
                     (JWTPayload.userAgent payload) (Some currentUserAgent)))
        else Verification.mk true (Some payload) None
  end.

Definition generateSecureToken (env : Env.t) (bytes : nat) : string :=
  Env.randomToken env bytes.

(** [expiresAt.setHours(expiresAt.getHours() + 1)], in local time *)
Definition createPasswordResetTokenData `{Platform} (env : Env.t) (userId : ObjectId)
    : string * Date * ObjectId :=
  (generateSecureToken env 32, plusLocalTime (Env.now env) 3600000, userId).

Definition REFRESH_TOKEN_EXPIRES_DAYS : Z := 7.

(** [expiresAt.setDate(expiresAt.getDate() + REFRESH_TOKEN_EXPIRES_DAYS)],
    in local time *)
Definition createRefreshTokenData `{Platform} (env : Env.t) (userId : ObjectId)
    (ipAddress userAgent : option string) : CreateRefreshTokenInput.t :=
  CreateRefreshTokenInput.mk userId (generateSecureToken env 64)
    (plusLocalTime (Env.now env) (REFRESH_TOKEN_EXPIRES_DAYS * 86400000))
    ipAddress userAgent.

Definition isAlnum (c : ascii) : bool := Js.isUpper c || Js.isLower c || Js.isDigit c.

Definition validatePasswordStrength (password : string) : bool * list string :=
  let errors :=
    ((if (Js.length password <? 8)%nat
      then ["Password must be at least 8 characters long"] else [])
     ++ (if negb (Js.existsb Js.isUpper password)
         then ["Password must contain at least one uppercase letter"] else [])
     ++ (if negb (Js.existsb Js.isLower password)
         then ["Password must contain at least one lowercase letter"] else [])
     ++ (if negb (Js.existsb Js.isDigit password)
         then ["Password must contain at least one number"] else [])
     ++ (if negb (Js.existsb (fun c => negb (isAlnum c)) password)
         then ["Password must contain at least one special character"] else []))%list in
  ((length errors =? 0)%nat, errors).

Definition extractTokenFromHeader (authHeader : option string) : option string :=
  match authHeader with
  | None => None
  | Some h =>
      if negb (Js.nonEmpty h) then None
      else match Js.split " " h with
           | [scheme; token] => if (scheme =? "Bearer")%string then Some token else None
           | _ => None
           end
  end.

(** ** lib/email.ts *)

(** [transporter.sendMail] either resolves, and the message is out, or
    rejects, and the function rethrows a plain [Error]. *)
Definition sendPasswordResetEmail (env : Env.t) (email fullName resetToken : string)
    : M unit :=
  if Env.sendMailOk env then
    modify (World.with_outbox (fun o =>
      (o ++ [Mail.mk email "Reset Your Password - Appointment Booking" resetToken])%list))
  else throw (HttpError.mk "Failed to send password reset email" None).

(** ** lib/logger.ts *)

Definition getClientIP (req : Request.t) : string :=
  let forwarded :=
    option_map (fun s => hd EmptyString (Js.split "," s)) (Request.xForwardedFor req) in
  match Js.orElse (Js.orElse forwarded (Request.remoteAddress req)) (Some "unknown") with
  | Some ip => ip
  | None => "unknown"
  end.

Definition getUserAgent (req : Request.t) : string :=
  match Js.orElse (Request.userAgentHeader req) (Some "unknown") with
  | Some ua => ua
  | None => "unknown"
  end.

Definition eventName (e : SecurityEventType) : string :=
  match e with
  | LOGIN_SUCCESS => "LOGIN_SUCCESS"
  | LOGIN_FAILED => "LOGIN_FAILED"
  | LOGIN_BLOCKED => "LOGIN_BLOCKED"
  | REGISTRATION_SUCCESS => "REGISTRATION_SUCCESS"
  | REGISTRATION_FAILED => "REGISTRATION_FAILED"
  | PASSWORD_RESET_REQUESTED => "PASSWORD_RESET_REQUESTED"
  | PASSWORD_RESET_SUCCESS => "PASSWORD_RESET_SUCCESS"
  | PASSWORD_RESET_FAILED => "PASSWORD_RESET_FAILED"
  | TOKEN_VALIDATION_FAILED => "TOKEN_VALIDATION_FAILED"
  | SUSPICIOUS_ACTIVITY => "SUSPICIOUS_ACTIVITY"
  | ACCOUNT_LOCKED => "ACCOUNT_LOCKED"
  | MULTIPLE_FAILED_ATTEMPTS => "MULTIPLE_FAILED_ATTEMPTS"
  end.

Definition logError (message : string) : M unit :=
  modify (World.with_winston (fun l => (l ++ [LogLine.mk "error" message])%list)).

Definition logWarning (message : string) : M unit :=
  modify (World.with_winston (fun l => (l ++ [LogLine.mk "warn" message])%list)).

(** The [details] argument of [logSecurityEvent]. *)
Module EventDetails.
Record t := mk {
  userId : option ObjectId;
  email : option string;
  ipAddress : option string;
  userAgent : option string;
  metadata : option (list (string * Js.Value));
  req : option Request.t
}.
End EventDetails.

(** The store is always reachable here, so the [catch] around
    [createAuditLog] is never entered. *)
Definition logSecurityEvent (env : Env.t) (eventType : SecurityEventType)
    (severity : SeverityLevel) (details : EventDetails.t) : M unit :=
  let ipAddress :=
    Js.orElse (EventDetails.ipAddress details)
              (option_map getClientIP (EventDetails.req details)) in
  let userAgent :=
    Js.orElse (EventDetails.userAgent details)
              (option_map getUserAgent (EventDetails.req details)) in
  let logLevel :=
    match severity with
    | critical | high => "error"
    | _ => "warn"
    end in
  modify (World.with_winston (fun l =>
    (l ++ [LogLine.mk logLevel ("Security Event: " ++ eventName eventType)])%list)) ;;
  _ <- createAuditLog env eventType severity (EventDetails.userId details)
         (EventDetails.email details) ipAddress userAgent
         (match EventDetails.metadata details with Some m => m | None => [] end) ;;
  ret tt.

Module LoginCheck.
Record t := mk {
  blocked : bool;
  attemptsLeft : option Z;
  accountLocked : option bool
}.
End LoginCheck.

(** The severity ladder of [trackFailedLogin]. *)
Definition failedLoginSeverity (totalAttempts ipTotalAttempts : nat) : SeverityLevel :=
  if (5 <=? totalAttempts)%nat || (10 <=? ipTotalAttempts)%nat then critical
  else if (3 <=? totalAttempts)%nat || (5 <=? ipTotalAttempts)%nat then high
  else if (2 <=? totalAttempts)%nat then medium
  else low.

Definition num (n : nat) : Js.Value := Js.Num (Z.of_nat n).

(** The [details] objects [trackFailedLogin] passes to [logSecurityEvent]. *)
Definition loginFailedDetails (email ipAddress userAgent reason : string)
    (totalAttempts ipTotalAttempts dailyAttempts : nat) : EventDetails.t :=
  EventDetails.mk None (Some email) (Some ipAddress) (Some userAgent)
    (Some [("reason", Js.Str reason); ("emailAttempts", num totalAttempts);
           ("ipAttempts", num ipTotalAttempts); ("dailyAttempts", num dailyAttempts)])
    None.

Definition accountLockedDetails (userId : ObjectId) (email ipAddress userAgent : string)
    (dailyAttempts : nat) : EventDetails.t :=
  EventDetails.mk (Some userId) (Some email) (Some ipAddress) (Some userAgent)
    (Some [("reason", Js.Str "Too many failed login attempts");
           ("attemptsIn24Hours", num dailyAttempts)])
    None.

Definition loginBlockedDetails (email ipAddress userAgent : string)
    (totalAttempts ipTotalAttempts : nat) : EventDetails.t :=
  EventDetails.mk None (Some email) (Some ipAddress) (Some userAgent)
    (Some [("reason", Js.Str "Too many failed attempts");
           ("emailAttempts", num totalAttempts);
           ("ipAttempts", num ipTotalAttempts)])
    None.

Definition lockMessage : string :=
  "Account locked after 10 failed login attempts in 24 hours. Please reset your password to unlock.".

Definition trackFailedLogin `{Platform} (env : Env.t) (email : string) (req : Request.t)
    (reason : string) (userId : option ObjectId) : M LoginCheck.t :=
  let ipAddress := getClientIP req in
  let userAgent := getUserAgent req in
  shortTermAttempts <- getFailedLoginAttempts env email 15 ;;
  longTermAttempts <- getFailedLoginAttempts env email 1440 ;;
  ipAttempts <- getFailedLoginAttemptsByIP env ipAddress 15 ;;
  let totalAttempts := (shortTermAttempts + 1)%nat in
  let ipTotalAttempts := (ipAttempts + 1)%nat in
  let dailyAttempts := (longTermAttempts + 1)%nat in
  let severity := failedLoginSeverity totalAttempts ipTotalAttempts in
  logSecurityEvent env LOGIN_FAILED severity
    (loginFailedDetails email ipAddress userAgent reason
       totalAttempts ipTotalAttempts dailyAttempts) ;;
  match (if (10 <=? dailyAttempts)%nat then userId else None) with
  | Some uid =>
      lockAccount env uid lockMessage ;;
      logSecurityEvent env ACCOUNT_LOCKED critical
        (accountLockedDetails uid email ipAddress userAgent dailyAttempts) ;;
      ret (LoginCheck.mk true None (Some true))
  | None =>
      let maxAttempts := 5%nat in
      let blocked := (maxAttempts <=? totalAttempts)%nat || (10 <=? ipTotalAttempts)%nat in
      if blocked then
        logSecurityEvent env LOGIN_BLOCKED critical
          (loginBlockedDetails email ipAddress userAgent totalAttempts ipTotalAttempts) ;;
        ret (LoginCheck.mk true None None)
      else
        ret (LoginCheck.mk false
               (Some (Z.of_nat maxAttempts - Z.of_nat totalAttempts)) None)
  end.

(** [new Date().toISOString()] inside a metadata map, kept as the
    millisecond count it prints. *)
Definition isoNow (env : Env.t) : Js.Value := Js.Num (Env.now env).

(** An [ObjectId] inside a metadata map. *)
Definition idValue (id : ObjectId) : Js.Value := Js.Num (Z.of_nat id).

Definition optValue {A} (f : A -> Js.Value) (o : option A) : Js.Value :=
  match o with
  | Some a => f a
  | None => Js.Undefined
  end.

Definition trackSuccessfulLogin (env : Env.t) (userId : ObjectId) (email : string)
    (req : Request.t) : M unit :=
  logSecurityEvent env LOGIN_SUCCESS low
    (EventDetails.mk (Some userId) (Some email) None None
       (Some [("timestamp", isoNow env)]) (Some req)).

Module ResetCheck.
Record t := mk { blocked : bool; reason : option string }.
End ResetCheck.

Definition trackPasswordResetRequest `{Platform} (env : Env.t) (email : string) (req : Request.t)
    (userExists : bool) : M ResetCheck.t :=
  let ipAddress := getClientIP req in
  let userAgent := getUserAgent req in
  emailResets <- getPasswordResetRequestsByEmail env email 60 ;;
  ipResets <- getPasswordResetRequestsByIP env ipAddress 60 ;;
  let totalEmailResets := (emailResets + 1)%nat in
  let totalIpResets := (ipResets + 1)%nat in
  let severity :=
    if (3 <=? totalEmailResets)%nat || (5 <=? totalIpResets)%nat then critical
    else if (2 <=? totalEmailResets)%nat || (3 <=? totalIpResets)%nat then high
    else low in
  logSecurityEvent env PASSWORD_RESET_REQUESTED severity
    (EventDetails.mk None (Some email) (Some ipAddress) (Some userAgent)
       (Some [("userExists", Js.Bool userExists);
              ("emailResets", num totalEmailResets);
              ("ipResets", num totalIpResets);
              ("timestamp", isoNow env)])
       None) ;;
  let maxEmailResets := 3%nat in
  let maxIpResets := 5%nat in
  let blocked := (maxEmailResets <? totalEmailResets)%nat
                 || (maxIpResets <? totalIpResets)%nat in
  if blocked then
    let reason :=
      if (maxEmailResets <? totalEmailResets)%nat
      then "Too many password reset requests for this email. Please try again in 1 hour."
      else "Too many password reset requests from this location. Please try again in 1 hour." in
    logSecurityEvent env SUSPICIOUS_ACTIVITY critical
      (EventDetails.mk None (Some email) (Some ipAddress) (Some userAgent)
         (Some [("activity", Js.Str "Password reset flooding detected");
                ("emailResets", num totalEmailResets);
                ("ipResets", num totalIpResets);
                ("blocked", Js.Bool true)])
         None) ;;
    ret (ResetCheck.mk true (Some reason))
  else
    (if (2 <=? totalEmailResets)%nat || (3 <=? totalIpResets)%nat then
       logSecurityEvent env SUSPICIOUS_ACTIVITY high
         (EventDetails.mk None (Some email) (Some ipAddress) (Some userAgent)
            (Some [("activity", Js.Str "Multiple password reset requests");
                   ("emailResets", num totalEmailResets);
                   ("ipResets", num totalIpResets)])
            None)
     else ret tt) ;;
    ret (ResetCheck.mk false None).

Definition trackPasswordReset (env : Env.t) (success : bool) (userId : option ObjectId)
    (email : option string) (req : option Request.t) (reason : option string)
    : M unit :=
  let eventType := if success then PASSWORD_RESET_SUCCESS else PASSWORD_RESET_FAILED in
  let severity := if success then medium else high in
  logSecurityEvent env eventType severity
    (EventDetails.mk userId email None None
       (Some [("reason", optValue Js.Str reason); ("timestamp", isoNow env)]) req).

Definition trackSuspiciousActivity (env : Env.t) (activity : string) (req : Request.t)
    (details : list (string * Js.Value)) : M unit :=
  logSecurityEvent env SUSPICIOUS_ACTIVITY high
    (EventDetails.mk None None None None
       (Some ((("activity", Js.Str activity) :: details)
              ++ [("timestamp", isoNow env)])%list)
       (Some req)).

Definition trackTokenValidationFailure (env : Env.t) (reason : string) (req : Request.t)
    (token : option string) : M unit :=
  logSecurityEvent env TOKEN_VALIDATION_FAILED medium
    (EventDetails.mk None None None None
       (Some [("reason", Js.Str reason);
              ("tokenPreview",
               if Js.truthyOpt token
               then optValue (fun t => Js.Str (Js.take 20 t ++ "...")) token
               else Js.Undefined);
              ("timestamp", isoNow env)])
       (Some req)).

(** ** lib/passwordBreach.ts *)

Module BreachResult.
Record t := mk {
  breached : bool;
  count : option Z;            (* [None] is [NaN] *)
  error : option string
}.
End BreachResult.

(** One step of the [for (const line of lines)] loop: [None] when the
    suffix does not match, [Some None] when [countStr.trim()] throws
    because the line has no colon, [Some (Some c)] for a hit. *)
Definition matchLine (suffix line : string) : option (option (option Z)) :=
  match Js.split ":" line with
  | hashSuffix :: rest =>
      if (hashSuffix =? suffix)%string then
        match rest with
        | countStr :: _ => Some (Some (Js.parseInt (Js.trim countStr)))
        | [] => Some None
        end
      else None
  | [] => None
  end.

Fixpoint scanLines (suffix : string) (lines : list string)
    : option (option (option Z)) :=
  match lines with
  | [] => None
  | line :: rest =>
      match matchLine suffix line with
      | Some r => Some r
      | None => scanLines suffix rest
      end
  end.

Definition breachUnavailable : BreachResult.t :=
  BreachResult.mk false (Some 0) (Some "Unable to verify password breach status").

Definition checkPasswordBreach `{Platform} (env : Env.t) (password : string)
    : M BreachResult.t :=
  let hash := sha1_hex_upper password in
  let prefix := Js.take 5 hash in
  let suffix := Js.drop 5 hash in
  match Env.fetchOutcome env with
  | FetchThrows =>
      logError "Error checking password breach" ;;
      ret breachUnavailable
  | FetchResponse ok status data =>
      if negb ok then
        logError "HaveIBeenPwned API error" ;;
        ret breachUnavailable
      else
        match scanLines suffix (Js.split "010" data) with
        | Some (Some count) =>
            logWarning "Password found in breach database" ;;
            ret (BreachResult.mk true count None)
        | Some None =>
            logError "Error checking password breach" ;;
            ret breachUnavailable
        | None => ret (BreachResult.mk false (Some 0) None)
        end
  end.

Module BreachValidation.
Record t := mk {
  valid : bool;
  error : option string;
  breachCount : option Z
}.
End BreachValidation.

(** The decimal digits of an integer (none for zero). *)
Definition decimal (n : Z) : string :=
  DecimalString.NilZero.string_of_int (Z.to_int n).

Definition validatePasswordNotBreached `{Platform} (env : Env.t) (password : string)
    (threshold : Z) : M BreachValidation.t :=
  result <- checkPasswordBreach env password ;;
  if Js.truthyOpt (BreachResult.error result) then
    ret (BreachValidation.mk true None None)
  else
    match BreachResult.count result with
    | Some count =>
        if BreachResult.breached result && (threshold <=? count) then
          ret (BreachValidation.mk false
                 (Some ("This password has been exposed in " ++ toLocaleString count
                        ++ " data breach" ++ (if 1 <? count then "es" else "")
                        ++ ". Please choose a different password."))
                 (Some count))
        else ret (BreachValidation.mk true None None)
    | None => ret (BreachValidation.mk true None None)
    end.

(** ** routes/auth.ts *)

Definition loginHandler `{Platform} (env : Env.t) (req : Request.t) : M Response.t :=
  match field "email" (Request.body req) with
  | Js.Str email =>
    if negb (Js.nonEmpty email) || negb (Js.nonEmpty (Js.trim email))
    then throw (badRequest "Email is required")
    else
    match field "password" (Request.body req) with
    | Js.Str password =>
      if negb (Js.nonEmpty password) then throw (badRequest "Password is required")
      else
      user <- findUserByEmail email ;;
      match user with
      | None =>
          loginCheck <- trackFailedLogin env email req "User not found" None ;;
          if LoginCheck.blocked loginCheck then
            throw (httpError 429 "Too many failed login attempts. Please try again later.")
          else throw (badRequest "Invalid email or password")
      | Some user =>
          if UserDoc.locked user then
            let lockReason :=
              match UserDoc.lockReason user with
              | Some r => if Js.nonEmpty r then r
                          else "Account locked due to security concerns"
              | None => "Account locked due to security concerns"
              end in
            trackSuspiciousActivity env "Login attempt on locked account" req
              [("userId", idValue (UserDoc._id user));
               ("email", Js.Str (UserDoc.email user));
               ("lockReason", Js.Str lockReason)] ;;
            throw (httpError 403 ("Account is locked. " ++ lockReason))
          else
            if negb (bcrypt_compare password (UserDoc.passwordHash user)) then
              loginCheck <- trackFailedLogin env email req "Invalid password" None ;;
              if LoginCheck.blocked loginCheck then
                throw (httpError 429
                         "Too many failed login attempts. Please try again later.")
              else throw (badRequest "Invalid email or password")
            else
              trackSuccessfulLogin env (UserDoc._id user) (UserDoc.email user) req ;;
              updateLastLogin env (UserDoc._id user) ;;
              let token :=
                generateAccessToken env
                  (JWTPayload.mk (UserDoc._id user) (UserDoc.email user)
                     (UserDoc.role user) (Some (getClientIP req))
                     (Some (getUserAgent req))) in
              let refreshTokenData :=
                createRefreshTokenData env (UserDoc._id user)
                  (Some (getClientIP req)) (Some (getUserAgent req)) in
              _ <- createRefreshToken env refreshTokenData ;;
              ret (Response.mk 200
                     (LoginJson (toUserProfile user) token
                        (CreateRefreshTokenInput.token refreshTokenData)))
      end
    | _ => throw (badRequest "Password is required")
    end
  | _ => throw (badRequest "Email is required")
  end.

Definition POST_auth_login `{Platform} (env : Env.t) (req : Request.t)
    : World.t -> Response.t * World.t :=
  apiLimiter env (authLimiter env (route (loginHandler env req))).

Definition forgotPasswordMessage : string :=
  "If an account exists with this email, a password reset link has been sent".

Definition forgotPasswordHandler `{Platform} (env : Env.t) (req : Request.t) : M Response.t :=
  match field "email" (Request.body req) with
  | Js.Str email =>
    if negb (Js.nonEmpty email) || negb (Js.nonEmpty (Js.trim email))
    then throw (badRequest "Email is required")
    else
      user <- findUserByEmail email ;;
      resetCheck <- trackPasswordResetRequest env email req
                      (match user with Some _ => true | None => false end) ;;
      if ResetCheck.blocked resetCheck then
        throw (httpError 429
                 (match ResetCheck.reason resetCheck with
                  | Some r => if Js.nonEmpty r then r
                              else "Too many password reset requests"
                  | None => "Too many password reset requests"
                  end))
      else
        (match user with
         | Some user =>
             let '(token, expiresAt, userId) :=
               createPasswordResetTokenData env (UserDoc._id user) in
             _ <- createPasswordResetToken env userId token expiresAt ;;
             sendPasswordResetEmail env (UserDoc.email user) (UserDoc.fullName user) token
         | None => ret tt
         end) ;;
        ret (Response.mk 200 (MessageJson forgotPasswordMessage))
  | _ => throw (badRequest "Email is required")
  end.

Definition POST_auth_forgot_password `{Platform} (env : Env.t) (req : Request.t)
    : World.t -> Response.t * World.t :=
  apiLimiter env (passwordResetLimiter env (route (forgotPasswordHandler env req))).

(** [errors.join(', ')] *)
Definition joinErrors (errors : list string) : string := String.concat ", " errors.

Definition resetPasswordHandler `{Platform} (env : Env.t) (req : Request.t)
    : M Response.t :=
  match field "token" (Request.body req) with
  | Js.Str token =>
    if negb (Js.nonEmpty token) then throw (badRequest "Reset token is required")
    else
    match field "password" (Request.body req) with
    | Js.Str password =>
      if negb (Js.nonEmpty password) then throw (badRequest "New password is required")
      else
      let passwordValidation := validatePasswordStrength password in
      if negb (fst passwordValidation) then
        throw (httpError 400 (joinErrors (snd passwordValidation)))
      else
      breachValidation <- validatePasswordNotBreached env password 1 ;;
      if negb (BreachValidation.valid breachValidation) then
        throw (httpError 400
                 (match BreachValidation.error breachValidation with
                  | Some e => if Js.nonEmpty e then e
                              else "Password has been compromised in a data breach"
                  | None => "Password has been compromised in a data breach"
                  end))
      else
      resetToken <- findPasswordResetToken token ;;
      match resetToken with
      | None =>
          trackPasswordReset env false None None (Some req)
            (Some "Invalid or expired token") ;;
          throw (badRequest "Invalid or expired reset token")
      | Some resetToken =>
          if PasswordResetTokenDoc.expiresAt resetToken <? Env.now env then
            trackPasswordReset env false (Some (PasswordResetTokenDoc.userId resetToken))
              None (Some req) (Some "Token expired") ;;
            throw (badRequest "Reset token has expired")
          else
            user <- findUserById (PasswordResetTokenDoc.userId resetToken) ;;
            let passwordHash := bcrypt_hash password in
            updatePassword env (PasswordResetTokenDoc.userId resetToken) passwordHash ;;
            markTokenAsUsed (PasswordResetTokenDoc._id resetToken) ;;
            trackPasswordReset env true (Some (PasswordResetTokenDoc.userId resetToken))
              (option_map UserDoc.email user) (Some req) None ;;
            ret (Response.mk 200 (MessageJson "Password has been reset successfully"))
      end
    | _ => throw (badRequest "New password is required")
    end
  | _ => throw (badRequest "Reset token is required")
  end.

Definition POST_auth_reset_password `{Platform} (env : Env.t) (req : Request.t)
    : World.t -> Response.t * World.t :=
  apiLimiter env (route (resetPasswordHandler env req)).

Definition hijackDetails (v : Verification.t) (m : Mismatch.t) : list (string * Js.Value) :=
  [("userId", optValue (fun p => idValue (JWTPayload.userId p)) (Verification.payload v));
   ("email", optValue (fun p => Js.Str (JWTPayload.email p)) (Verification.payload v));
   ("ipChanged", Js.Bool (Mismatch.ipChanged m));
   ("userAgentChanged", Js.Bool (Mismatch.userAgentChanged m));
   ("originalIp", optValue Js.Str (Mismatch.originalIp m));
   ("currentIp", optValue Js.Str (Mismatch.currentIp m))].

Definition validateHandler `{Platform} (env : Env.t) (req : Request.t) : M Response.t :=
  let token := extractTokenFromHeader (Request.authorization req) in
  match token with
  | Some tok =>
    if negb (Js.nonEmpty tok) then
      trackTokenValidationFailure env "Missing authorization token" req None ;;
      throw (badRequest "Authorization token is required")
    else
    let currentIp := getClientIP req in
    let currentUserAgent := getUserAgent req in
    let verification := verifyAccessTokenWithContext env tok currentIp currentUserAgent in
    match Verification.valid verification, Verification.payload verification with
    | true, Some payload =>
        user <- findUserById (JWTPayload.userId payload) ;;
        match user with
        | None =>
            trackTokenValidationFailure env "User not found for token" req token ;;
            throw (httpError 404 "User not found")
        | Some user =>
            ret (Response.mk 200 (ValidateJson (toUserProfile user)))
        end
    | _, _ =>
        match Verification.mismatch verification with
        | Some m =>
            trackSuspiciousActivity env "Session hijacking attempt detected" req
              (hijackDetails verification m
               ++ [("originalUserAgent", optValue Js.Str (Mismatch.originalUserAgent m));
                   ("currentUserAgent", optValue Js.Str (Mismatch.currentUserAgent m))])%list ;;
            throw (httpError 401 "Session hijacking detected. Please log in again.")
        | None =>
            trackTokenValidationFailure env "Invalid or expired JWT" req token ;;
            throw (httpError 401 "Invalid or expired token")
        end
    end
  | None =>
      trackTokenValidationFailure env "Missing authorization token" req None ;;
      throw (badRequest "Authorization token is required")
  end.

Definition GET_auth_validate `{Platform} (env : Env.t) (req : Request.t)
    : World.t -> Response.t * World.t :=
  apiLimiter env (route (validateHandler env req)).

Definition meHandler `{Platform} (env : Env.t) (req : Request.t) : M Response.t :=
  let token := extractTokenFromHeader (Request.authorization req) in
  match token with
  | Some tok =>
    if negb (Js.nonEmpty tok) then throw (httpError 401 "Authentication required")
    else
    let currentIp := getClientIP req in
    let currentUserAgent := getUserAgent req in
    let verification := verifyAccessTokenWithContext env tok currentIp currentUserAgent in
    match Verification.valid verification, Verification.payload verification with
    | true, Some payload =>
        user <- findUserById (JWTPayload.userId payload) ;;
        match user with
        | None => throw (httpError 404 "User not found")
        | Some user => ret (Response.mk 200 (MeJson (toUserProfile user)))
        end
    | _, _ =>
        match Verification.mismatch verification with
        | Some m =>
            trackSuspiciousActivity env "Session hijacking attempt detected" req
              (hijackDetails verification m) ;;
            throw (httpError 401 "Session hijacking detected. Please log in again.")
        | None => throw (httpError 401 "Invalid or expired token")
        end
    end
  | None => throw (httpError 401 "Authentication required")
  end.

Definition GET_auth_me `{Platform} (env : Env.t) (req : Request.t)
    : World.t -> Response.t * World.t :=
  apiLimiter env (route (meHandler env req)).

Definition logoutHandler (env : Env.t) (req : Request.t) : M Response.t :=
  match field "refreshToken" (Request.body req) with
  | Js.Str refreshToken =>
    if negb (Js.nonEmpty refreshToken) then throw (badRequest "Refresh token is required")
    else
      revokeRefreshToken env refreshToken ;;
      ret (Response.mk 200 (MessageJson "Logged out successfully"))
  | _ => throw (badRequest "Refresh token is required")
  end.

Definition POST_auth_logout (env : Env.t) (req : Request.t)
    : World.t -> Response.t * World.t :=
  apiLimiter env (route (logoutHandler env req)).

(** ** Interleaved executions of [rotateRefreshToken]

    The function awaits three store operations in turn; between two of
    them the event loop (or another server instance) may run a step of
    another request. *)

Inductive RotateState :=
| RotateFind                                  (* before [findValidRefreshToken] *)
| RotateRevoke                                (* before [revokeRefreshToken] *)
| RotateCreate                                (* before [createRefreshToken] *)
| RotateDone (result : option RefreshTokenDoc.t).

Module Rotation.
Record t := mk {
  env : Env.t;
  oldToken : string;
  newTokenData : CreateRefreshTokenInput.t;
  state : RotateState
}.
End Rotation.

Definition rotateStep (r : Rotation.t) (w : World.t) : Rotation.t * World.t :=
  let continue st := Rotation.mk (Rotation.env r) (Rotation.oldToken r)
                       (Rotation.newTokenData r) st in
  match Rotation.state r with
  | RotateFind =>
      match findValidRefreshToken (Rotation.env r) (Rotation.oldToken r) w with
      | (Ok (Some _), w') => (continue RotateRevoke, w')
      | (_, w') => (continue (RotateDone None), w')
      end
  | RotateRevoke =>
      (continue RotateCreate,
       snd (revokeRefreshToken (Rotation.env r) (Rotation.oldToken r) w))
  | RotateCreate =>
      match createRefreshToken (Rotation.env r) (Rotation.newTokenData r) w with
      | (Ok d, w') => (continue (RotateDone (Some d)), w')
      | (Throw _, w') => (continue (RotateDone None), w')
      end
  | RotateDone _ => (r, w)
  end.

(** Run the pending rotations under a schedule: each entry names the
    rotation that takes its next step. *)
Fixpoint stepNth (i : nat) (rs : list Rotation.t) (w : World.t)
    : list Rotation.t * World.t :=
  match rs, i with
  | [], _ => ([], w)
  | r :: rest, O => let (r', w') := rotateStep r w in (r' :: rest, w')
  | r :: rest, S j => let (rest', w') := stepNth j rest w in (r :: rest', w')
  end.

Fixpoint runSchedule (schedule : list nat) (rs : list Rotation.t) (w : World.t)
    : list Rotation.t * World.t :=
  match schedule with
  | [] => (rs, w)
  | i :: later => let (rs', w') := stepNth i rs w in runSchedule later rs' w'
  end.

Definition succeeded (r : Rotation.t) : bool :=
  match Rotation.state r with
  | RotateDone (Some _) => true
  | _ => false
  end.

(** ** Serving a sequence of requests *)

Fixpoint serve {R : Type} (handle : R -> World.t -> Response.t * World.t)
    (requests : list R) (w : World.t) : list Response.t * World.t :=
  match requests with
  | [] => ([], w)
  | r :: rest =>
      let (resp, w1) := handle r w in
      let (resps, w2) := serve handle rest w1 in
      (resp :: resps, w2)
  end.

(** The severities of the [LOGIN_FAILED] entries of an audit log, oldest first. *)
Definition failedLoginSeverities (w : World.t) : list SeverityLevel :=
  map AuditLogDoc.severity
      (filter (fun d => SecurityEventType_eqb (AuditLogDoc.eventType d) LOGIN_FAILED)
              (World.auditLogs w)).

Definition eventTypes (w : World.t) : list SecurityEventType :=
  map AuditLogDoc.eventType (World.auditLogs w).

(** The breach lookup did not produce a usable answer: [fetch] rejected
    or the response is not [ok]. *)
Definition lookupFailed (o : FetchOutcome) : bool :=
  match o with
  | FetchThrows => true
  | FetchResponse ok _ _ => negb ok
  end.

(** ** A concrete instance for worked scenarios

    Stand-ins for the libraries: a keyless digest for bcrypt, one known
    access token for jsonwebtoken, a constant SHA-1. *)

Definition demoPayload : JWTPayload.t :=
  JWTPayload.mk 1 "alice@example.com" customer (Some "203.0.113.7") (Some "Mozilla/5.0").

(** Digits in groups of three, as the en-US locale prints an integer. *)
Fixpoint groupDigits (s : string) : string :=
  match s with
  | EmptyString => EmptyString
  | String c r =>
      String c
        (if (0 <? String.length r)%nat && (String.length r mod 3 =? 0)%nat
         then String "," (groupDigits r) else groupDigits r)
  end.

Definition enUS (n : Z) : string :=
  (if n <? 0 then "-" else "")
  ++ (if 2 ^ 1024 <=? Z.abs n
      then String "226" (String "136" (String "158" EmptyString))
      else if n =? 0 then "0" else groupDigits (decimal (Z.abs n))).

(** The libraries and the runtime of the worked scenarios: a server in
    UTC with the en-US locale, whose strings are all ASCII. *)
Definition demoPlatform : Platform :=
  {| bcrypt_hash := fun pw => "$2b$12$" ++ pw;
     bcrypt_compare := fun pw h => (h =? "$2b$12$" ++ pw)%string;
     jwt_sign := fun p _ => "jwt:" ++ JWTPayload.email p;
     jwt_verify := fun tok _ =>
       if (tok =? "jwt:alice@example.com")%string then Some demoPayload else None;
     sha1_hex_upper := fun _ => "7C4A8D09CA3762AF61E59520943DC26494F8941B";
     toLowerCase := Js.asciiLower;
     toLowerCase_ascii := fun _ _ => eq_refl;
     localTZA := fun _ _ => 0;
     toLocaleString := enUS |}.

Definition aliceDoc : UserDoc.t :=
  UserDoc.mk 1 "alice@example.com" "Alice" ("$2b$12$" ++ "Str0ng!Pass9")
    0 0 false None customer false None None.

(** One registered, unlocked account and nothing else. *)
Definition world0 : World.t := World.mk [aliceDoc] [] [] [] 2 [] [].

Definition minutes (n : Z) : Date := n * 60000.

(** The environment of a request served at time [t]: the breach lookup
    answers an empty range, the mail transport and the limiters accept. *)
Definition envAt (t : Date) : Env.t :=
  Env.mk t (fun n => "random-" ++ decimal t) (FetchResponse true 200 "") true true true.

Definition requestFrom (ip : string) (authorization : option string)
    (body : list (string * Js.Value)) : Request.t :=
  Request.mk body authorization None (Some "Mozilla/5.0") (Some ip).

Definition loginRequest (ip email password : string) : Request.t :=
  requestFrom ip None [("email", Js.Str email); ("password", Js.Str password)].

(** A session of the demo account: one refresh token ["T"], valid for a week. *)
Definition sessionDoc : RefreshTokenDoc.t :=
  RefreshTokenDoc.mk 2 1 "T" (minutes 10080) false None 0
    (Some "203.0.113.7") (Some "Mozilla/5.0").

Definition worldWithSession : World.t := World.mk [aliceDoc] [sessionDoc] [] [] 3 [] [].

Definition replacement (token : string) : CreateRefreshTokenInput.t :=
  CreateRefreshTokenInput.mk 1 token (minutes 20160)
    (Some "203.0.113.7") (Some "Mozilla/5.0").

(** A refresh-token record without its revocation time stamp. *)
Definition forgetRevokedAt (d : RefreshTokenDoc.t) : RefreshTokenDoc.t :=
  RefreshTokenDoc.mk (RefreshTokenDoc._id d) (RefreshTokenDoc.userId d)
    (RefreshTokenDoc.token d) (RefreshTokenDoc.expiresAt d)
    (RefreshTokenDoc.revoked d) None (RefreshTokenDoc.createdAt d)
    (RefreshTokenDoc.ipAddress d) (RefreshTokenDoc.userAgent d).

Definition hasToken (token : string) (d : RefreshTokenDoc.t) : bool :=
  (RefreshTokenDoc.token d =? token)%string.

(** The document [createRefreshToken] stores for an input. *)
Definition createdFrom (env : Env.t) (w : World.t) (input : CreateRefreshTokenInput.t)
    : RefreshTokenDoc.t :=
  RefreshTokenDoc.mk (World.nextObjectId w)
    (CreateRefreshTokenInput.userId input) (CreateRefreshTokenInput.token input)
    (CreateRefreshTokenInput.expiresAt input) false None (Env.now env)
    (CreateRefreshTokenInput.ipAddress input) (CreateRefreshTokenInput.userAgent input).


(** ** Failed login attempts

    [failedLoginEmail w req] is [Some email] when [req], served in [w],
    is a login that fails authentication, that is, one the handler hands
    to [trackFailedLogin]: well-formed credentials naming no account, or
    naming an unlocked account with a password that does not verify. *)
Definition failedLoginEmail `{Platform} (w : World.t) (req : Request.t) : option string :=
  match field "email" (Request.body req), field "password" (Request.body req) with
  | Js.Str email, Js.Str password =>
      if Js.nonEmpty email && Js.nonEmpty (Js.trim email) && Js.nonEmpty password then
        match findOne (fun d => (UserDoc.email d =? Js.trim (toLowerCase email))%string)
                      (World.users w) with
        | None => Some email
        | Some user =>
            if negb (UserDoc.locked user)
               && negb (bcrypt_compare password (UserDoc.passwordHash user))
            then Some email else None
        end
      else None
  | _, _ => None
  end.

(** Both limiters in front of a route let the request through. *)
Definition reachesHandler (env : Env.t) : bool :=
  Env.apiLimiterAllows env && Env.routeLimiterAllows env.

Definition serveLogin `{Platform} (attempt : Env.t * Request.t)
    : World.t -> Response.t * World.t :=
  POST_auth_login (fst attempt) (snd attempt).

(** Every attempt of the list, served in turn from [w], is a failed
    login for [email] that reaches the handler no earlier than [since]. *)
Fixpoint failedLoginsFor `{Platform} (email : string) (since : Date)
    (attempts : list (Env.t * Request.t)) (w : World.t) : Prop :=
  match attempts with
  | [] => True
  | attempt :: rest =>
      failedLoginEmail w (snd attempt) = Some email
      /\ since <= Env.now (fst attempt)
      /\ reachesHandler (fst attempt) = true
      /\ failedLoginsFor email since rest (snd (serveLogin attempt w))
  end.

(** The email-scoped count of the specification: the audit entries
    recorded for [email] as it is spelled. *)
Definition recordedFor (email : string) (d : AuditLogDoc.t) : bool :=
  optStrIs (AuditLogDoc.email d) email.

Definition tooManyAttempts : Response.t :=
  Response.mk 429 (ErrorJson "Too many failed login attempts. Please try again later.").

Definition invalidCredentials : Response.t :=
  Response.mk 400 (ErrorJson "Invalid email or password").

(** The audit entry [logSecurityEvent] stores, and the state it leaves. *)
Definition auditEntry (env : Env.t) (eventType : SecurityEventType)
    (severity : SeverityLevel) (details : EventDetails.t) (w : World.t) : AuditLogDoc.t :=
  AuditLogDoc.mk (World.nextObjectId w) eventType severity
    (EventDetails.userId details) (EventDetails.email details)
    (Js.orElse (EventDetails.ipAddress details)
               (option_map getClientIP (EventDetails.req details)))
    (Js.orElse (EventDetails.userAgent details)
               (option_map getUserAgent (EventDetails.req details)))
    (match EventDetails.metadata details with Some m => m | None => [] end)
    (Env.now env) false.

Definition afterEvent (env : Env.t) (eventType : SecurityEventType)
    (severity : SeverityLevel) (details : EventDetails.t) (w : World.t) : World.t :=
  World.mk (World.users w) (World.refreshTokens w) (World.passwordResetTokens w)
    (World.auditLogs w ++ [auditEntry env eventType severity details w])
    (S (World.nextObjectId w)) (World.outbox w)
    (World.winston w
     ++ [LogLine.mk (match severity with critical | high => "error" | _ => "warn" end)
                    ("Security Event: " ++ eventName eventType)]).

(** ** Worked scenarios on the demo account *)

(** Five wrong passwords for the demo account within five minutes, each
    from another address. *)
Definition fiveFailures : list (Env.t * Request.t) :=
  [(envAt (minutes 0), loginRequest "198.51.100.1" "alice@example.com" "guess-1");
   (envAt (minutes 1), loginRequest "198.51.100.2" "alice@example.com" "guess-2");
   (envAt (minutes 2), loginRequest "198.51.100.3" "alice@example.com" "guess-3");
   (envAt (minutes 3), loginRequest "198.51.100.4" "alice@example.com" "guess-4");
   (envAt (minutes 4), loginRequest "198.51.100.5" "alice@example.com" "guess-5")].

(** Ten wrong passwords for the demo account, one every twenty minutes,
    all from one address. *)
Definition tenFailures : list (Env.t * Request.t) :=
  map (fun i => (envAt (minutes (20 * i)),
                 loginRequest "203.0.113.7" "alice@example.com" "guess"))
      [0; 1; 2; 3; 4; 5; 6; 7; 8; 9].

(** Three wrong passwords within a minute from one address, the email
    typed as [email]. *)
Definition threeFailures (email : string) : list (Env.t * Request.t) :=
  [(envAt 0, loginRequest "203.0.113.7" email "guess-1");
   (envAt 20000, loginRequest "203.0.113.7" email "guess-2");
   (envAt 40000, loginRequest "203.0.113.7" email "guess-3")].

Definition forgotPasswordRequest (ip email : string) : Request.t :=
  requestFrom ip None [("email", Js.Str email)].

(** The environment of a request served at time [t] while the mail
    transport rejects every message. *)
Definition envMailDown (t : Date) : Env.t :=
  Env.mk t (fun n => "random-" ++ decimal t) (FetchResponse true 200 "") false true true.

Definition bearer (ip token : string) : Request.t :=
  requestFrom ip (Some ("Bearer " ++ token)) [].

(** The answer of the forgot-password handler as a function of the
    request and the audit log alone. *)
Definition forgotPasswordAnswer `{Platform} (env : Env.t) (req : Request.t)
    (logs : list AuditLogDoc.t) : Response.t :=
  match field "email" (Request.body req) with
  | Js.Str email =>
      if negb (Js.nonEmpty email) || negb (Js.nonEmpty (Js.trim email))
      then Response.mk 400 (ErrorJson "Email is required")
      else
        let totalEmailResets :=
          S (loggedSince (sinceDate env 60) PASSWORD_RESET_REQUESTED (byEmail email) logs) in
        let totalIpResets :=
          S (loggedSince (sinceDate env 60) PASSWORD_RESET_REQUESTED
               (byIP (getClientIP req)) logs) in
        if (3 <? totalEmailResets)%nat then
          Response.mk 429 (ErrorJson
            "Too many password reset requests for this email. Please try again in 1 hour.")
        else if (5 <? totalIpResets)%nat then
          Response.mk 429 (ErrorJson
            "Too many password reset requests from this location. Please try again in 1 hour.")
        else Response.mk 200 (MessageJson forgotPasswordMessage)
  | _ => Response.mk 400 (ErrorJson "Email is required")
  end.

(** The new password of a reset request gets past the strength rules
    and the breach check. *)
Definition passesPasswordChecks `{Platform} (env : Env.t) (req : Request.t) (w : World.t)
    : bool :=
  match field "password" (Request.body req) with
  | Js.Str password =>
      Js.nonEmpty password
      && fst (validatePasswordStrength password)
      && match validatePasswordNotBreached env password 1 w with
         | (Ok v, _) => BreachValidation.valid v
         | (Throw _, _) => false
         end
  | _ => false
  end.

Definition resetRequest (token password : string) : Request.t :=
  requestFrom "203.0.113.7" None [("token", Js.Str token); ("password", Js.Str password)].

(** The demo account holds one unused reset token ["R"], good for an hour. *)
Definition resetDoc : PasswordResetTokenDoc.t :=
  PasswordResetTokenDoc.mk 2 1 "R" (minutes 60) false 0.

Definition worldWithReset : World.t := World.mk [aliceDoc] [] [resetDoc] [] 3 [] [].

(** * The rest of the repositories and routes

    ** More collection primitives *)

Section MongoCursor.
Context {D : Type}.

(** [col.deleteMany(q)]: what stays, and [deletedCount]. *)
Definition deleteMany (q : D -> bool) (col : list D) : list D :=
  filter (fun d => negb (q d)) col.

(** [cursor.limit(n)]: a limit of [0] is no limit. *)
Definition limitTo (n : nat) (docs : list D) : list D :=
  if (n =? 0)%nat then docs else firstn n docs.

(** [cursor.sort({ key: -1 })], largest key first; documents with equal
    keys keep their natural order. *)
Fixpoint insertDesc (key : D -> Z) (d : D) (sorted : list D) : list D :=
  match sorted with
  | [] => [d]
  | x :: rest => if key x <=? key d then d :: sorted else x :: insertDesc key d rest
  end.

Definition sortDesc (key : D -> Z) (docs : list D) : list D :=
  fold_right (insertDesc key) [] docs.
End MongoCursor.

(** ** repos/refreshTokenRepo.ts, continued *)

(** The filter [{ userId, revoked: false, expiresAt: { $gt: new Date() } }] *)
Definition isActiveFor (now : Date) (userId : ObjectId) (d : RefreshTokenDoc.t) : bool :=
  (RefreshTokenDoc.userId d =? userId)%nat
  && negb (RefreshTokenDoc.revoked d)
  && (now <? RefreshTokenDoc.expiresAt d).

Definition getUserActiveRefreshTokens (env : Env.t) (userId : ObjectId)
    : M (list RefreshTokenDoc.t) :=
  gets (fun w =>
    sortDesc RefreshTokenDoc.createdAt
      (filter (isActiveFor (Env.now env) userId) (World.refreshTokens w))).

Definition cleanupExpiredTokens (env : Env.t) : M nat :=
  let expired d := RefreshTokenDoc.expiresAt d <? Env.now env in
  deletedCount <- gets (fun w => countDocuments expired (World.refreshTokens w)) ;;
  modify (World.with_refreshTokens (deleteMany expired)) ;;
  ret deletedCount.

(** [modifiedCount > 0]: the one matched document, if any, was not
    revoked before, so the [$set] does modify it. *)
Definition revokeRefreshTokenByIdForUser (env : Env.t) (tokenId userId : ObjectId)
    : M bool :=
  let q d := (RefreshTokenDoc._id d =? tokenId)%nat
             && (RefreshTokenDoc.userId d =? userId)%nat
             && negb (RefreshTokenDoc.revoked d) in
  matched <- gets (fun w => existsb q (World.refreshTokens w)) ;;
  modify (World.with_refreshTokens (updateOne q (setRevoked (Env.now env)))) ;;
  ret matched.

(** [$nor: [{ ipAddress, userAgent }]]: every document that is not bound
    to exactly this address and this user agent. *)
Definition boundTo (ipAddress userAgent : string) (d : RefreshTokenDoc.t) : bool :=
  optStrIs (RefreshTokenDoc.ipAddress d) ipAddress
  && optStrIs (RefreshTokenDoc.userAgent d) userAgent.

Definition revokeAllUserRefreshTokensExcept (env : Env.t) (userId : ObjectId)
    (ipAddress userAgent : option string) : M nat :=
  let q d :=
    isActiveFor (Env.now env) userId d
    && match ipAddress, userAgent with
       | Some ip, Some ua =>
           if Js.nonEmpty ip && Js.nonEmpty ua then negb (boundTo ip ua d) else true
       | _, _ => true
       end in
  modifiedCount <- gets (fun w => countDocuments q (World.refreshTokens w)) ;;
  modify (World.with_refreshTokens (updateMany q (setRevoked (Env.now env)))) ;;
  ret modifiedCount.

(** ** repos/userRepo.ts, continued *)

Definition unlockAccount (env : Env.t) (userId : ObjectId) : M unit :=
  updateUser userId (fun d =>
    UserDoc.mk (UserDoc._id d) (UserDoc.email d) (UserDoc.fullName d)
      (UserDoc.passwordHash d) (UserDoc.createdAt d) (Env.now env)
      (UserDoc.emailVerified d) (UserDoc.lastLogin d) (UserDoc.role d)
      false None None).

Definition deleteExpiredTokens (env : Env.t) : M nat :=
  let expired d := PasswordResetTokenDoc.expiresAt d <? Env.now env in
  deletedCount <- gets (fun w => countDocuments expired (World.passwordResetTokens w)) ;;
  modify (World.with_passwordResetTokens (deleteMany expired)) ;;
  ret deletedCount.

(** ** repos/auditLogRepo.ts, continued *)

Definition getUserAuditLogs (userId : ObjectId) (limit : nat) : M (list AuditLogDoc.t) :=
  gets (fun w =>
    limitTo limit
      (sortDesc AuditLogDoc.timestamp
         (filter (fun d => match AuditLogDoc.userId d with
                           | Some u => (u =? userId)%nat
                           | None => false
                           end)
                 (World.auditLogs w)))).

Definition getAuditLogsByType (eventType : SecurityEventType) (limit : nat)
    : M (list AuditLogDoc.t) :=
  gets (fun w =>
    limitTo limit
      (sortDesc AuditLogDoc.timestamp
         (filter (fun d => SecurityEventType_eqb (AuditLogDoc.eventType d) eventType)
                 (World.auditLogs w)))).

(** [severity: { $in: ['high', 'critical'] }] *)
Definition isSevere (d : AuditLogDoc.t) : bool :=
  match AuditLogDoc.severity d with
  | high | critical => true
  | low | medium => false
  end.

Definition getSuspiciousActivities (limit : nat) : M (list AuditLogDoc.t) :=
  gets (fun w =>
    limitTo limit
      (sortDesc AuditLogDoc.timestamp
         (filter (fun d => isSevere d && negb (AuditLogDoc.resolved d))
                 (World.auditLogs w)))).

Definition setResolved (d : AuditLogDoc.t) : AuditLogDoc.t :=
  AuditLogDoc.mk (AuditLogDoc._id d) (AuditLogDoc.eventType d) (AuditLogDoc.severity d)
    (AuditLogDoc.userId d) (AuditLogDoc.email d) (AuditLogDoc.ipAddress d)
    (AuditLogDoc.userAgent d) (AuditLogDoc.details d) (AuditLogDoc.timestamp d) true.

Definition markAsResolved (logId : ObjectId) : M unit :=
  modify (World.with_auditLogs
    (updateOne (fun d => (AuditLogDoc._id d =? logId)%nat) setResolved)).

Module SecurityMetrics.
Record t := mk {
  totalEvents : nat;
  failedLogins : nat;
  successfulLogins : nat;
  passwordResets : nat;
  suspiciousActivities : nat;
  blockedAttempts : nat;
  recentEvents : list AuditLogDoc.t
}.
End SecurityMetrics.


Definition cleanupOldLogs (env : Env.t) (daysToKeep : Z) : M nat :=
  let cutoffDate := Env.now env - daysToKeep * 24 * 60 * 60 * 1000 in
  let old d := (AuditLogDoc.timestamp d <? cutoffDate) && negb (isSevere d) in
  deletedCount <- gets (fun w => countDocuments old (World.auditLogs w)) ;;
  modify (World.with_auditLogs (deleteMany old)) ;;
  ret deletedCount.

(** ** routes/auth.ts, continued *)

(** The outcome of a route whose success body carries data of type [A]:
    every refusal (limiter, thrown error) is a [Response.t]. *)
Inductive Reply (A : Type) :=
| Refused (r : Response.t)
| Granted (data : A).
Arguments Refused {A} r.
Arguments Granted {A} data.

Definition routeData {A} (handler : M A) (w : World.t) : Reply A * World.t :=
  match handler w with
  | (Ok a, w') => (Granted a, w')
  | (Throw e, w') => (Refused (errorHandler e), w')
  end.

Definition rateLimitData {A} (allows : bool) (limiterMessage : string)
    (next : World.t -> Reply A * World.t) (w : World.t) : Reply A * World.t :=
  if allows then next w
  else (Refused (Response.mk 429 (LimiterJson limiterMessage)), w).

(** The [data] of a successful refresh: [{ token, refreshToken }]. *)
Module Refreshed.
Record t := mk { token : string; refreshToken : string }.
End Refreshed.

(** The handler looks the token up and, for a valid one, hands it to
    [rotateRefreshToken], which looks it up once more, at a later reading
    of the clock. *)
Definition refreshHandler `{Platform} (env : Env.t) (req : Request.t) : M Refreshed.t :=
  match field "refreshToken" (Request.body req) with
  | Js.Str refreshToken =>
    if negb (Js.nonEmpty refreshToken) then throw (badRequest "Refresh token is required")
    else
    storedToken <- findValidRefreshToken env refreshToken ;;
    match storedToken with
    | None =>
        trackSuspiciousActivity env "Invalid refresh token used" req
          [("refreshToken", Js.Str (Js.take 20 refreshToken))] ;;
        throw (httpError 401 "Invalid or expired refresh token")
    | Some storedToken =>
        user <- findUserById (RefreshTokenDoc.userId storedToken) ;;
        match user with
        | None => throw (httpError 404 "User not found")
        | Some user =>
            if UserDoc.locked user then throw (httpError 403 "Account is locked")
            else
              let token :=
                generateAccessToken env
                  (JWTPayload.mk (UserDoc._id user) (UserDoc.email user)
                     (UserDoc.role user) (Some (getClientIP req))
                     (Some (getUserAgent req))) in
              let newRefreshTokenData :=
                createRefreshTokenData env (UserDoc._id user)
                  (Some (getClientIP req)) (Some (getUserAgent req)) in
              newRefreshToken <-
                rotateRefreshToken (Env.again env) refreshToken newRefreshTokenData ;;
              match newRefreshToken with
              | None => throw (httpError 500 "Failed to rotate refresh token")
              | Some newRefreshToken =>
                  ret (Refreshed.mk token (RefreshTokenDoc.token newRefreshToken))
              end
        end
    end
  | _ => throw (badRequest "Refresh token is required")
  end.

Definition POST_auth_refresh `{Platform} (env : Env.t) (req : Request.t)
    : World.t -> Reply Refreshed.t * World.t :=
  rateLimitData (Env.apiLimiterAllows env)
    "Too many requests from this IP, please try again after 15 minutes"
    (rateLimitData (Env.routeLimiterAllows env)
       "Too many token refresh attempts from this IP. Please try again after 15 minutes"
       (routeData (refreshHandler env req))).

Definition logoutAllHandler `{Platform} (env : Env.t) (req : Request.t) : M Response.t :=
  match extractTokenFromHeader (Request.authorization req) with
  | Some tok =>
    if negb (Js.nonEmpty tok) then throw (httpError 401 "Authentication required")
    else
    let verification :=
      verifyAccessTokenWithContext env tok (getClientIP req) (getUserAgent req) in
    match Verification.valid verification, Verification.payload verification with
    | true, Some payload =>
        revokeAllUserRefreshTokens env (JWTPayload.userId payload) ;;
        ret (Response.mk 200 (MessageJson "Logged out from all devices successfully"))
    | _, _ => throw (httpError 401 "Invalid or expired token")
    end
  | None => throw (httpError 401 "Authentication required")
  end.

Definition POST_auth_logout_all `{Platform} (env : Env.t) (req : Request.t)
    : World.t -> Response.t * World.t :=
  apiLimiter env (route (logoutAllHandler env req)).

(** ** routes/profile.ts *)

(** The [requireAuth] middleware; [next] is the route handler, which
    reads the verified payload from [req.user]. *)
Definition requireAuth `{Platform} (env : Env.t) (req : Request.t)
    (next : JWTPayload.t -> M Response.t) : M Response.t :=
  match extractTokenFromHeader (Request.authorization req) with
  | Some tok =>
    if negb (Js.nonEmpty tok) then throw (httpError 401 "Authentication required")
    else
    let verification :=
      verifyAccessTokenWithContext env tok (getClientIP req) (getUserAgent req) in
    match Verification.valid verification, Verification.payload verification with
    | true, Some payload => next payload
    | _, _ =>
        match Verification.mismatch verification with
        | Some m =>
            trackSuspiciousActivity env "Session hijacking attempt on profile endpoint" req
              [("userId", optValue (fun p => idValue (JWTPayload.userId p))
                            (Verification.payload verification));
               ("email", optValue (fun p => Js.Str (JWTPayload.email p))
                           (Verification.payload verification));
               ("ipChanged", Js.Bool (Mismatch.ipChanged m));
               ("userAgentChanged", Js.Bool (Mismatch.userAgentChanged m))] ;;
            throw (httpError 401 "Session hijacking detected. Please log in again.")
        | None => throw (httpError 401 "Invalid or expired token")
        end
    end
  | None => throw (httpError 401 "Authentication required")
  end.

Definition changePasswordHandler `{Platform} (env : Env.t) (req : Request.t)
    (user : JWTPayload.t) : M Response.t :=
  let userId := JWTPayload.userId user in
  match field "currentPassword" (Request.body req) with
  | Js.Str currentPassword =>
    if negb (Js.nonEmpty currentPassword)
    then throw (badRequest "Current password is required")
    else
    match field "newPassword" (Request.body req) with
    | Js.Str newPassword =>
      if negb (Js.nonEmpty newPassword) then throw (badRequest "New password is required")
      else
      found <- findUserById userId ;;
      match found with
      | None => throw (httpError 404 "User not found")
      | Some user =>
          if negb (bcrypt_compare currentPassword (UserDoc.passwordHash user)) then
            trackSuspiciousActivity env "Failed password change attempt" req
              [("userId", idValue (UserDoc._id user));
               ("email", Js.Str (UserDoc.email user))] ;;
            throw (badRequest "Current password is incorrect")
          else
            let passwordValidation := validatePasswordStrength newPassword in
            if negb (fst passwordValidation) then
              throw (httpError 400 (joinErrors (snd passwordValidation)))
            else
              breachValidation <- validatePasswordNotBreached env newPassword 1 ;;
              if negb (BreachValidation.valid breachValidation) then
                throw (httpError 400
                         (match BreachValidation.error breachValidation with
                          | Some e => if Js.nonEmpty e then e
                                      else "Password has been compromised"
                          | None => "Password has been compromised"
                          end))
              else
                updatePassword env userId (bcrypt_hash newPassword) ;;
                ret (Response.mk 200 (MessageJson "Password changed successfully"))
      end
    | _ => throw (badRequest "New password is required")
    end
  | _ => throw (badRequest "Current password is required")
  end.

Definition POST_profile_change_password `{Platform} (env : Env.t) (req : Request.t)
    : World.t -> Response.t * World.t :=
  apiLimiter env (route (requireAuth env req (changePasswordHandler env req))).

(** ** routes/security.ts *)

(** The [requireAdmin] middleware answers its refusals itself; anything
    thrown inside it is answered 401 "Authentication failed". *)
Definition requireAdmin `{Platform} (env : Env.t) (req : Request.t)
    (next : JWTPayload.t -> M Response.t) : M Response.t :=
  match extractTokenFromHeader (Request.authorization req) with
  | Some tok =>
    if negb (Js.nonEmpty tok) then ret (Response.mk 401 (ErrorJson "Authorization required"))
    else
    let verification :=
      verifyAccessTokenWithContext env tok (getClientIP req) (getUserAgent req) in
    match Verification.valid verification, Verification.payload verification with
    | true, Some payload =>
        match JWTPayload.role payload with
        | admin => next payload
        | _ => ret (Response.mk 403 (ErrorJson "Admin access required"))
        end
    | _, _ =>
        match Verification.mismatch verification with
        | Some m =>
            trackSuspiciousActivity env "Session hijacking attempt on admin endpoint" req
              (hijackDetails verification m) ;;
            ret (Response.mk 401
                   (ErrorJson "Session hijacking detected. Please log in again."))
        | None => ret (Response.mk 401 (ErrorJson "Invalid token"))
        end
    end
  | None => ret (Response.mk 401 (ErrorJson "Authorization required"))
  end.

(** [POST /security/resolve/:logId]; [logId] is [None] when the path
    segment is not an [ObjectId], which makes [new ObjectId(logId)] throw
    inside the handler's [try]. *)
Definition resolveHandler (logId : option ObjectId) (_ : JWTPayload.t) : M Response.t :=
  match logId with
  | Some id =>
      markAsResolved id ;;
      ret (Response.mk 200 (MessageJson "Activity marked as resolved"))
  | None => ret (Response.mk 500 (ErrorJson "Failed to mark activity as resolved"))
  end.

Definition POST_security_resolve `{Platform} (env : Env.t) (req : Request.t)
    (logId : option ObjectId) : World.t -> Response.t * World.t :=
  apiLimiter env (route (requireAdmin env req (resolveHandler logId))).

(** ** Requests as data, and relations between the states before and after *)

(** One request to one of the modelled routes. *)
Inductive Call :=
| Login (req : Request.t)
| ForgotPassword (req : Request.t)
| ResetPassword (req : Request.t)
| Validate (req : Request.t)
| Me (req : Request.t)
| Logout (req : Request.t)
| Refresh (req : Request.t)
| LogoutAll (req : Request.t)
| ChangePassword (req : Request.t)
| Resolve (req : Request.t) (logId : option ObjectId).

(** The state the server is left in after serving a call. *)
Definition perform `{Platform} (env : Env.t) (call : Call) (w : World.t) : World.t :=
  match call with
  | Login req => snd (POST_auth_login env req w)
  | ForgotPassword req => snd (POST_auth_forgot_password env req w)
  | ResetPassword req => snd (POST_auth_reset_password env req w)
  | Validate req => snd (GET_auth_validate env req w)
  | Me req => snd (GET_auth_me env req w)
  | Logout req => snd (POST_auth_logout env req w)
  | Refresh req => snd (POST_auth_refresh env req w)
  | LogoutAll req => snd (POST_auth_logout_all env req w)
  | ChangePassword req => snd (POST_profile_change_password env req w)
  | Resolve req logId => snd (POST_security_resolve env req logId w)
  end.

Definition performAll `{Platform} (calls : list (Env.t * Call)) (w : World.t) : World.t :=
  fold_left (fun w c => perform (fst c) (snd c) w) calls w.

(** Every run of [m] relates the state it starts in to the state it
    leaves, whether it returns or throws. *)
Definition evolves {A} (R : World.t -> World.t -> Prop) (m : M A) : Prop :=
  forall w, R w (snd (m w)).

(** The audit log only grows, by entries stamped with the time of the
    request and not yet resolved. *)
Definition auditAppended (now : Date) (w w' : World.t) : Prop :=
  exists added,
    World.auditLogs w' = (World.auditLogs w ++ added)%list
    /\ Forall (fun d => AuditLogDoc.timestamp d = now /\ AuditLogDoc.resolved d = false)
              added.

(** What identifies an account and decides whether it may sign in,
    apart from its password. *)
Definition standing (u : UserDoc.t)
    : ObjectId * string * UserRole * bool * bool * option string * option Date :=
  (UserDoc._id u, UserDoc.email u, UserDoc.role u, UserDoc.emailVerified u,
   UserDoc.locked u, UserDoc.lockReason u, UserDoc.lockedAt u).

Definition sameStanding (w w' : World.t) : Prop :=
  map standing (World.users w') = map standing (World.users w).

(** What a refresh-token record is, apart from its revocation. *)
Definition tokenIdentity (d : RefreshTokenDoc.t)
    : ObjectId * ObjectId * string * Date * Date * option string * option string :=
  (RefreshTokenDoc._id d, RefreshTokenDoc.userId d, RefreshTokenDoc.token d,
   RefreshTokenDoc.expiresAt d, RefreshTokenDoc.createdAt d,
   RefreshTokenDoc.ipAddress d, RefreshTokenDoc.userAgent d).

(** A record and a later version of it: the same record, possibly
    revoked in between, never un-revoked. *)
Definition laterVersion (d d' : RefreshTokenDoc.t) : Prop :=
  tokenIdentity d' = tokenIdentity d
  /\ (RefreshTokenDoc.revoked d = true -> RefreshTokenDoc.revoked d' = true).

(** The refresh-token collection after some requests: every earlier
    record is still there, in place and at most revoked, followed by the
    records issued since, each carrying a token value drawn from one of
    the listed ones. *)
Definition tokensGrown (issued : list string)
    (before after : list RefreshTokenDoc.t) : Prop :=
  exists kept added,
    after = (kept ++ added)%list
    /\ Forall2 laterVersion before kept
    /\ Forall (fun d => In (RefreshTokenDoc.token d) issued) added.

(** The refresh-token values the random generator hands to a sequence
    of requests. *)
Definition issuedTokens (calls : list (Env.t * Call)) : list string :=
  map (fun c => Env.randomToken (fst c) 64) calls.

(** Every record that carries the token value is revoked. *)
Definition allRevoked (token : string) (col : list RefreshTokenDoc.t) : Prop :=
  forall d, In d col -> RefreshTokenDoc.token d = token -> RefreshTokenDoc.revoked d = true.

Definition refreshRequest (token : string) : Request.t :=
  requestFrom "203.0.113.7" None [("refreshToken", Js.Str token)].

(** The refresh tokens after a request served in [env]. *)
Definition grownBy (env : Env.t) (w w' : World.t) : Prop :=
  tokensGrown [Env.randomToken env 64] (World.refreshTokens w) (World.refreshTokens w').

(** The string contains the character. *)
Definition hasChar (c : ascii) (s : string) : bool := Js.existsb (Ascii.eqb c) s.

(** Newest first. *)
Definition newerFirst {D} (key : D -> Z) (a b : D) : Prop := key b <= key a.

(** What a read returns, [default] standing for a throw. *)
Definition returned {A} (default : A) (m : M A) (w : World.t) : A :=
  match fst (m w) with
  | Ok a => a
  | Throw _ => default
  end.

(** The demo account with its session, locked by an administrator. *)
Definition lockedWorld : World.t :=
  snd (lockAccount (envAt 0) 1 "Unusual activity" worldWithSession).

Definition lockedAlice : UserDoc.t :=
  UserDoc.mk 1 "alice@example.com" "Alice" ("$2b$12$" ++ "Str0ng!Pass9")
    0 0 false None customer true (Some "Unusual activity") (Some 0).

(** The stored password hashes are the same, account by account. *)
Definition samePasswords (w w' : World.t) : Prop :=
  map UserDoc.passwordHash (World.users w') = map UserDoc.passwordHash (World.users w).

(** * Properties *)

(** ** Running the handler monad *)

Lemma bind_ok {A B} (m : M A) (k : A -> M B) (w w' : World.t) (a : A) :
  m w = (Ok a, w') -> bind m k w = k a w'.
Proof. intros E. unfold bind. now rewrite E. Qed.

Section Breach.
Context `{Platform}.

Lemma checkPasswordBreach_unavailable (env : Env.t) (password : string) (w : World.t) :
  lookupFailed (Env.fetchOutcome env) = true ->
  exists msg,
    checkPasswordBreach env password w
    = (Ok breachUnavailable,
       World.with_winston (fun l => l ++ [LogLine.mk "error" msg])%list w).
Proof.
  unfold checkPasswordBreach. intros F.
  destruct (Env.fetchOutcome env) as [|ok status data]; cbn in F.
  - now exists "Error checking password breach".
  - destruct ok; [discriminate|]. now exists "HaveIBeenPwned API error".
Qed.

(** C6. The breach check fails open.  When the reputation lookup
    throws or answers with a non-OK status, [checkPasswordBreach]
    reports [breached = false] together with an error marker and writes
    one error-level line to the log, and [validatePasswordNotBreached],
    whatever its threshold, then returns [valid = true] with no error
    message, so neither registration nor reset is refused. *)
Theorem breach_check_fails_open
    (env : Env.t) (password : string) (threshold : Z) (w : World.t) :
  lookupFailed (Env.fetchOutcome env) = true ->
  exists (r : BreachResult.t) (line : LogLine.t),
    let w' := World.with_winston (fun l => l ++ [line])%list w in
    checkPasswordBreach env password w = (Ok r, w')
    /\ BreachResult.breached r = false
    /\ Js.truthyOpt (BreachResult.error r) = true
    /\ LogLine.level line = "error"
    /\ validatePasswordNotBreached env password threshold w
       = (Ok (BreachValidation.mk true None None), w').
Proof.
  intros F.
  destruct (checkPasswordBreach_unavailable env password w F) as [msg E].
  exists breachUnavailable, (LogLine.mk "error" msg). cbn zeta.
  repeat split; try assumption; try reflexivity.
  unfold validatePasswordNotBreached.
  now rewrite (bind_ok _ _ _ _ _ E).
Qed.

End Breach.

(** The lookup is down ([fetch] rejects) while a password is checked. *)
Lemma breach_check_fails_open_witness :
  lookupFailed FetchThrows = true
  /\ exists (r : BreachResult.t) (line : LogLine.t),
       let env := Env.mk 0 (fun _ => "r") FetchThrows true true true in
       let w' := World.with_winston (fun l => l ++ [line])%list world0 in
       @checkPasswordBreach demoPlatform env "Str0ng!Pass9" world0 = (Ok r, w')
       /\ BreachResult.breached r = false
       /\ Js.truthyOpt (BreachResult.error r) = true
       /\ LogLine.level line = "error"
       /\ @validatePasswordNotBreached demoPlatform env "Str0ng!Pass9" 1 world0
          = (Ok (BreachValidation.mk true None None), w').
Proof.
  split; [reflexivity|].
  apply (@breach_check_fails_open demoPlatform
           (Env.mk 0 (fun _ => "r") FetchThrows true true true) "Str0ng!Pass9" 1 world0).
  reflexivity.
Defined.

(** ** Context binding of access tokens *)

Lemma differs_false_iff (a : option string) (b : string) :
  differs a b = false <-> a = Some b.
Proof.
  unfold differs, optStrIs. destruct a as [s|]; cbn.
  - rewrite Bool.negb_false_iff, String.eqb_eq. split; congruence.
  - split; discriminate.
Qed.

Lemma differs_true_iff (a : option string) (b : string) :
  differs a b = true <-> a <> Some b.
Proof.
  rewrite <- differs_false_iff. destruct (differs a b); split; congruence.
Qed.

Section ContextBinding.
Context `{Platform}.

(** C4. For a token that verifies (signature, expiry, issuer and
    audience) with payload [p]: when [p] embeds both an IP address and a
    user agent (both present and non-empty), the result is invalid
    exactly when the embedded IP differs from the current one or the
    embedded user agent differs from the current one, and in that case
    it carries the payload and a mismatch record telling which of the two
    changed, with the original and the current values of both; an
    unchanged context is valid without mismatch.  When [p] lacks either
    of them the token is returned valid without any comparison. *)
Theorem verifyAccessTokenWithContext_spec
    (env : Env.t) (token currentIp currentUa : string) (p : JWTPayload.t) :
  verifyAccessToken env token = Some p ->
  let v := verifyAccessTokenWithContext env token currentIp currentUa in
  (Js.truthyOpt (JWTPayload.ipAddress p) = true ->
   Js.truthyOpt (JWTPayload.userAgent p) = true ->
   (Verification.valid v = false
    <-> (JWTPayload.ipAddress p <> Some currentIp
         \/ JWTPayload.userAgent p <> Some currentUa))
   /\ (Verification.valid v = false ->
       v = Verification.mk false (Some p)
             (Some (Mismatch.mk
                      (differs (JWTPayload.ipAddress p) currentIp)
                      (differs (JWTPayload.userAgent p) currentUa)
                      (JWTPayload.ipAddress p) (Some currentIp)
                      (JWTPayload.userAgent p) (Some currentUa))))
   /\ (Verification.valid v = true -> v = Verification.mk true (Some p) None))
  /\ (Js.truthyOpt (JWTPayload.ipAddress p) = false
      \/ Js.truthyOpt (JWTPayload.userAgent p) = false ->
      v = Verification.mk true (Some p) None).
Proof.
  intros V. unfold verifyAccessTokenWithContext. rewrite V. cbn zeta. split.
  - intros Hip Hua. rewrite Hip, Hua. cbn [negb orb].
    destruct (differs (JWTPayload.ipAddress p) currentIp) eqn:Dip;
      destruct (differs (JWTPayload.userAgent p) currentUa) eqn:Dua;
      cbn [orb Verification.valid];
      try apply differs_true_iff in Dip; try apply differs_true_iff in Dua;
      try apply differs_false_iff in Dip; try apply differs_false_iff in Dua;
      repeat split; intros; try reflexivity; try discriminate; auto.
    destruct H0; contradiction.
  - intros [E|E]; rewrite E; cbn [negb orb]; [reflexivity|].
    now rewrite Bool.orb_true_r.
Qed.

End ContextBinding.

(** A token minted for 203.0.113.7 is presented from 198.51.100.9. *)
Lemma verifyAccessTokenWithContext_spec_witness :
  let env := envAt 0 in
  let v := @verifyAccessTokenWithContext demoPlatform env "jwt:alice@example.com"
             "198.51.100.9" "Mozilla/5.0" in
  @verifyAccessToken demoPlatform env "jwt:alice@example.com" = Some demoPayload
  /\ Verification.valid v = false
  /\ option_map Mismatch.ipChanged (Verification.mismatch v) = Some true
  /\ option_map Mismatch.userAgentChanged (Verification.mismatch v) = Some false.
Proof.
  pose proof (@verifyAccessTokenWithContext_spec demoPlatform (envAt 0)
                "jwt:alice@example.com" "198.51.100.9" "Mozilla/5.0" demoPayload
                eq_refl) as [S _].
  destruct (S eq_refl eq_refl) as (Iff & Shape & _).
  assert (Inv : Verification.valid
                  (@verifyAccessTokenWithContext demoPlatform (envAt 0)
                     "jwt:alice@example.com" "198.51.100.9" "Mozilla/5.0") = false).
  { apply Iff. left. discriminate. }
  cbn zeta. split; [reflexivity|]. split; [exact Inv|].
  rewrite (Shape Inv). split; reflexivity.
Defined.

(** ** Collection primitives *)

Section MongoFacts.
Context {D : Type}.
Implicit Types (q : D -> bool) (f g : D -> D) (col : list D).

Lemma updateOne_no_match q f col :
  (forall d, In d col -> q d = false) -> updateOne q f col = col.
Proof.
  induction col as [|d r IH]; cbn; intros N; [reflexivity|].
  rewrite (N d (or_introl eq_refl)). f_equal. apply IH. intros; apply N; now right.
Qed.

Lemma updateOne_twice q f g col :
  (forall d, q (f d) = q d) ->
  updateOne q g (updateOne q f col) = updateOne q (fun d => g (f d)) col.
Proof.
  intros P. induction col as [|d r IH]; cbn; [reflexivity|].
  destruct (q d) eqn:Q; cbn.
  - now rewrite P, Q.
  - now rewrite Q, IH.
Qed.

Lemma updateOne_ext q f g col :
  (forall d, f d = g d) -> updateOne q f col = updateOne q g col.
Proof.
  intros E. induction col as [|d r IH]; cbn; [reflexivity|].
  destruct (q d); now rewrite ?E, ?IH.
Qed.

Lemma updateOne_map {B} (h : D -> B) q f col :
  (forall d, h (f d) = h d) -> map h (updateOne q f col) = map h col.
Proof.
  intros E. induction col as [|d r IH]; cbn; [reflexivity|].
  destruct (q d); cbn; now rewrite ?E, ?IH.
Qed.

Lemma updateOne_map_ext {B} (h : D -> B) q f g col :
  (forall d, h (f d) = h (g d)) ->
  map h (updateOne q f col) = map h (updateOne q g col).
Proof.
  intros E. induction col as [|d r IH]; cbn; [reflexivity|].
  destruct (q d); cbn; now rewrite ?E, ?IH.
Qed.

Lemma countDocuments_app q col1 col2 :
  countDocuments q (col1 ++ col2) = (countDocuments q col1 + countDocuments q col2)%nat.
Proof. unfold countDocuments. now rewrite filter_app, length_app. Qed.

Lemma countDocuments_zero q col :
  countDocuments q col = 0%nat -> forall d, In d col -> q d = false.
Proof.
  unfold countDocuments. induction col as [|d r IH]; cbn; intros Z x I; [easy|].
  destruct (q d) eqn:Q; [discriminate|]. destruct I as [<-|I]; auto.
Qed.

(** A filter matched by at most one document: the document [findOne]
    returns for a stronger filter is the one [updateOne] rewrites. *)
Lemma updateOne_unique q q' f col d :
  (forall x, q' x = true -> q x = true) ->
  (countDocuments q col <= 1)%nat ->
  findOne q' col = Some d ->
  In (f d) (updateOne q f col)
  /\ (forall x, In x (updateOne q f col) -> x = f d \/ q x = false).
Proof.
  intros Imp. unfold findOne, countDocuments.
  induction col as [|c r IH]; cbn; intros U F; [discriminate|].
  destruct (q' c) eqn:Q'.
  - injection F as <-. rewrite (Imp _ Q') in *. cbn in U. split; [now left|].
    intros x [<-|I]; [now left|]. right.
    apply (countDocuments_zero q r); [unfold countDocuments; lia|assumption].
  - destruct (q c) eqn:Q.
    + cbn in U. exfalso.
      apply find_some in F. destruct F as [I T].
      pose proof (countDocuments_zero q r ltac:(unfold countDocuments; lia) d I) as Z.
      rewrite (Imp _ T) in Z. discriminate.
    + destruct (IH U F) as [I A]. split; [now right|].
      intros x [<-|J]; [now right|]. now apply A.
Qed.

End MongoFacts.

(** ** Refresh tokens: revocation and rotation *)

Lemma setRevoked_twice (t1 t2 : Date) (d : RefreshTokenDoc.t) :
  setRevoked t2 (setRevoked t1 d) = setRevoked t2 d.
Proof. reflexivity. Qed.

Lemma revokeRefreshToken_run (env : Env.t) (token : string) (w : World.t) :
  revokeRefreshToken env token w
  = (Ok tt, World.with_refreshTokens
              (updateOne (hasToken token) (setRevoked (Env.now env))) w).
Proof. reflexivity. Qed.

Lemma revoke_last_write_wins (env1 env2 : Env.t) (token : string) (w : World.t) :
  snd (revokeRefreshToken env2 token (snd (revokeRefreshToken env1 token w)))
  = snd (revokeRefreshToken env2 token w).
Proof.
  rewrite !revokeRefreshToken_run. cbn [snd].
  unfold World.with_refreshTokens; cbn. f_equal.
  rewrite updateOne_twice by reflexivity.
  apply updateOne_ext. intros d. apply setRevoked_twice.
Qed.

Lemma revoke_unknown_token (env : Env.t) (token : string) (w : World.t) :
  (forall d, In d (World.refreshTokens w) -> RefreshTokenDoc.token d <> token) ->
  snd (revokeRefreshToken env token w) = w.
Proof.
  intros N. rewrite revokeRefreshToken_run. cbn [snd].
  unfold World.with_refreshTokens. rewrite updateOne_no_match.
  - now destruct w.
  - intros d I. unfold hasToken. apply String.eqb_neq. now apply N.
Qed.

(** What does hold of logout and of a repeated revocation.  A logout
    request that reaches the handler with a non-empty string
    [refreshToken] is answered 200 "Logged out successfully" whether or
    not the token was ever issued or is already revoked, and its only
    effect is [revokeRefreshToken].  Of two revocations of one token the
    last one wins; every field of every record other than [revokedAt],
    the [revoked] flag included, is as after the first call, and a second
    call at the same instant changes nothing.  Revoking a token no record
    carries leaves the store unchanged. *)
Theorem logout_revoke_up_to_timestamp
    (env1 env2 : Env.t) (req : Request.t) (s : string) (w : World.t) :
  field "refreshToken" (Request.body req) = Js.Str s ->
  s <> "" ->
  Env.apiLimiterAllows env1 = true ->
  let once := snd (revokeRefreshToken env1 s w) in
  let twice := snd (revokeRefreshToken env2 s once) in
  POST_auth_logout env1 req w
  = (Response.mk 200 (MessageJson "Logged out successfully"), once)
  /\ twice = snd (revokeRefreshToken env2 s w)
  /\ map forgetRevokedAt (World.refreshTokens twice)
     = map forgetRevokedAt (World.refreshTokens once)
  /\ (Env.now env2 = Env.now env1 -> twice = once)
  /\ ((forall d, In d (World.refreshTokens w) -> RefreshTokenDoc.token d <> s) ->
      once = w).
Proof.
  intros F NE L. cbn zeta. repeat split.
  - unfold POST_auth_logout, apiLimiter, rateLimit, route, logoutHandler.
    rewrite L, F. apply String.eqb_neq in NE. unfold Js.nonEmpty. rewrite NE. cbn.
    reflexivity.
  - apply revoke_last_write_wins.
  - rewrite !revokeRefreshToken_run. cbn.
    rewrite updateOne_twice by reflexivity. apply updateOne_map_ext. reflexivity.
  - intros T. rewrite revoke_last_write_wins. rewrite !revokeRefreshToken_run.
    cbn [snd]. now rewrite T.
  - apply revoke_unknown_token.
Qed.

(** A client logs out of the demo session and repeats the call. *)
Lemma logout_revoke_up_to_timestamp_witness :
  let req := requestFrom "203.0.113.7" None [("refreshToken", Js.Str "T")] in
  let once := snd (revokeRefreshToken (envAt 100) "T" worldWithSession) in
  let twice := snd (revokeRefreshToken (envAt 200) "T" once) in
  POST_auth_logout (envAt 100) req worldWithSession
  = (Response.mk 200 (MessageJson "Logged out successfully"), once)
  /\ map forgetRevokedAt (World.refreshTokens twice)
     = map forgetRevokedAt (World.refreshTokens once).
Proof.
  destruct (logout_revoke_up_to_timestamp (envAt 100) (envAt 200)
              (requestFrom "203.0.113.7" None [("refreshToken", Js.Str "T")])
              "T" worldWithSession eq_refl ltac:(discriminate) eq_refl)
    as (R & _ & F & _).
  split; [exact R | exact F].
Defined.

(** C10. The failing input: a client logs out of the demo session and,
    a moment later, sends the same logout request again.  Both requests
    are answered 200 and each does what [revokeRefreshToken] does, but the
    second overwrites [revokedAt]: the store after two revocations is not
    the store after one.  [revokeAllUserRefreshTokens], which filters on
    [revoked: false], leaves the store after a second call as it was
    after the first. *)
Lemma revoke_twice_is_not_revoke_once :
  let req := requestFrom "203.0.113.7" None [("refreshToken", Js.Str "T")] in
  let once := snd (revokeRefreshToken (envAt 100) "T" worldWithSession) in
  let twice := snd (revokeRefreshToken (envAt 200) "T" once) in
  POST_auth_logout (envAt 100) req worldWithSession
  = (Response.mk 200 (MessageJson "Logged out successfully"), once)
  /\ POST_auth_logout (envAt 200) req once
     = (Response.mk 200 (MessageJson "Logged out successfully"), twice)
  /\ map RefreshTokenDoc.revokedAt (World.refreshTokens once) = [Some 100]
  /\ map RefreshTokenDoc.revokedAt (World.refreshTokens twice) = [Some 200]
  /\ twice <> once
  /\ snd (revokeAllUserRefreshTokens (envAt 200) 1
            (snd (revokeAllUserRefreshTokens (envAt 100) 1 worldWithSession)))
     = snd (revokeAllUserRefreshTokens (envAt 100) 1 worldWithSession).
Proof. vm_compute. repeat split. intros E. discriminate E. Qed.

Lemma isValidRefreshToken_hasToken (now : Date) (token : string) (d : RefreshTokenDoc.t) :
  isValidRefreshToken now token d = true -> hasToken token d = true.
Proof.
  unfold isValidRefreshToken, hasToken. intros V.
  now apply andb_prop in V as [V _]; apply andb_prop in V as [V _].
Qed.

Lemma isValidRefreshToken_setRevoked (now t : Date) (token : string) (d : RefreshTokenDoc.t) :
  isValidRefreshToken now token (setRevoked t d) = false.
Proof. unfold isValidRefreshToken. cbn. now rewrite Bool.andb_false_r. Qed.

Lemma rotate_dead_token (env : Env.t) (oldToken : string)
    (newTokenData : CreateRefreshTokenInput.t) (w : World.t) :
  (forall d, In d (World.refreshTokens w) ->
             isValidRefreshToken (Env.now env) oldToken d = false) ->
  rotateRefreshToken env oldToken newTokenData w = (Ok None, w).
Proof.
  intros Dead. unfold rotateRefreshToken, bind, findValidRefreshToken, gets, findOne.
  destruct (find _ _) as [d|] eqn:F; [|reflexivity].
  apply find_some in F as [I V]. rewrite (Dead d I) in V. discriminate.
Qed.

Lemma rotate_live_token (env : Env.t) (oldToken : string)
    (newTokenData : CreateRefreshTokenInput.t) (w : World.t) (r : RefreshTokenDoc.t) :
  findOne (isValidRefreshToken (Env.now env) oldToken) (World.refreshTokens w) = Some r ->
  rotateRefreshToken env oldToken newTokenData w
  = (Ok (Some (createdFrom env w newTokenData)),
     World.with_nextObjectId S
       (World.with_refreshTokens
          (fun col => updateOne (hasToken oldToken) (setRevoked (Env.now env)) col
                      ++ [createdFrom env w newTokenData])%list w)).
Proof.
  intros F. unfold rotateRefreshToken, bind, findValidRefreshToken, gets.
  rewrite F. reflexivity.
Qed.

(** Rotation, one call after another.  [rotateRefreshToken] returns
    null and leaves the store untouched whenever no stored record carries
    the old token un-revoked and un-expired.  When such a record exists
    the call returns the replacement it has just stored (built from the
    new token data, not revoked) after revoking the first record that
    carries the old token; if the old token value is carried by one
    record only, that record is the valid one, it is now revoked, and,
    the replacement having a different token value, every later rotation
    of the old token returns null without storing anything. *)
Theorem rotateRefreshToken_sequential
    (env : Env.t) (oldToken : string) (newTokenData : CreateRefreshTokenInput.t)
    (w : World.t) :
  let stored := World.refreshTokens w in
  let valid := isValidRefreshToken (Env.now env) oldToken in
  ((forall d, In d stored -> valid d = false) ->
   rotateRefreshToken env oldToken newTokenData w = (Ok None, w))
  /\ (forall r, findOne valid stored = Some r ->
      exists w',
        let created := createdFrom env w newTokenData in
        rotateRefreshToken env oldToken newTokenData w = (Ok (Some created), w')
        /\ World.refreshTokens w'
           = (updateOne (hasToken oldToken) (setRevoked (Env.now env)) stored
              ++ [created])%list
        /\ World.users w' = World.users w
        /\ ((countDocuments (hasToken oldToken) stored <= 1)%nat ->
            In (setRevoked (Env.now env) r) (World.refreshTokens w')
            /\ (CreateRefreshTokenInput.token newTokenData <> oldToken ->
                forall env2 newTokenData2,
                  rotateRefreshToken env2 oldToken newTokenData2 w' = (Ok None, w')))).
Proof.
  cbn zeta. split; [apply rotate_dead_token|].
  intros r F. eexists. cbn zeta.
  split; [apply (rotate_live_token _ _ _ _ _ F)|].
  split; [reflexivity|]. split; [reflexivity|].
  intros U.
  destruct (updateOne_unique (hasToken oldToken)
              (isValidRefreshToken (Env.now env) oldToken)
              (setRevoked (Env.now env)) _ r
              (isValidRefreshToken_hasToken _ _) U F) as [I Others].
  split.
  - cbn. apply in_or_app. now left.
  - intros Fresh env2 newTokenData2. apply rotate_dead_token.
    cbn. intros d J. apply in_app_or in J as [J|[<-|[]]].
    + destruct (Others d J) as [->|NT].
      * apply isValidRefreshToken_setRevoked.
      * unfold isValidRefreshToken. fold (hasToken oldToken d). now rewrite NT.
    + unfold isValidRefreshToken. cbn.
      apply String.eqb_neq in Fresh. now rewrite Fresh.
Qed.

(** The demo session is rotated from ["T"] to ["T2"]; ["T"] is dead afterwards. *)
Lemma rotateRefreshToken_sequential_witness :
  exists w',
    rotateRefreshToken (envAt 100) "T" (replacement "T2") worldWithSession
    = (Ok (Some (createdFrom (envAt 100) worldWithSession (replacement "T2"))), w')
    /\ In (setRevoked 100 sessionDoc) (World.refreshTokens w')
    /\ rotateRefreshToken (envAt 200) "T" (replacement "T3") w' = (Ok None, w').
Proof.
  destruct (rotateRefreshToken_sequential (envAt 100) "T" (replacement "T2")
              worldWithSession) as [_ Live].
  destruct (Live sessionDoc eq_refl) as (w' & R & _ & _ & U).
  destruct (U ltac:(vm_compute; lia)) as [I Dead].
  exists w'. split; [exact R|]. split; [exact I|].
  apply Dead. discriminate.
Defined.

(** The interleaving model agrees with the function: three uninterrupted
    steps of one rotation are [rotateRefreshToken]. *)
Lemma rotateStep_uninterrupted (env : Env.t) (oldToken : string)
    (newTokenData : CreateRefreshTokenInput.t) (w : World.t) :
  let r0 := Rotation.mk env oldToken newTokenData RotateFind in
  let '(rs, w') := runSchedule [0; 0; 0]%nat [r0] w in
  exists result,
    map Rotation.state rs = [RotateDone result]
    /\ rotateRefreshToken env oldToken newTokenData w = (Ok result, w').
Proof.
  cbn zeta. unfold rotateRefreshToken, bind. cbn -[findValidRefreshToken].
  unfold findValidRefreshToken, gets.
  destruct (findOne _ _) as [d|]; cbn; eexists; split; reflexivity.
Qed.

(** C2. The failing input: two rotations of the demo session's valid
    token whose store operations alternate (find, find, revoke, revoke,
    create, create).  Both pass the validity check before either
    revokes, both return a replacement, and two un-revoked records are
    left where single use allows one. *)
Lemma concurrent_rotations_both_succeed :
  let a := Rotation.mk (envAt 100) "T" (replacement "A") RotateFind in
  let b := Rotation.mk (envAt 101) "T" (replacement "B") RotateFind in
  let (rs, w') := runSchedule [0; 1; 0; 1; 0; 1]%nat [a; b] worldWithSession in
  map succeeded rs = [true; true]
  /\ countDocuments (fun d => negb (RefreshTokenDoc.revoked d)) (World.refreshTokens w')
     = 2%nat.
Proof. vm_compute. split; reflexivity. Qed.

(** ** Audit entries and failed-login tracking *)

Lemma logSecurityEvent_run (env : Env.t) (eventType : SecurityEventType)
    (severity : SeverityLevel) (details : EventDetails.t) (w : World.t) :
  logSecurityEvent env eventType severity details w
  = (Ok tt, afterEvent env eventType severity details w).
Proof. destruct severity; reflexivity. Qed.

(** Take the next [await] of a handler when it is a [logSecurityEvent]. *)
Ltac await_event := unfold bind at 1; rewrite logSecurityEvent_run.

Lemma orElse_nonEmpty (a b : option string) :
  exists s, Js.orElse a (Some "unknown") = Some s /\ Js.nonEmpty s = true.
Proof.
  unfold Js.orElse. destruct (Js.truthyOpt a) eqn:T.
  - destruct a as [s|]; [|discriminate]. now exists s.
  - now exists "unknown".
Qed.

Lemma getClientIP_nonEmpty (req : Request.t) : Js.nonEmpty (getClientIP req) = true.
Proof.
  unfold getClientIP.
  destruct (orElse_nonEmpty (Js.orElse
              (option_map (fun s => hd EmptyString (Js.split "," s)) (Request.xForwardedFor req))
              (Request.remoteAddress req)) None) as (s & E & N).
  now rewrite E.
Qed.

Lemma getUserAgent_nonEmpty (req : Request.t) : Js.nonEmpty (getUserAgent req) = true.
Proof.
  unfold getUserAgent.
  destruct (orElse_nonEmpty (Request.userAgentHeader req) None) as (s & E & N).
  now rewrite E.
Qed.

Lemma trackFailedLogin_anonymous `{Platform} (env : Env.t) (email : string) (req : Request.t)
    (reason : string) (w : World.t) :
  let ip := getClientIP req in
  let ua := getUserAgent req in
  let total := S (loggedSince (sinceDate env 15) LOGIN_FAILED (byEmail email)
                    (World.auditLogs w)) in
  let daily := S (loggedSince (sinceDate env 1440) LOGIN_FAILED (byEmail email)
                    (World.auditLogs w)) in
  let ipTotal := S (loggedSince (sinceDate env 15) LOGIN_FAILED (byIP ip)
                      (World.auditLogs w)) in
  let w1 := afterEvent env LOGIN_FAILED (failedLoginSeverity total ipTotal)
              (loginFailedDetails email ip ua reason total ipTotal daily) w in
  trackFailedLogin env email req reason None w
  = if (5 <=? total)%nat || (10 <=? ipTotal)%nat
    then (Ok (LoginCheck.mk true None None),
          afterEvent env LOGIN_BLOCKED critical
            (loginBlockedDetails email ip ua total ipTotal) w1)
    else (Ok (LoginCheck.mk false (Some (5 - Z.of_nat total)) None), w1).
Proof.
  cbn zeta. unfold trackFailedLogin.
  unfold bind at 1. unfold getFailedLoginAttempts at 1, gets at 1.
  unfold bind at 1. unfold getFailedLoginAttempts at 1, gets at 1.
  unfold bind at 1. unfold getFailedLoginAttemptsByIP at 1, gets at 1.
  rewrite !Nat.add_1_r.
  set (total := S (loggedSince (sinceDate env 15) _ _ _)).
  set (daily := S (loggedSince (sinceDate env 1440) _ _ _)).
  set (ipTotal := S (loggedSince (sinceDate env 15) _ (byIP _) _)).
  await_event.
  replace (if (10 <=? daily)%nat then @None ObjectId else None) with (@None ObjectId)
    by now destruct (10 <=? daily)%nat.
  cbv zeta.
  destruct ((5 <=? total)%nat || (10 <=? ipTotal)%nat) eqn:Bl.
  - unfold bind. rewrite logSecurityEvent_run. reflexivity.
  - reflexivity.
Qed.

Lemma auditEntry_context (env : Env.t) (e : SecurityEventType) (s : SeverityLevel)
    (d : EventDetails.t) (w : World.t) (req : Request.t) :
  EventDetails.ipAddress d = Some (getClientIP req) ->
  AuditLogDoc.ipAddress (auditEntry env e s d w) = Some (getClientIP req).
Proof.
  intros E. cbn. rewrite E. unfold Js.orElse. cbn. now rewrite getClientIP_nonEmpty.
Qed.

Lemma serve_cons {R} (handle : R -> World.t -> Response.t * World.t)
    (r : R) (rest : list R) (w : World.t) :
  serve handle (r :: rest) w
  = (fst (handle r w) :: fst (serve handle rest (snd (handle r w))),
     snd (serve handle rest (snd (handle r w)))).
Proof.
  cbn. destruct (handle r w) as [resp w1]. cbn.
  now destruct (serve handle rest w1).
Qed.

Lemma loggedSince_app (since : Date) (e : SecurityEventType)
    (f : AuditLogDoc.t -> bool) (l1 l2 : list AuditLogDoc.t) :
  loggedSince since e f (l1 ++ l2)
  = (loggedSince since e f l1 + loggedSince since e f l2)%nat.
Proof. apply countDocuments_app. Qed.

Lemma loggedSince_hit (since : Date) (e : SecurityEventType)
    (f : AuditLogDoc.t -> bool) (d : AuditLogDoc.t) (l : list AuditLogDoc.t) :
  AuditLogDoc.eventType d = e -> f d = true -> since <= AuditLogDoc.timestamp d ->
  (1 <= loggedSince since e f (d :: l))%nat.
Proof.
  intros E F T. unfold loggedSince, countDocuments. cbn [filter].
  rewrite E, F. apply Z.leb_le in T. rewrite T.
  replace (SecurityEventType_eqb e e) with true by now destruct e.
  cbn. lia.
Qed.

Section Login.
Context `{Platform}.

Lemma loginHandler_failed (env : Env.t) (req : Request.t) (w : World.t) (email : string) :
  failedLoginEmail w req = Some email ->
  exists reason,
    loginHandler env req w
    = bind (trackFailedLogin env email req reason None)
        (fun loginCheck =>
           if LoginCheck.blocked loginCheck then
             throw (httpError 429 "Too many failed login attempts. Please try again later.")
           else throw (badRequest "Invalid email or password")) w.
Proof.
  unfold failedLoginEmail, loginHandler. intros F.
  destruct (field "email" (Request.body req)) as [| | | |e|]; try discriminate.
  destruct (field "password" (Request.body req)) as [| | | |p|]; try discriminate.
  destruct (Js.nonEmpty e); [|discriminate].
  destruct (Js.nonEmpty (Js.trim e)); [|discriminate].
  destruct (Js.nonEmpty p); [|discriminate]. cbn [andb negb orb] in *.
  unfold bind at 1. unfold findUserByEmail, gets.
  destruct (findOne _ (World.users w)) as [u|].
  - destruct (UserDoc.locked u); [discriminate|]. cbn [negb andb] in F.
    destruct (bcrypt_compare p (UserDoc.passwordHash u)); [discriminate|].
    injection F as <-. now exists "Invalid password".
  - injection F as <-. now exists "User not found".
Qed.

Lemma failed_login_served (env : Env.t) (req : Request.t) (w : World.t) (email : string) :
  failedLoginEmail w req = Some email ->
  reachesHandler env = true ->
  let total := S (loggedSince (sinceDate env 15) LOGIN_FAILED (byEmail email)
                    (World.auditLogs w)) in
  let ipTotal := S (loggedSince (sinceDate env 15) LOGIN_FAILED
                      (byIP (getClientIP req)) (World.auditLogs w)) in
  let blocked := (5 <=? total)%nat || (10 <=? ipTotal)%nat in
  exists failed rest w',
    POST_auth_login env req w
    = (if blocked then tooManyAttempts else invalidCredentials, w')
    /\ World.auditLogs w' = (World.auditLogs w ++ failed :: rest)%list
    /\ World.users w' = World.users w
    /\ AuditLogDoc.eventType failed = LOGIN_FAILED
    /\ AuditLogDoc.severity failed = failedLoginSeverity total ipTotal
    /\ AuditLogDoc.email failed = Some email
    /\ AuditLogDoc.ipAddress failed = Some (getClientIP req)
    /\ AuditLogDoc.timestamp failed = Env.now env
    /\ if blocked
       then exists b, rest = [b]
                      /\ AuditLogDoc.eventType b = LOGIN_BLOCKED
                      /\ AuditLogDoc.severity b = critical
                      /\ AuditLogDoc.email b = Some email
       else rest = [].
Proof.
  intros F R. cbn zeta.
  destruct (loginHandler_failed env req w email F) as [reason L].
  pose proof (trackFailedLogin_anonymous env email req reason w) as T.
  cbn zeta in T.
  unfold POST_auth_login, apiLimiter, authLimiter, rateLimit, route.
  apply andb_prop in R as [R1 R2]. rewrite R1, R2, L.
  unfold bind. rewrite T.
  match goal with |- context [afterEvent env LOGIN_FAILED ?s ?d w] =>
    exists (auditEntry env LOGIN_FAILED s d w) end.
  destruct (_ || _).
  - eexists. eexists. split; [reflexivity|].
    split. { cbn [afterEvent World.auditLogs]. rewrite <- app_assoc. reflexivity. }
    split; [reflexivity|]. split; [reflexivity|]. split; [reflexivity|].
    split; [reflexivity|]. split; [now apply auditEntry_context|].
    split; [reflexivity|].
    eexists. split; [reflexivity|]. repeat split.
  - exists []. eexists. split; [reflexivity|].
    split; [reflexivity|]. split; [reflexivity|]. split; [reflexivity|].
    split; [reflexivity|]. split; [reflexivity|]. split; [now apply auditEntry_context|].
    split; reflexivity.
Qed.

Lemma asciiLower_fixes (s : string) :
  Js.existsb Js.isUpper s = false -> Js.asciiLower s = s.
Proof.
  induction s as [|c r IH]; cbn; [reflexivity|].
  intros U. apply Bool.orb_false_iff in U as [Uc Ur].
  unfold Js.lowerChar. now rewrite Uc, IH.
Qed.

(** An email made of ASCII characters without capital letters is one
    that [toLowerCase] leaves unchanged. *)
Lemma toLowerCase_fixes (s : string) :
  Js.isAscii s = true -> Js.existsb Js.isUpper s = false -> toLowerCase s = s.
Proof.
  intros A U. rewrite toLowerCase_ascii by exact A. now apply asciiLower_fixes.
Qed.

Lemma byEmail_recordedFor (email : string) :
  toLowerCase email = email -> byEmail email = recordedFor email.
Proof. intros Low. unfold byEmail, recordedFor. now rewrite Low. Qed.

Lemma failedLogins_counted (email : string) (since : Date)
    (attempts : list (Env.t * Request.t)) (w : World.t) :
  failedLoginsFor email since attempts w ->
  (loggedSince since LOGIN_FAILED (recordedFor email) (World.auditLogs w) + length attempts
   <= loggedSince since LOGIN_FAILED (recordedFor email)
        (World.auditLogs (snd (serve serveLogin attempts w))))%nat.
Proof.
  revert w. induction attempts as [|[env req] rest IH]; intros w F.
  - cbn. lia.
  - destruct F as (F & T & R & Fs). rewrite serve_cons. cbn [snd length].
    specialize (IH _ Fs).
    destruct (failed_login_served env req w email F R)
      as (failed & more & w' & P & A & _ & E1 & _ & E3 & _ & E5 & _).
    unfold serveLogin in *. cbn [fst snd] in *. rewrite P in *. cbn [snd] in *.
    rewrite A, loggedSince_app in IH.
    assert (1 <= loggedSince since LOGIN_FAILED (recordedFor email) (failed :: more))%nat.
    { apply loggedSince_hit; [assumption| |lia].
      unfold recordedFor. rewrite E3. cbn. apply String.eqb_refl. }
    lia.
Qed.

(** The state a successful login leaves. *)
Lemma login_success (env : Env.t) (req : Request.t) (email password : string)
    (user : UserDoc.t) (w : World.t) :
  field "email" (Request.body req) = Js.Str email ->
  field "password" (Request.body req) = Js.Str password ->
  Js.nonEmpty email = true -> Js.nonEmpty (Js.trim email) = true ->
  Js.nonEmpty password = true ->
  reachesHandler env = true ->
  fst (findUserByEmail email w) = Ok (Some user) ->
  UserDoc.locked user = false ->
  bcrypt_compare password (UserDoc.passwordHash user) = true ->
  exists accessToken issued w',
    POST_auth_login env req w
    = (Response.mk 200 (LoginJson (toUserProfile user) accessToken (Env.randomToken env 64)),
       w')
    /\ World.refreshTokens w' = (World.refreshTokens w ++ [issued])%list
    /\ RefreshTokenDoc.token issued = Env.randomToken env 64
    /\ RefreshTokenDoc.userId issued = UserDoc._id user
    /\ RefreshTokenDoc.revoked issued = false
    /\ RefreshTokenDoc.expiresAt issued = plusLocalTime (Env.now env) (7 * 86400000)
    /\ RefreshTokenDoc.ipAddress issued = Some (getClientIP req)
    /\ RefreshTokenDoc.userAgent issued = Some (getUserAgent req)
    /\ World.users w'
       = updateOne (fun d => (UserDoc._id d =? UserDoc._id user)%nat)
           (fun d => UserDoc.mk (UserDoc._id d) (UserDoc.email d) (UserDoc.fullName d)
                       (UserDoc.passwordHash d) (UserDoc.createdAt d) (Env.now env)
                       (UserDoc.emailVerified d) (Some (Env.now env)) (UserDoc.role d)
                       (UserDoc.locked d) (UserDoc.lockReason d) (UserDoc.lockedAt d))
           (World.users w).
Proof.
  intros FE FP NE NT NP Reach Found Unlocked Pw.
  unfold reachesHandler in Reach. apply andb_prop in Reach as [A R].
  unfold POST_auth_login, apiLimiter, authLimiter, rateLimit. rewrite A, R.
  unfold route, loginHandler. rewrite FE, FP, NE, NT, NP. cbn [negb orb].
  unfold findUserByEmail, gets in Found. cbn [fst] in Found. injection Found as Found.
  unfold bind at 1. unfold findUserByEmail at 1, gets at 1. rewrite Found.
  rewrite Unlocked, Pw. cbn [negb].
  unfold bind at 1. unfold trackSuccessfulLogin. rewrite logSecurityEvent_run.
  do 3 eexists. split; [reflexivity|]. cbn. repeat split; reflexivity.
Qed.

End Login.

(** C3 (as amended). For every login attempt that reaches the handler.
    If it fails authentication (the email names no account, or the
    password does not verify for an unlocked account) and its email is
    one that lower-casing leaves unchanged: when the number of
    [LOGIN_FAILED] entries recorded for that email in the trailing 15
    minutes, this attempt included, reaches 5, or the number recorded
    for its address reaches 10, a [LOGIN_FAILED] entry and then a
    [LOGIN_BLOCKED] entry of severity critical are recorded and the
    answer is the rate-limited rejection (429); otherwise only the
    [LOGIN_FAILED] entry is recorded and the answer is the
    invalid-credentials rejection (400); and after four or more failed
    logins for that email within the 15 minutes before it, so after five,
    the attempt is answered 429.  The two rejections differ.  If instead
    it carries the password of an unlocked account it is answered 200,
    whatever the audit log holds. *)
Theorem failed_logins_are_soft_blocked `{Platform}
    (env : Env.t) (req : Request.t) (w : World.t) :
  reachesHandler env = true ->
  (forall email,
     failedLoginEmail w req = Some email ->
     toLowerCase email = email ->
     let total := S (loggedSince (sinceDate env 15) LOGIN_FAILED (recordedFor email)
                       (World.auditLogs w)) in
     let ipTotal := S (loggedSince (sinceDate env 15) LOGIN_FAILED
                         (byIP (getClientIP req)) (World.auditLogs w)) in
     let blocked := (5 <=? total)%nat || (10 <=? ipTotal)%nat in
     (exists failed rest w',
        POST_auth_login env req w
        = (if blocked then tooManyAttempts else invalidCredentials, w')
        /\ World.auditLogs w' = (World.auditLogs w ++ failed :: rest)%list
        /\ AuditLogDoc.eventType failed = LOGIN_FAILED
        /\ AuditLogDoc.email failed = Some email
        /\ AuditLogDoc.timestamp failed = Env.now env
        /\ if blocked
           then exists b, rest = [b]
                          /\ AuditLogDoc.eventType b = LOGIN_BLOCKED
                          /\ AuditLogDoc.severity b = critical
                          /\ AuditLogDoc.email b = Some email
           else rest = [])
     /\ (forall w0 attempts,
           (4 <= length attempts)%nat ->
           failedLoginsFor email (sinceDate env 15) attempts w0 ->
           w = snd (serve serveLogin attempts w0) ->
           fst (POST_auth_login env req w) = tooManyAttempts))
  /\ tooManyAttempts <> invalidCredentials
  /\ (forall email password user,
        field "email" (Request.body req) = Js.Str email ->
        field "password" (Request.body req) = Js.Str password ->
        Js.nonEmpty email = true -> Js.nonEmpty (Js.trim email) = true ->
        Js.nonEmpty password = true ->
        fst (findUserByEmail email w) = Ok (Some user) ->
        UserDoc.locked user = false ->
        bcrypt_compare password (UserDoc.passwordHash user) = true ->
        Response.status (fst (POST_auth_login env req w)) = 200%nat).
Proof.
  intros R. split; [|split].
  - intros email F Low. cbn zeta.
    destruct (failed_login_served env req w email F R)
      as (failed & rest & w' & P & A & _ & E1 & _ & E3 & _ & E5 & B).
    cbn zeta in P, B. rewrite (byEmail_recordedFor email Low) in P, B. split.
    + exists failed, rest, w'. repeat (split; [assumption|]). exact B.
    + intros w0 attempts Len Fs ->.
      pose proof (failedLogins_counted email _ attempts w0 Fs) as C.
      rewrite P. cbn [fst].
      replace (5 <=? _)%nat with true; [reflexivity|].
      symmetry. apply Nat.leb_le. lia.
  - discriminate.
  - intros email password user FE FP NE NT NP Found Unlocked Pw.
    destruct (login_success env req email password user w FE FP NE NT NP R
                Found Unlocked Pw) as (accessToken & issued & w' & Run & _).
    now rewrite Run.
Qed.

(** Five wrong passwords for the demo account in five minutes, then a sixth. *)
Lemma failed_logins_are_soft_blocked_witness :
  let w5 := snd (serve (@serveLogin demoPlatform) fiveFailures world0) in
  fst (@POST_auth_login demoPlatform (envAt (minutes 5))
         (loginRequest "198.51.100.6" "alice@example.com" "guess-6") w5)
  = tooManyAttempts.
Proof.
  cbn zeta.
  destruct (@failed_logins_are_soft_blocked demoPlatform (envAt (minutes 5))
              (loginRequest "198.51.100.6" "alice@example.com" "guess-6")
              (snd (serve (@serveLogin demoPlatform) fiveFailures world0))
              ltac:(reflexivity))
    as (Failing & _ & _).
  destruct (Failing "alice@example.com" ltac:(vm_compute; reflexivity) ltac:(reflexivity))
    as (_ & Run).
  apply (Run world0 fiveFailures).
  - cbn. lia.
  - cbn [failedLoginsFor fiveFailures].
    repeat split; try (vm_compute; reflexivity); vm_compute; intros E; discriminate E.
  - reflexivity.
Defined.

(** C3 (as stated) fails: after five failed logins for one email within
    five minutes (the fifth already answered 429), a sixth attempt that
    the limiters let through and that carries the correct password is
    accepted with 200, not rate-limited. *)
Lemma sixth_attempt_with_correct_password_is_accepted :
  let (responses, w5) := serve (@serveLogin demoPlatform) fiveFailures world0 in
  map Response.status responses = [400; 400; 400; 400; 429]%nat
  /\ loggedSince (sinceDate (envAt (minutes 5)) 15) LOGIN_FAILED
       (recordedFor "alice@example.com") (World.auditLogs w5) = 5%nat
  /\ Response.status
       (fst (@POST_auth_login demoPlatform (envAt (minutes 5))
               (loginRequest "198.51.100.6" "alice@example.com" "Str0ng!Pass9") w5))
     = 200%nat.
Proof. vm_compute. repeat split. Qed.

(** ** Account lockout *)

(** What [trackFailedLogin] does when its caller names the account: at
    ten failures in 24 hours it locks the account with a reason, records
    [ACCOUNT_LOCKED] with severity critical and reports the lock. *)
Lemma trackFailedLogin_locks_named_account `{Platform} (env : Env.t) (email : string)
    (req : Request.t) (reason : string) (uid : ObjectId) (w : World.t) :
  (9 <= loggedSince (sinceDate env 1440) LOGIN_FAILED (byEmail email)
          (World.auditLogs w))%nat ->
  exists w' failed locked,
    trackFailedLogin env email req reason (Some uid) w
    = (Ok (LoginCheck.mk true None (Some true)), w')
    /\ World.auditLogs w' = (World.auditLogs w ++ [failed; locked])%list
    /\ AuditLogDoc.eventType locked = ACCOUNT_LOCKED
    /\ AuditLogDoc.severity locked = critical
    /\ AuditLogDoc.userId locked = Some uid
    /\ forall u, findOne (fun d => (UserDoc._id d =? uid)%nat) (World.users w) = Some u ->
         exists u', findOne (fun d => (UserDoc._id d =? uid)%nat) (World.users w') = Some u'
                    /\ UserDoc.locked u' = true
                    /\ UserDoc.lockReason u' = Some lockMessage.
Proof.
  intros Ten. unfold trackFailedLogin.
  unfold bind at 1. unfold getFailedLoginAttempts at 1, gets at 1.
  unfold bind at 1. unfold getFailedLoginAttempts at 1, gets at 1.
  unfold bind at 1. unfold getFailedLoginAttemptsByIP at 1, gets at 1.
  rewrite !Nat.add_1_r.
  set (total := S (loggedSince (sinceDate env 15) _ _ _)).
  set (daily := S (loggedSince (sinceDate env 1440) _ _ _)).
  set (ipTotal := S (loggedSince (sinceDate env 15) _ (byIP _) _)).
  await_event.
  replace (10 <=? daily)%nat with true
    by (symmetry; apply Nat.leb_le; subst daily; lia).
  unfold bind at 1. unfold lockAccount, updateUser, modify.
  await_event.
  eexists. eexists. eexists. split; [reflexivity|].
  split. { cbn [afterEvent World.auditLogs World.with_users]. rewrite <- app_assoc.
           reflexivity. }
  split; [reflexivity|]. split; [reflexivity|]. split; [reflexivity|].
  cbn [afterEvent World.users World.with_users].
  generalize (World.users w). intros us u. unfold findOne.
  induction us as [|d r IH]; cbn; [discriminate|].
  destruct (UserDoc._id d =? uid)%nat eqn:I; cbn.
  - intros _. rewrite I. eexists. split; [reflexivity|]. split; reflexivity.
  - rewrite I. exact IH.
Qed.

Section LoginEffects.
Context `{Platform}.

(** No path through the login route changes the lock flag of any
    account: the handler never hands an account id to
    [trackFailedLogin]. *)
Lemma login_never_locks (env : Env.t) (req : Request.t) (w : World.t) :
  map UserDoc.locked (World.users (snd (POST_auth_login env req w)))
  = map UserDoc.locked (World.users w).
Proof.
  unfold POST_auth_login, apiLimiter, authLimiter, rateLimit.
  destruct (Env.apiLimiterAllows env); [|reflexivity].
  destruct (Env.routeLimiterAllows env); [|reflexivity].
  destruct (failedLoginEmail w req) as [email|] eqn:F.
  - destruct (loginHandler_failed env req w email F) as [reason L].
    unfold route. rewrite L. unfold bind.
    rewrite trackFailedLogin_anonymous. cbn zeta.
    destruct (_ || _); reflexivity.
  - unfold failedLoginEmail in F. unfold route, loginHandler.
    destruct (field "email" (Request.body req)) as [| | | |e|]; try reflexivity.
    destruct (Js.nonEmpty e); [|reflexivity].
    destruct (Js.nonEmpty (Js.trim e)); [|reflexivity]. cbn [negb orb andb] in *.
    destruct (field "password" (Request.body req)) as [| | | |p|]; try reflexivity.
    destruct (Js.nonEmpty p); [|reflexivity]. cbn [negb] in *.
    unfold bind at 1. unfold findUserByEmail, gets.
    destruct (findOne _ (World.users w)) as [u|]; [|discriminate].
    destruct (UserDoc.locked u).
    + unfold bind, trackSuspiciousActivity. rewrite logSecurityEvent_run. reflexivity.
    + cbn [negb andb] in F.
      destruct (bcrypt_compare p (UserDoc.passwordHash u)); [|discriminate].
      cbn [negb]. unfold bind at 1. unfold trackSuccessfulLogin.
      rewrite logSecurityEvent_run.
      unfold bind at 1. unfold updateLastLogin, updateUser, modify.
      unfold bind at 1. unfold createRefreshToken, bind, freshObjectId, gets, modify, ret.
      cbn. apply updateOne_map. reflexivity.
Qed.

End LoginEffects.

(** C1. The failing input: ten logins with a wrong password for one
    existing account, one every twenty minutes from one address.  Every
    one of them is answered "Invalid email or password", the tenth
    included although the audit log then holds ten [LOGIN_FAILED] entries
    for the email in the last 24 hours; the account's [locked] field is
    still false, no [ACCOUNT_LOCKED] entry exists, and an eleventh attempt
    with the correct password logs in. *)
Lemma ten_failed_logins_do_not_lock :
  let (responses, w10) := serve (@serveLogin demoPlatform) tenFailures world0 in
  responses = repeat invalidCredentials 10
  /\ loggedSince (sinceDate (envAt (minutes 180)) 1440) LOGIN_FAILED
       (@byEmail demoPlatform "alice@example.com") (World.auditLogs w10) = 10%nat
  /\ map UserDoc.locked (World.users w10) = [false]
  /\ existsb (SecurityEventType_eqb ACCOUNT_LOCKED) (eventTypes w10) = false
  /\ Response.status
       (fst (@POST_auth_login demoPlatform (envAt (minutes 200))
               (loginRequest "203.0.113.7" "alice@example.com" "Str0ng!Pass9") w10))
     = 200%nat.
Proof. vm_compute. repeat split. Qed.

(** ** Severity of failed logins *)

Lemma failedLoginSeverity_ladder (total ipTotal : nat) :
  (failedLoginSeverity total ipTotal = critical
   <-> (5 <= total \/ 10 <= ipTotal)%nat)
  /\ (failedLoginSeverity total ipTotal = high
      <-> ((3 <= total \/ 5 <= ipTotal) /\ total < 5 /\ ipTotal < 10)%nat)
  /\ (failedLoginSeverity total ipTotal = medium
      <-> (total = 2 /\ ipTotal < 5)%nat)
  /\ (failedLoginSeverity total ipTotal = low
      <-> (total < 2 /\ ipTotal < 5)%nat).
Proof.
  unfold failedLoginSeverity.
  destruct (Nat.leb_spec 5 total); destruct (Nat.leb_spec 10 ipTotal);
    destruct (Nat.leb_spec 3 total); destruct (Nat.leb_spec 5 ipTotal);
    destruct (Nat.leb_spec 2 total); cbn [orb];
    repeat split; intros; try discriminate; try lia.
Qed.

(** The severity stored with a failed login is the ladder applied to the
    counts the tracker derives from the audit log. *)
Lemma failed_login_severity `{Platform}
    (env : Env.t) (req : Request.t) (w : World.t) (email : string) :
  failedLoginEmail w req = Some email ->
  reachesHandler env = true ->
  exists failed rest,
    World.auditLogs (snd (POST_auth_login env req w))
    = (World.auditLogs w ++ failed :: rest)%list
    /\ AuditLogDoc.eventType failed = LOGIN_FAILED
    /\ AuditLogDoc.severity failed
       = failedLoginSeverity
           (S (loggedSince (sinceDate env 15) LOGIN_FAILED (byEmail email)
                 (World.auditLogs w)))
           (S (loggedSince (sinceDate env 15) LOGIN_FAILED (byIP (getClientIP req))
                 (World.auditLogs w))).
Proof.
  intros F R.
  destruct (failed_login_served env req w email F R)
    as (failed & rest & w' & P & A & _ & E1 & E2 & _).
  exists failed, rest. rewrite P. now repeat split.
Qed.

(** C8. The failing input: three logins with a wrong password within
    one minute from one address, the email typed with capital letters
    (it names the demo account, which is found case-insensitively).  The
    three [LOGIN_FAILED] entries carry severities low, low, low, not low,
    medium, high: entries store the email as typed while the counting
    query looks for its lower-case form, so the email-scoped count stays
    at 1.  The same three attempts with the email typed in lower case
    yield low, medium, high. *)
Lemma capitalised_email_severities_stay_low :
  let (responses, w3) :=
    serve (@serveLogin demoPlatform) (threeFailures "Alice@Example.com") world0 in
  responses = repeat invalidCredentials 3
  /\ failedLoginSeverities w3 = [low; low; low]
  /\ failedLoginSeverities
       (snd (serve (@serveLogin demoPlatform) (threeFailures "alice@example.com") world0))
     = [low; medium; high].
Proof. vm_compute. repeat split. Qed.

(** ** Token validation failures *)

Section SessionGuard.
Context `{Platform}.

Lemma rejected_without_mismatch (env : Env.t) (tok ip ua : string) :
  verifyAccessToken env tok = None ->
  verifyAccessTokenWithContext env tok ip ua = Verification.mk false None None.
Proof. intros V. unfold verifyAccessTokenWithContext. now rewrite V. Qed.

(** [GET /auth/validate] records a token that does not verify. *)
Lemma validate_records_invalid_token (env : Env.t) (req : Request.t) (w : World.t)
    (tok : string) :
  Env.apiLimiterAllows env = true ->
  extractTokenFromHeader (Request.authorization req) = Some tok ->
  tok <> "" ->
  verifyAccessToken env tok = None ->
  exists entry w',
    GET_auth_validate env req w
    = (Response.mk 401 (ErrorJson "Invalid or expired token"), w')
    /\ World.auditLogs w' = (World.auditLogs w ++ [entry])%list
    /\ AuditLogDoc.eventType entry = TOKEN_VALIDATION_FAILED
    /\ AuditLogDoc.severity entry = medium.
Proof.
  intros L E NE V. unfold GET_auth_validate, apiLimiter, rateLimit, route, validateHandler.
  rewrite L, E. apply String.eqb_neq in NE. unfold Js.nonEmpty. rewrite NE. cbn [negb].
  cbv zeta. rewrite (rejected_without_mismatch env tok _ _ V).
  cbn [Verification.valid Verification.payload Verification.mismatch].
  unfold bind, trackTokenValidationFailure. rewrite logSecurityEvent_run.
  eexists. eexists. split; [reflexivity|]. repeat split.
Qed.

(** [GET /auth/me] answers the same token with the same 401 and records nothing. *)
Lemma me_records_nothing (env : Env.t) (req : Request.t) (w : World.t) (tok : string) :
  Env.apiLimiterAllows env = true ->
  extractTokenFromHeader (Request.authorization req) = Some tok ->
  tok <> "" ->
  verifyAccessToken env tok = None ->
  GET_auth_me env req w = (Response.mk 401 (ErrorJson "Invalid or expired token"), w).
Proof.
  intros L E NE V. unfold GET_auth_me, apiLimiter, rateLimit, route, meHandler.
  rewrite L, E. apply String.eqb_neq in NE. unfold Js.nonEmpty. rewrite NE. cbn [negb].
  cbv zeta. rewrite (rejected_without_mismatch env tok _ _ V). reflexivity.
Qed.

End SessionGuard.

(** C7. The failing input: [GET /auth/me] with a bearer token that does
    not verify.  The answer is the generic 401, but the database, audit
    log included, is left exactly as it was: no [TOKEN_VALIDATION_FAILED]
    entry is recorded.  The same request to [GET /auth/validate] gets the
    same answer and records the entry with severity medium. *)
Lemma me_leaves_no_audit_entry :
  @GET_auth_me demoPlatform (envAt 0) (bearer "203.0.113.7" "garbage") world0
  = (Response.mk 401 (ErrorJson "Invalid or expired token"), world0)
  /\ (let (response, w') :=
        @GET_auth_validate demoPlatform (envAt 0) (bearer "203.0.113.7" "garbage") world0 in
      response = Response.mk 401 (ErrorJson "Invalid or expired token")
      /\ map (fun d => (AuditLogDoc.eventType d, AuditLogDoc.severity d))
             (World.auditLogs w')
         = [(TOKEN_VALIDATION_FAILED, medium)]).
Proof. vm_compute. repeat split. Qed.

(** ** Password reset requests *)

Lemma trackPasswordResetRequest_run `{Platform} (env : Env.t) (email : string) (req : Request.t)
    (userExists : bool) (w : World.t) :
  let totalEmailResets :=
    S (loggedSince (sinceDate env 60) PASSWORD_RESET_REQUESTED (byEmail email)
         (World.auditLogs w)) in
  let totalIpResets :=
    S (loggedSince (sinceDate env 60) PASSWORD_RESET_REQUESTED (byIP (getClientIP req))
         (World.auditLogs w)) in
  let blocked := (3 <? totalEmailResets)%nat || (5 <? totalIpResets)%nat in
  exists check w',
    trackPasswordResetRequest env email req userExists w = (Ok check, w')
    /\ ResetCheck.blocked check = blocked
    /\ ResetCheck.reason check
       = (if blocked
          then Some (if (3 <? totalEmailResets)%nat
                     then "Too many password reset requests for this email. Please try again in 1 hour."
                     else "Too many password reset requests from this location. Please try again in 1 hour.")
          else None)
    /\ World.users w' = World.users w
    /\ World.passwordResetTokens w' = World.passwordResetTokens w
    /\ World.outbox w' = World.outbox w.
Proof.
  cbn zeta. unfold trackPasswordResetRequest.
  unfold bind at 1. unfold getPasswordResetRequestsByEmail at 1, gets at 1.
  unfold bind at 1. unfold getPasswordResetRequestsByIP at 1, gets at 1.
  rewrite !Nat.add_1_r.
  set (te := S (loggedSince _ _ (byEmail _) _)).
  set (ti := S (loggedSince _ _ (byIP _) _)).
  await_event. cbv zeta.
  destruct ((3 <? te)%nat || (5 <? ti)%nat) eqn:B.
  - unfold bind. rewrite logSecurityEvent_run.
    eexists. eexists. split; [reflexivity|]. repeat split.
  - unfold bind.
    destruct ((2 <=? te)%nat || (3 <=? ti)%nat).
    + rewrite logSecurityEvent_run. eexists. eexists. split; [reflexivity|]. repeat split.
    + eexists. eexists. split; [reflexivity|]. repeat split.
Qed.

(** When the mail transport accepts the message, the answer of the
    forgot-password route is a function of the request and the audit
    log: the [users] collection has no influence on it. *)
Lemma forgot_password_answer `{Platform} (env : Env.t) (req : Request.t) (w : World.t) :
  reachesHandler env = true ->
  Env.sendMailOk env = true ->
  fst (POST_auth_forgot_password env req w)
  = forgotPasswordAnswer env req (World.auditLogs w).
Proof.
  intros R Mail. apply andb_prop in R as [R1 R2].
  unfold POST_auth_forgot_password, apiLimiter, passwordResetLimiter, rateLimit.
  rewrite R1, R2. unfold route, forgotPasswordHandler, forgotPasswordAnswer.
  destruct (field "email" (Request.body req)) as [| | | |e|]; try reflexivity.
  destruct (negb (Js.nonEmpty e) || negb (Js.nonEmpty (Js.trim e))); [reflexivity|].
  unfold bind at 1. unfold findUserByEmail at 1, gets at 1.
  set (user := findOne _ (World.users w)).
  unfold bind at 1.
  destruct (trackPasswordResetRequest_run env e req
              (match user with Some _ => true | None => false end) w)
    as (check & w' & T & B & Rs & _).
  cbn zeta in B, Rs. rewrite T, B, Rs. cbv zeta.
  destruct (3 <? _)%nat; cbn [orb]; [reflexivity|].
  destruct (5 <? _)%nat; [reflexivity|].
  unfold bind at 1. destruct user as [u|]; [|reflexivity].
  unfold createPasswordResetTokenData. cbv beta iota zeta.
  unfold bind at 1. unfold createPasswordResetToken, bind, freshObjectId, gets, modify, ret.
  unfold sendPasswordResetEmail. rewrite Mail. reflexivity.
Qed.

(** Nothing is created or sent for an email that names no account. *)
Lemma forgot_password_unknown_account `{Platform} (env : Env.t) (req : Request.t) (w : World.t)
    (email : string) :
  field "email" (Request.body req) = Js.Str email ->
  findUserByEmail email w = (Ok None, w) ->
  let w' := snd (POST_auth_forgot_password env req w) in
  World.passwordResetTokens w' = World.passwordResetTokens w
  /\ World.outbox w' = World.outbox w.
Proof.
  intros E U. cbn zeta.
  destruct (POST_auth_forgot_password env req w) as [resp w'] eqn:Run. cbn [snd].
  unfold POST_auth_forgot_password, apiLimiter, passwordResetLimiter, rateLimit in Run.
  destruct (Env.apiLimiterAllows env); [|injection Run as _ <-; now split].
  destruct (Env.routeLimiterAllows env); [|injection Run as _ <-; now split].
  unfold route, forgotPasswordHandler in Run. rewrite E in Run.
  destruct (negb (Js.nonEmpty email) || negb (Js.nonEmpty (Js.trim email)));
    [injection Run as _ <-; now split|].
  unfold bind at 1 in Run. rewrite U in Run. unfold bind at 1 in Run.
  destruct (trackPasswordResetRequest_run env email req false w)
    as (check & w1 & T & _ & _ & _ & P & O).
  rewrite T in Run.
  destruct (ResetCheck.blocked check); cbn in Run; injection Run as _ <-; now split.
Qed.

(** C9. The failing input: a reset is requested for an existing account
    while the mail transport rejects the message.  The handler rethrows
    the transport failure and the answer is 500 "Failed to send password
    reset email"; the same request for an email that names no account is
    answered with the generic 200 message.  The two answers differ, so
    the existence of the account shows in the response. *)
Lemma mail_failure_reveals_account :
  fst (@POST_auth_forgot_password demoPlatform (envMailDown 0)
         (forgotPasswordRequest "203.0.113.7" "alice@example.com") world0)
  = Response.mk 500 (ErrorJson "Failed to send password reset email")
  /\ fst (@POST_auth_forgot_password demoPlatform (envMailDown 0)
            (forgotPasswordRequest "203.0.113.7" "nobody@example.com") world0)
     = Response.mk 200 (MessageJson forgotPasswordMessage).
Proof. vm_compute. split; reflexivity. Qed.

(** ** Password reset tokens *)

Lemma NoDup_map_inj {A B} (key : A -> B) (l : list A) (x y : A) :
  NoDup (map key l) -> In x l -> In y l -> key x = key y -> x = y.
Proof.
  induction l as [|c r IH]; cbn; intros N Ix Iy E; [easy|].
  inversion N as [|? ? Nc Nr]; subst.
  destruct Ix as [<-|Ix], Iy as [<-|Iy]; auto.
  - exfalso. apply Nc. rewrite E. now apply in_map.
  - exfalso. apply Nc. rewrite <- E. now apply in_map.
Qed.

(** An update by primary key rewrites the record with that key and no other. *)
Lemma updateOne_by_key {A B} (key : A -> B) (q : A -> bool) (f : A -> A)
    (l : list A) (r : A) :
  NoDup (map key l) ->
  In r l ->
  (forall x, q x = true <-> key x = key r) ->
  In (f r) (updateOne q f l)
  /\ (forall x, In x (updateOne q f l) -> x = f r \/ (In x l /\ key x <> key r)).
Proof.
  intros N I Q. induction l as [|c t IH]; [easy|].
  inversion N as [|? ? Nc Nt]; subst. cbn.
  destruct (q c) eqn:Qc.
  - apply Q in Qc.
    assert (c = r) as ->.
    { apply (NoDup_map_inj key (c :: t)); cbn; auto. }
    split; [now left|]. intros x [<-|J]; [now left|]. right. split; [now right|].
    intros E. apply Nc. rewrite <- E. now apply in_map.
  - destruct I as [->|I]; [rewrite (proj2 (Q r) eq_refl) in Qc; discriminate|].
    destruct (IH Nt I) as [Ir Others]. split; [now right|].
    intros x [<-|J].
    + right. split; [now left|]. intros E. apply Q in E. congruence.
    + destruct (Others x J) as [->|[K D]]; [now left|]. right. split; [now right|easy].
Qed.

Section ResetPassword.
Context `{Platform}.

Lemma checkPasswordBreach_frame (env : Env.t) (password : string) (w : World.t) :
  exists r lines,
    checkPasswordBreach env password w
    = (Ok r, World.with_winston (fun l => l ++ lines)%list w).
Proof.
  unfold checkPasswordBreach.
  destruct (Env.fetchOutcome env) as [|ok status data].
  - eexists. exists [LogLine.mk "error" "Error checking password breach"]. reflexivity.
  - destruct ok; cbn [negb].
    + destruct (scanLines _ _) as [[count|]|].
      * eexists. exists [LogLine.mk "warn" "Password found in breach database"]. reflexivity.
      * eexists. exists [LogLine.mk "error" "Error checking password breach"]. reflexivity.
      * eexists. exists []. unfold ret, World.with_winston. rewrite app_nil_r.
        now destruct w.
    + eexists. exists [LogLine.mk "error" "HaveIBeenPwned API error"]. reflexivity.
Qed.

Lemma validatePasswordNotBreached_frame (env : Env.t) (password : string)
    (threshold : Z) (w : World.t) :
  exists v lines,
    validatePasswordNotBreached env password threshold w
    = (Ok v, World.with_winston (fun l => l ++ lines)%list w).
Proof.
  unfold validatePasswordNotBreached.
  destruct (checkPasswordBreach_frame env password w) as (r & lines & E).
  unfold bind. rewrite E.
  destruct (Js.truthyOpt _); [eexists; exists lines; reflexivity|].
  destruct (BreachResult.count r) as [count|]; [|eexists; exists lines; reflexivity].
  destruct (_ && _); eexists; exists lines; reflexivity.
Qed.

(** What one reset request does to the store, by outcome. *)
Lemma resetPassword_outcome (env : Env.t) (req : Request.t) (w : World.t) :
  let resp := fst (route (resetPasswordHandler env req) w) in
  let w' := snd (route (resetPasswordHandler env req) w) in
  (Response.status resp = 400%nat
   /\ World.users w' = World.users w
   /\ World.passwordResetTokens w' = World.passwordResetTokens w)
  \/ (resp = Response.mk 200 (MessageJson "Password has been reset successfully")
      /\ exists token r,
           field "token" (Request.body req) = Js.Str token
           /\ token <> ""
           /\ findOne (fun d => (PasswordResetTokenDoc.token d =? token)%string
                                && negb (PasswordResetTokenDoc.used d))
                      (World.passwordResetTokens w) = Some r
           /\ World.passwordResetTokens w'
              = updateOne (fun d => (PasswordResetTokenDoc._id d
                                     =? PasswordResetTokenDoc._id r)%nat)
                          setUsed (World.passwordResetTokens w)).
Proof.
  cbn zeta. destruct (route (resetPasswordHandler env req) w) as [resp w'] eqn:Run.
  cbn [fst snd]. unfold route, resetPasswordHandler in Run.
  destruct (field "token" (Request.body req)) as [| | | |token|];
    try solve [injection Run as <- <-; left; repeat split].
  destruct (Js.nonEmpty token) eqn:NT; cbn [negb] in Run;
    [|solve [injection Run as <- <-; left; repeat split]].
  destruct (field "password" (Request.body req)) as [| | | |password|];
    try solve [injection Run as <- <-; left; repeat split].
  destruct (Js.nonEmpty password); cbn [negb andb] in Run;
    [|solve [injection Run as <- <-; left; repeat split]].
  destruct (fst (validatePasswordStrength password)); cbn [negb andb] in Run;
    [|solve [injection Run as <- <-; left; repeat split]].
  destruct (validatePasswordNotBreached_frame env password 1 w) as (v & lines & E).
  unfold bind at 1 in Run. rewrite E in Run.
  destruct (BreachValidation.valid v); cbn [negb] in Run;
    [|solve [injection Run as <- <-; left; repeat split]].
  unfold bind at 1 in Run. unfold findPasswordResetToken at 1, gets at 1 in Run.
  cbn [World.passwordResetTokens World.with_winston] in Run.
  destruct (findOne _ (World.passwordResetTokens w)) as [r|] eqn:F.
  - destruct (PasswordResetTokenDoc.expiresAt r <? Env.now env).
    + left. unfold bind, trackPasswordReset in Run. rewrite logSecurityEvent_run in Run.
      injection Run as <- <-. repeat split.
    + right. unfold bind at 1 in Run. unfold findUserById at 1, gets at 1 in Run.
      unfold bind at 1 in Run. unfold updatePassword, updateUser, modify in Run.
      unfold bind at 1 in Run. unfold markTokenAsUsed, modify in Run.
      unfold bind at 1 in Run. unfold trackPasswordReset in Run.
      rewrite logSecurityEvent_run in Run. injection Run as <- <-.
      split; [reflexivity|]. exists token, r.
      split; [reflexivity|]. split; [|split; [exact F|reflexivity]].
      intros ->. discriminate NT.
  - left. unfold bind, trackPasswordReset in Run. rewrite logSecurityEvent_run in Run.
    injection Run as <- <-. repeat split.
Qed.

(** A request whose token matches no unused record is answered
    "invalid token" as soon as it gets past the password checks. *)
Lemma resetPassword_unknown_token (env : Env.t) (req : Request.t) (w : World.t)
    (token : string) :
  field "token" (Request.body req) = Js.Str token ->
  token <> "" ->
  passesPasswordChecks env req w = true ->
  findOne (fun d => (PasswordResetTokenDoc.token d =? token)%string
                    && negb (PasswordResetTokenDoc.used d))
          (World.passwordResetTokens w) = None ->
  fst (route (resetPasswordHandler env req) w)
  = Response.mk 400 (ErrorJson "Invalid or expired reset token").
Proof.
  intros T NE P F. unfold route, resetPasswordHandler, passesPasswordChecks in *.
  rewrite T. apply String.eqb_neq in NE. unfold Js.nonEmpty at 1. rewrite NE. cbn [negb].
  destruct (field "password" (Request.body req)) as [| | | |password|]; try discriminate.
  destruct (Js.nonEmpty password); [|discriminate].
  destruct (fst (validatePasswordStrength password)); [|discriminate]. cbn [negb andb] in *.
  destruct (validatePasswordNotBreached_frame env password 1 w) as (v & lines & E).
  unfold bind at 1. rewrite E in *.
  destruct (BreachValidation.valid v); [|discriminate]. cbn [negb].
  unfold bind at 1. unfold findPasswordResetToken at 1, gets at 1.
  cbn [World.passwordResetTokens World.with_winston]. rewrite F.
  unfold bind, trackPasswordReset. rewrite logSecurityEvent_run. reflexivity.
Qed.

End ResetPassword.

Lemma findOne_none {A} (p : A -> bool) (l : list A) :
  (forall x, In x l -> p x = false) -> findOne p l = None.
Proof.
  unfold findOne. induction l as [|c r IH]; cbn; intros N; [reflexivity|].
  rewrite (N c (or_introl eq_refl)). apply IH. intros; apply N; now right.
Qed.

(** C5. Password reset tokens are single-use.  In a store whose reset
    tokens have distinct ids and distinct token values, a reset request
    answered with success consumed the unused record [r] carrying its
    token, and that record is stored with [used = true] afterwards;
    [findPasswordResetToken] never returns a record whose [used] flag is
    set; hence every later request with the same token string, whatever
    its time (so also before the expiry) and new password, is refused
    without touching any account, and as soon as it gets past the rate
    limiter and the password checks the refusal is the invalid-token
    error. *)
Theorem reset_token_single_use `{Platform}
    (env1 : Env.t) (req1 : Request.t) (w : World.t) :
  NoDup (map PasswordResetTokenDoc._id (World.passwordResetTokens w)) ->
  NoDup (map PasswordResetTokenDoc.token (World.passwordResetTokens w)) ->
  Response.status (fst (POST_auth_reset_password env1 req1 w)) = 200%nat ->
  let w1 := snd (POST_auth_reset_password env1 req1 w) in
  (exists token r,
     field "token" (Request.body req1) = Js.Str token
     /\ findPasswordResetToken token w = (Ok (Some r), w)
     /\ In (setUsed r) (World.passwordResetTokens w1)
     /\ forall env2 req2,
          field "token" (Request.body req2) = Js.Str token ->
          let second := POST_auth_reset_password env2 req2 w1 in
          Response.status (fst second) <> 200%nat
          /\ World.users (snd second) = World.users w1
          /\ (Env.apiLimiterAllows env2 = true ->
              passesPasswordChecks env2 req2 w1 = true ->
              fst second = Response.mk 400 (ErrorJson "Invalid or expired reset token")))
  /\ (forall token w0 w0' d,
        findPasswordResetToken token w0 = (Ok (Some d), w0') ->
        PasswordResetTokenDoc.used d = false).
Proof.
  intros Nid Ntok Success. cbn zeta. split.
  2:{ intros token w0 w0' d F. unfold findPasswordResetToken, gets in F.
      injection F as F _. apply find_some in F as [_ F].
      apply andb_prop in F as [_ F]. now apply Bool.negb_true_iff in F. }
  unfold POST_auth_reset_password, apiLimiter, rateLimit in Success |- *.
  destruct (Env.apiLimiterAllows env1); [|discriminate].
  destruct (resetPassword_outcome env1 req1 w) as [(S400 & _)|(_ & token & r & T & NE & F & W1)];
    [cbn zeta in S400; rewrite S400 in Success; discriminate|].
  cbn zeta in W1. exists token, r. split; [exact T|].
  split; [unfold findPasswordResetToken, gets; now rewrite F|].
  pose proof F as F'. apply find_some in F' as [Ir Pr].
  apply andb_prop in Pr as [Tr _]. apply String.eqb_eq in Tr.
  destruct (updateOne_by_key PasswordResetTokenDoc._id
              (fun d => (PasswordResetTokenDoc._id d =? PasswordResetTokenDoc._id r)%nat)
              setUsed _ r Nid Ir (fun x => Nat.eqb_eq _ _)) as [Iu Others].
  rewrite <- W1 in Iu, Others. split; [exact Iu|].
  assert (Gone : findOne (fun d => (PasswordResetTokenDoc.token d =? token)%string
                                   && negb (PasswordResetTokenDoc.used d))
                         (World.passwordResetTokens
                            (snd (route (resetPasswordHandler env1 req1) w))) = None).
  { apply findOne_none. intros x Ix. destruct (Others x Ix) as [->|[Jx Dx]].
    - cbn. apply Bool.andb_false_r.
    - destruct (PasswordResetTokenDoc.token x =? token)%string eqn:Tx; [|reflexivity].
      apply String.eqb_eq in Tx. exfalso. apply Dx. f_equal.
      apply (NoDup_map_inj PasswordResetTokenDoc.token _ x r Ntok Jx Ir). congruence. }
  intros env2 req2 T2. cbn zeta.
  set (w1 := snd (route (resetPasswordHandler env1 req1) w)) in *.
  destruct (Env.apiLimiterAllows env2).
  - destruct (resetPassword_outcome env2 req2 w1)
      as [(S400 & U & _)|(_ & token' & r' & T' & _ & F2 & _)]; cbn zeta in *.
    + split; [rewrite S400; discriminate|]. split; [exact U|].
      intros _ P. now apply (resetPassword_unknown_token env2 req2 w1 token).
    + exfalso. rewrite T2 in T'. injection T' as <-. rewrite Gone in F2. discriminate.
  - cbn. split; [discriminate|]. split; [reflexivity|]. intros D. discriminate D.
Qed.

(** The demo reset token is consumed one minute after it was issued and
    presented again a minute later, well before its expiry. *)
Lemma reset_token_single_use_witness :
  let w1 := snd (@POST_auth_reset_password demoPlatform (envAt (minutes 1))
                   (resetRequest "R" "N3w!Passw0rd") worldWithReset) in
  map PasswordResetTokenDoc.used (World.passwordResetTokens w1) = [true]
  /\ fst (@POST_auth_reset_password demoPlatform (envAt (minutes 2))
            (resetRequest "R" "An0ther!Pass") w1)
     = Response.mk 400 (ErrorJson "Invalid or expired reset token").
Proof.
  assert (Nid : NoDup (map PasswordResetTokenDoc._id
                         (World.passwordResetTokens worldWithReset))).
  { cbn. constructor; [intros []|constructor]. }
  assert (Ntok : NoDup (map PasswordResetTokenDoc.token
                          (World.passwordResetTokens worldWithReset))).
  { cbn. constructor; [intros []|constructor]. }
  destruct (@reset_token_single_use demoPlatform (envAt (minutes 1))
              (resetRequest "R" "N3w!Passw0rd") worldWithReset Nid Ntok
              ltac:(vm_compute; reflexivity))
    as [(token & r & T & _ & _ & Second) _].
  injection T as <-. cbn zeta. split; [vm_compute; reflexivity|].
  apply (Second (envAt (minutes 2)) (resetRequest "R" "An0ther!Pass") eq_refl).
  - reflexivity.
  - vm_compute. reflexivity.
Defined.

(** * More of the code

    ** States before and after a handler *)

Section Evolution.
Variable R : World.t -> World.t -> Prop.
Hypothesis R_refl : forall w, R w w.
Hypothesis R_trans : forall a b c, R a b -> R b c -> R a c.

Lemma evolves_ret {A} (a : A) : evolves R (ret a).
Proof. intros w. apply R_refl. Qed.

Lemma evolves_throw {A} (e : HttpError.t) : evolves R (@throw A e).
Proof. intros w. apply R_refl. Qed.

Lemma evolves_gets {A} (f : World.t -> A) : evolves R (gets f).
Proof. intros w. apply R_refl. Qed.

Lemma evolves_bind {A B} (m : M A) (k : A -> M B) :
  evolves R m -> (forall a, evolves R (k a)) -> evolves R (bind m k).
Proof.
  intros Hm Hk w. unfold bind. specialize (Hm w).
  destruct (m w) as [[a|e] w1]; cbn in *; [|assumption].
  eapply R_trans; [eassumption|apply Hk].
Qed.

Lemma evolves_modify (f : World.t -> World.t) :
  (forall w, R w (f w)) -> evolves R (modify f).
Proof. intros Hf w. apply Hf. Qed.

Lemma evolves_route (handler : M Response.t) (w : World.t) :
  evolves R handler -> R w (snd (route handler w)).
Proof.
  intros Hh. unfold route. specialize (Hh w). now destruct (handler w) as [[r|e] w'].
Qed.

Lemma evolves_routeData {A} (handler : M A) (w : World.t) :
  evolves R handler -> R w (snd (routeData handler w)).
Proof.
  intros Hh. unfold routeData. specialize (Hh w). now destruct (handler w) as [[r|e] w'].
Qed.

Lemma evolves_rateLimit (allows : bool) (msg : string)
    (next : World.t -> Response.t * World.t) (w : World.t) :
  R w (snd (next w)) -> R w (snd (rateLimit allows msg next w)).
Proof. unfold rateLimit. destruct allows; [easy|intros _; apply R_refl]. Qed.

Lemma evolves_rateLimitData {A} (allows : bool) (msg : string)
    (next : World.t -> Reply A * World.t) (w : World.t) :
  R w (snd (next w)) -> R w (snd (rateLimitData allows msg next w)).
Proof. unfold rateLimitData. destruct allows; [easy|intros _; apply R_refl]. Qed.

End Evolution.

Create HintDb steps discriminated.

(** Break a handler into its store operations; each operation is
    closed with what the hint database [steps] knows about it. *)
Ltac handler_steps refl trans :=
  repeat first
    [ apply (evolves_ret _ refl)
    | apply (evolves_throw _ refl)
    | apply (evolves_gets _ refl)
    | solve [auto with steps]
    | apply (evolves_bind _ trans); [|intros ?]
    | match goal with
      | |- context [if ?b then @None _ else None] => destruct b
      | |- evolves _ (match ?x with _ => _ end) => destruct x
      | |- evolves _ (let _ := _ in _) => cbv zeta
      end ].

Section Related.
Context `{Platform}.
Variable env : Env.t.
Variable R : World.t -> World.t -> Prop.
Hypothesis R_refl : forall w, R w w.
Hypothesis R_trans : forall a b c, R a b -> R b c -> R a c.

Hypothesis on_event : forall e s d, evolves R (logSecurityEvent env e s d).
Hypothesis on_log : forall f, evolves R (modify (World.with_winston f)).
Hypothesis on_issue :
  forall input,
    CreateRefreshTokenInput.token input = Env.randomToken env 64 ->
    evolves R (createRefreshToken env input).
Hypothesis on_revoke : forall token, evolves R (revokeRefreshToken env token).
Hypothesis on_rotate_issue :
  forall input,
    CreateRefreshTokenInput.token input = Env.randomToken env 64 ->
    evolves R (createRefreshToken (Env.again env) input).
Hypothesis on_rotate_revoke :
  forall token, evolves R (revokeRefreshToken (Env.again env) token).
Hypothesis on_revokeAll : forall userId, evolves R (revokeAllUserRefreshTokens env userId).
Hypothesis on_lastLogin : forall userId, evolves R (updateLastLogin env userId).
Hypothesis on_password : forall userId hash, evolves R (updatePassword env userId hash).
Hypothesis on_resetToken :
  forall userId token expiresAt,
    evolves R (createPasswordResetToken env userId token expiresAt).
Hypothesis on_used : forall tokenId, evolves R (markTokenAsUsed tokenId).
Hypothesis on_mail :
  forall email fullName token, evolves R (sendPasswordResetEmail env email fullName token).
Hypothesis on_resolved : forall logId, evolves R (markAsResolved logId).

Hint Resolve on_event on_log on_issue on_revoke on_rotate_issue on_rotate_revoke
  on_revokeAll on_lastLogin on_password on_resetToken on_used on_mail on_resolved : steps.

Lemma trackFailedLogin_related (email : string) (req : Request.t) (reason : string) :
  evolves R (trackFailedLogin env email req reason None).
Proof.
  unfold trackFailedLogin, getFailedLoginAttempts, getFailedLoginAttemptsByIP.
  handler_steps R_refl R_trans.
Qed.

Hint Resolve trackFailedLogin_related : steps.

Lemma checkPasswordBreach_related (password : string) :
  evolves R (checkPasswordBreach env password).
Proof.
  unfold checkPasswordBreach, logError, logWarning. handler_steps R_refl R_trans.
Qed.

Lemma validatePasswordNotBreached_related (password : string) (threshold : Z) :
  evolves R (validatePasswordNotBreached env password threshold).
Proof.
  unfold validatePasswordNotBreached. pose proof checkPasswordBreach_related.
  handler_steps R_refl R_trans.
Qed.

Lemma trackPasswordResetRequest_related (email : string) (req : Request.t) (exists_ : bool) :
  evolves R (trackPasswordResetRequest env email req exists_).
Proof.
  unfold trackPasswordResetRequest, getPasswordResetRequestsByEmail,
    getPasswordResetRequestsByIP.
  handler_steps R_refl R_trans.
Qed.

Lemma rotateRefreshToken_related (oldToken : string) (input : CreateRefreshTokenInput.t) :
  CreateRefreshTokenInput.token input = Env.randomToken env 64 ->
  evolves R (rotateRefreshToken (Env.again env) oldToken input).
Proof.
  intros Fresh. unfold rotateRefreshToken, findValidRefreshToken.
  handler_steps R_refl R_trans.
Qed.

Hint Resolve validatePasswordNotBreached_related trackPasswordResetRequest_related
  rotateRefreshToken_related : steps.

Lemma login_related (req : Request.t) (w : World.t) :
  R w (snd (POST_auth_login env req w)).
Proof.
  unfold POST_auth_login, apiLimiter, authLimiter.
  do 2 apply (evolves_rateLimit _ R_refl). apply evolves_route.
  unfold loginHandler, findUserByEmail, trackSuspiciousActivity, trackSuccessfulLogin.
  handler_steps R_refl R_trans.
Qed.

Lemma forgot_password_related (req : Request.t) (w : World.t) :
  R w (snd (POST_auth_forgot_password env req w)).
Proof.
  unfold POST_auth_forgot_password, apiLimiter, passwordResetLimiter.
  do 2 apply (evolves_rateLimit _ R_refl). apply evolves_route.
  unfold forgotPasswordHandler, findUserByEmail, createPasswordResetTokenData.
  handler_steps R_refl R_trans.
Qed.

Lemma reset_password_related (req : Request.t) (w : World.t) :
  R w (snd (POST_auth_reset_password env req w)).
Proof.
  unfold POST_auth_reset_password, apiLimiter.
  apply (evolves_rateLimit _ R_refl). apply evolves_route.
  unfold resetPasswordHandler, findPasswordResetToken, findUserById, trackPasswordReset.
  handler_steps R_refl R_trans.
Qed.

Lemma validate_related (req : Request.t) (w : World.t) :
  R w (snd (GET_auth_validate env req w)).
Proof.
  unfold GET_auth_validate, apiLimiter.
  apply (evolves_rateLimit _ R_refl). apply evolves_route.
  unfold validateHandler, findUserById, trackSuspiciousActivity,
    trackTokenValidationFailure.
  handler_steps R_refl R_trans.
Qed.

Lemma me_related (req : Request.t) (w : World.t) :
  R w (snd (GET_auth_me env req w)).
Proof.
  unfold GET_auth_me, apiLimiter.
  apply (evolves_rateLimit _ R_refl). apply evolves_route.
  unfold meHandler, findUserById, trackSuspiciousActivity.
  handler_steps R_refl R_trans.
Qed.

Lemma logout_related (req : Request.t) (w : World.t) :
  R w (snd (POST_auth_logout env req w)).
Proof.
  unfold POST_auth_logout, apiLimiter.
  apply (evolves_rateLimit _ R_refl). apply evolves_route.
  unfold logoutHandler. handler_steps R_refl R_trans.
Qed.

Lemma refresh_related (req : Request.t) (w : World.t) :
  R w (snd (POST_auth_refresh env req w)).
Proof.
  unfold POST_auth_refresh.
  do 2 apply (evolves_rateLimitData _ R_refl). apply evolves_routeData.
  unfold refreshHandler, findValidRefreshToken, findUserById, trackSuspiciousActivity.
  handler_steps R_refl R_trans.
Qed.

Lemma logout_all_related (req : Request.t) (w : World.t) :
  R w (snd (POST_auth_logout_all env req w)).
Proof.
  unfold POST_auth_logout_all, apiLimiter.
  apply (evolves_rateLimit _ R_refl). apply evolves_route.
  unfold logoutAllHandler. handler_steps R_refl R_trans.
Qed.

Lemma change_password_related (req : Request.t) (w : World.t) :
  R w (snd (POST_profile_change_password env req w)).
Proof.
  unfold POST_profile_change_password, apiLimiter.
  apply (evolves_rateLimit _ R_refl). apply evolves_route.
  unfold requireAuth, changePasswordHandler, findUserById, trackSuspiciousActivity.
  handler_steps R_refl R_trans.
Qed.

Lemma resolve_related (req : Request.t) (logId : option ObjectId) (w : World.t) :
  R w (snd (POST_security_resolve env req logId w)).
Proof.
  unfold POST_security_resolve, apiLimiter.
  apply (evolves_rateLimit _ R_refl). apply evolves_route.
  unfold requireAdmin, resolveHandler, trackSuspiciousActivity.
  handler_steps R_refl R_trans.
Qed.

End Related.

(** Pick the lemma of the route a call goes to. *)
Ltac by_route :=
  cbn [perform];
  first [ apply login_related | apply forgot_password_related
        | apply reset_password_related | apply validate_related | apply me_related
        | apply logout_related | apply refresh_related | apply logout_all_related
        | apply change_password_related | apply resolve_related ].

(** ** Accounts keep their standing *)

Lemma sameStanding_refl (w : World.t) : sameStanding w w.
Proof. reflexivity. Qed.

Lemma sameStanding_trans (a b c : World.t) :
  sameStanding a b -> sameStanding b c -> sameStanding a c.
Proof. unfold sameStanding. congruence. Qed.

Lemma sameStanding_updateUser (userId : ObjectId) (upd : UserDoc.t -> UserDoc.t) :
  (forall u, standing (upd u) = standing u) ->
  evolves sameStanding (updateUser userId upd).
Proof.
  intros S w. unfold sameStanding, updateUser, modify. cbn.
  now apply updateOne_map.
Qed.

Lemma sameStanding_elsewhere {A} (m : M A) :
  (forall w, World.users (snd (m w)) = World.users w) -> evolves sameStanding m.
Proof. intros U w. unfold sameStanding. now rewrite U. Qed.

(** No request to any of the modelled routes changes the id, email,
    role, verification flag or lock state of any account. *)
Theorem requests_keep_account_standing `{Platform} (calls : list (Env.t * Call))
    (w : World.t) :
  map standing (World.users (performAll calls w)) = map standing (World.users w).
Proof.
  revert w. induction calls as [|[env call] rest IH]; intros w; [reflexivity|].
  cbn [performAll fold_left fst snd]. fold (performAll rest (perform env call w)).
  rewrite IH. change (sameStanding w (perform env call w)).
  assert (Ev : forall e s d, evolves sameStanding (logSecurityEvent env e s d))
    by (intros; apply sameStanding_elsewhere; intros; now rewrite logSecurityEvent_run).
  destruct call; by_route;
    try apply sameStanding_refl; try apply sameStanding_trans; try exact Ev;
    intros;
    try (apply sameStanding_updateUser; reflexivity);
    try (apply sameStanding_elsewhere; intros; reflexivity).
  all: try (unfold sendPasswordResetEmail; destruct (Env.sendMailOk env);
            apply sameStanding_elsewhere; intros; reflexivity).
Qed.

(** ** The audit log is append-only *)

Lemma auditAppended_refl (now : Date) (w : World.t) : auditAppended now w w.
Proof. exists []. split; [now rewrite app_nil_r|constructor]. Qed.

Lemma auditAppended_trans (now : Date) (a b c : World.t) :
  auditAppended now a b -> auditAppended now b c -> auditAppended now a c.
Proof.
  intros (l1 & E1 & F1) (l2 & E2 & F2). exists (l1 ++ l2)%list. split.
  - now rewrite E2, E1, app_assoc.
  - apply Forall_app. now split.
Qed.

Lemma auditAppended_elsewhere {A} (now : Date) (m : M A) :
  (forall w, World.auditLogs (snd (m w)) = World.auditLogs w) ->
  evolves (auditAppended now) m.
Proof.
  intros U w. exists []. split; [now rewrite U, app_nil_r|constructor].
Qed.

Lemma auditAppended_event (env : Env.t) (e : SecurityEventType) (s : SeverityLevel)
    (d : EventDetails.t) :
  evolves (auditAppended (Env.now env)) (logSecurityEvent env e s d).
Proof.
  intros w. rewrite logSecurityEvent_run. cbn [snd].
  exists [auditEntry env e s d w]. split; [reflexivity|].
  constructor; [split; reflexivity|constructor].
Qed.

(** Serving a request to any route but the administrators' resolve
    route leaves every earlier audit entry as it was and in place; what
    it adds comes after them, stamped with the time of the request and
    unresolved. *)
Theorem audit_log_is_append_only `{Platform} (env : Env.t) (call : Call) (w : World.t) :
  (forall req logId, call <> Resolve req logId) ->
  exists added,
    World.auditLogs (perform env call w) = (World.auditLogs w ++ added)%list
    /\ Forall (fun d => AuditLogDoc.timestamp d = Env.now env
                        /\ AuditLogDoc.resolved d = false) added.
Proof.
  intros NotAdmin. change (auditAppended (Env.now env) w (perform env call w)).
  destruct call; try (exfalso; eapply NotAdmin; reflexivity); by_route;
    try apply auditAppended_refl; try apply auditAppended_trans;
    try apply auditAppended_event; intros;
    try (apply auditAppended_elsewhere; intros; reflexivity).
  all: unfold sendPasswordResetEmail; destruct (Env.sendMailOk env);
    apply auditAppended_elsewhere; intros; reflexivity.
Qed.

(** A failed login five minutes into the demo world. *)
Lemma audit_log_is_append_only_witness :
  exists added,
    World.auditLogs
      (@perform demoPlatform (envAt (minutes 5))
         (Login (loginRequest "203.0.113.7" "alice@example.com" "guess")) world0)
    = (World.auditLogs world0 ++ added)%list
    /\ Forall (fun d => AuditLogDoc.timestamp d = minutes 5
                        /\ AuditLogDoc.resolved d = false) added.
Proof.
  apply (@audit_log_is_append_only demoPlatform (envAt (minutes 5))
           (Login (loginRequest "203.0.113.7" "alice@example.com" "guess")) world0).
  intros req logId E. discriminate E.
Defined.

(** ** Refresh tokens are never removed or revived *)

Lemma laterVersion_refl (d : RefreshTokenDoc.t) : laterVersion d d.
Proof. now split. Qed.

Lemma laterVersion_trans (a b c : RefreshTokenDoc.t) :
  laterVersion a b -> laterVersion b c -> laterVersion a c.
Proof. intros [I1 R1] [I2 R2]. split; [congruence|auto]. Qed.

Lemma laterVersion_setRevoked (t : Date) (d : RefreshTokenDoc.t) :
  laterVersion d (setRevoked t d).
Proof. now split. Qed.

Lemma Forall2_same {A} (P : A -> A -> Prop) (l : list A) :
  (forall a, P a a) -> Forall2 P l l.
Proof. intros Rf. induction l; constructor; auto. Qed.

Lemma Forall2_chain {A} (P : A -> A -> Prop) (l1 l2 l3 : list A) :
  (forall a b c, P a b -> P b c -> P a c) ->
  Forall2 P l1 l2 -> Forall2 P l2 l3 -> Forall2 P l1 l3.
Proof.
  intros Tr F1. revert l3. induction F1; intros l3 F2; inversion F2; subst;
    constructor; eauto.
Qed.

Lemma tokensGrown_refl (issued : list string) (col : list RefreshTokenDoc.t) :
  tokensGrown issued col col.
Proof.
  exists col, []. split; [now rewrite app_nil_r|]. split; [|constructor].
  apply Forall2_same, laterVersion_refl.
Qed.

Lemma tokensGrown_trans (issued : list string) (a b c : list RefreshTokenDoc.t) :
  tokensGrown issued a b -> tokensGrown issued b c -> tokensGrown issued a c.
Proof.
  intros (k1 & a1 & -> & F1 & I1) (k2 & a2 & -> & F2 & I2).
  apply Forall2_app_inv_l in F2 as (k2a & k2b & Fa & Fb & ->).
  exists k2a, (k2b ++ a2)%list. split; [now rewrite app_assoc|]. split.
  - eapply Forall2_chain; [apply laterVersion_trans|exact F1|exact Fa].
  - apply Forall_app. split; [|exact I2].
    clear -Fb I1. induction Fb as [|x y l l' [Id _] Fb IH]; [constructor|].
    inversion I1; subst. constructor; [|auto].
    unfold tokenIdentity in Id. injection Id as _ _ -> _ _ _ _. assumption.
Qed.

Lemma tokensGrown_more (issued issued' : list string) (a b : list RefreshTokenDoc.t) :
  incl issued issued' -> tokensGrown issued a b -> tokensGrown issued' a b.
Proof.
  intros Sub (k & ad & -> & F & I). exists k, ad. split; [reflexivity|]. split; [exact F|].
  eapply Forall_impl; [|exact I]. intros d. apply Sub.
Qed.

Lemma updateOne_laterVersion (q : RefreshTokenDoc.t -> bool) (t : Date)
    (col : list RefreshTokenDoc.t) :
  Forall2 laterVersion col (updateOne q (setRevoked t) col).
Proof.
  induction col as [|d r IH]; cbn; [constructor|].
  destruct (q d); constructor; auto using laterVersion_refl, laterVersion_setRevoked.
  apply Forall2_same, laterVersion_refl.
Qed.

Lemma updateMany_laterVersion (q : RefreshTokenDoc.t -> bool) (t : Date)
    (col : list RefreshTokenDoc.t) :
  Forall2 laterVersion col (updateMany q (setRevoked t) col).
Proof.
  unfold updateMany. induction col as [|d r IH]; cbn; constructor; auto.
  destruct (q d); auto using laterVersion_refl, laterVersion_setRevoked.
Qed.

Section TokensGrown.
Context `{Platform}.
Variable env : Env.t.

Lemma grown_elsewhere {A} (m : M A) :
  (forall w, World.refreshTokens (snd (m w)) = World.refreshTokens w) -> evolves (grownBy env) m.
Proof. intros U w. unfold grownBy. rewrite U. apply tokensGrown_refl. Qed.

Lemma grown_rewritten (f : list RefreshTokenDoc.t -> list RefreshTokenDoc.t) :
  (forall col, Forall2 laterVersion col (f col)) ->
  evolves (grownBy env) (modify (World.with_refreshTokens f)).
Proof.
  intros F w. exists (f (World.refreshTokens w)), []. cbn.
  split; [now rewrite app_nil_r|]. split; [apply F|constructor].
Qed.

Lemma grown_issue (at_ : Env.t) (input : CreateRefreshTokenInput.t) :
  CreateRefreshTokenInput.token input = Env.randomToken env 64 ->
  evolves (grownBy env) (createRefreshToken at_ input).
Proof.
  intros Fresh w. eexists. eexists. cbn. split; [reflexivity|]. split.
  - apply Forall2_same, laterVersion_refl.
  - constructor; [|constructor]. cbn. now left.
Qed.

Lemma perform_grows_tokens (call : Call) (w : World.t) :
  tokensGrown [Env.randomToken env 64]
    (World.refreshTokens w) (World.refreshTokens (perform env call w)).
Proof.
  change ((grownBy env) w (perform env call w)).
  assert (Rf : forall w, (grownBy env) w w) by (intros; apply tokensGrown_refl).
  assert (Tr : forall a b c, (grownBy env) a b -> (grownBy env) b c -> (grownBy env) a c)
    by (intros a b c; apply tokensGrown_trans).
  assert (Ev : forall e s d, evolves (grownBy env) (logSecurityEvent env e s d))
    by (intros; apply grown_elsewhere; intros; now rewrite logSecurityEvent_run).
  destruct call; by_route; try exact Rf; try exact Tr; try exact Ev; intros;
    try (apply grown_issue; assumption);
    try (apply grown_elsewhere; intros; reflexivity);
    try (apply grown_rewritten; intros;
         first [apply updateOne_laterVersion | apply updateMany_laterVersion]).
  all: unfold sendPasswordResetEmail; destruct (Env.sendMailOk env);
    apply grown_elsewhere; intros; reflexivity.
Qed.

End TokensGrown.

Lemma performAll_grows_tokens `{Platform} (calls : list (Env.t * Call)) (w : World.t) :
  tokensGrown (issuedTokens calls)
    (World.refreshTokens w) (World.refreshTokens (performAll calls w)).
Proof.
  revert w. induction calls as [|[env call] rest IH]; intros w.
  - apply tokensGrown_refl.
  - cbn [performAll fold_left fst snd]. fold (performAll rest (perform env call w)).
    eapply tokensGrown_trans.
    + eapply tokensGrown_more; [|apply perform_grows_tokens].
      intros t [<-|[]]. now left.
    + eapply tokensGrown_more; [|apply IH]. intros t I. now right.
Qed.

Lemma allRevoked_find (token : string) (col : list RefreshTokenDoc.t) (now : Date) :
  allRevoked token col -> findOne (isValidRefreshToken now token) col = None.
Proof.
  intros Dead. apply findOne_none. intros d I. unfold isValidRefreshToken.
  destruct (RefreshTokenDoc.token d =? token)%string eqn:T; [|reflexivity].
  apply String.eqb_eq in T. now rewrite (Dead d I T).
Qed.

(** Revocation is permanent.  If every record carrying a token value is
    revoked (after a logout, a rotation or a logout-all), then after any
    sequence of requests to the modelled routes during which the random
    generator does not issue that value again, every record carrying it
    is still revoked, so no clock makes it valid and a refresh request
    presenting it is refused. *)
Theorem revoked_tokens_stay_revoked `{Platform}
    (calls : list (Env.t * Call)) (w : World.t) (token : string) :
  allRevoked token (World.refreshTokens w) ->
  ~ In token (issuedTokens calls) ->
  let w' := performAll calls w in
  allRevoked token (World.refreshTokens w')
  /\ forall env req,
       field "refreshToken" (Request.body req) = Js.Str token ->
       findValidRefreshToken env token w' = (Ok None, w')
       /\ exists r, fst (POST_auth_refresh env req w') = Refused r.
Proof.
  intros Dead Fresh. cbn zeta.
  assert (Dead' : allRevoked token (World.refreshTokens (performAll calls w))).
  { destruct (performAll_grows_tokens calls w) as (kept & added & -> & F & I).
    intros d J T. apply in_app_or in J as [J|J].
    - clear -F J T Dead. revert Dead.
      induction F as [|x y l l' [Id Rv] F IH]; intros Dead; [easy|].
      destruct J as [<-|J].
      + apply Rv, Dead; [now left|].
        unfold tokenIdentity in Id. injection Id as _ _ E _ _ _ _. congruence.
      + apply IH; [assumption|]. intros d0 I0. apply Dead. now right.
    - exfalso. apply Fresh. rewrite <- T.
      now apply (proj1 (Forall_forall _ _) I). }
  split; [exact Dead'|]. intros env req Fld.
  assert (NotFound : findValidRefreshToken env token (performAll calls w)
                     = (Ok None, performAll calls w)).
  { unfold findValidRefreshToken, gets. now rewrite allRevoked_find. }
  split; [exact NotFound|].
  unfold POST_auth_refresh, rateLimitData.
  destruct (Env.apiLimiterAllows env); [|eexists; reflexivity].
  destruct (Env.routeLimiterAllows env); [|eexists; reflexivity].
  unfold routeData, refreshHandler. rewrite Fld.
  destruct (negb (Js.nonEmpty token)); [eexists; reflexivity|].
  unfold bind at 1. rewrite NotFound.
  unfold bind, trackSuspiciousActivity. rewrite logSecurityEvent_run.
  eexists; reflexivity.
Qed.

(** The demo session is revoked; then its owner logs in again and
    someone presents the revoked token. *)
Lemma revoked_tokens_stay_revoked_witness :
  let w := snd (revokeRefreshToken (envAt (minutes 1)) "T" worldWithSession) in
  let w' :=
    @performAll demoPlatform
      [(envAt (minutes 2),
        Login (loginRequest "203.0.113.7" "alice@example.com" "Str0ng!Pass9"));
       (envAt (minutes 3), Refresh (refreshRequest "T"))] w in
  allRevoked "T" (World.refreshTokens w')
  /\ forall env req,
       field "refreshToken" (Request.body req) = Js.Str "T" ->
       @findValidRefreshToken env "T" w' = (Ok None, w')
       /\ exists r, fst (@POST_auth_refresh demoPlatform env req w') = Refused r.
Proof.
  apply (@revoked_tokens_stay_revoked demoPlatform).
  - intros d [<-|[]] _. reflexivity.
  - vm_compute. intros [E|[E|[]]]; discriminate E.
Defined.

(** ** Splitting strings *)

Lemma split_nonempty (sep : ascii) (s : string) : Js.split sep s <> [].
Proof.
  induction s as [|c r IH]; cbn; [discriminate|].
  destruct (Ascii.eqb c sep); [discriminate|].
  destruct (Js.split sep r); [contradiction|discriminate].
Qed.

Lemma split_concat (sep : ascii) (s : string) :
  String.concat (String sep EmptyString) (Js.split sep s) = s.
Proof.
  induction s as [|c r IH]; [reflexivity|]. cbn [Js.split].
  pose proof (split_nonempty sep r) as NE.
  destruct (Ascii.eqb_spec c sep) as [->|D].
  - destruct (Js.split sep r) as [|h t]; [contradiction|].
    cbn [String.concat] in *. now rewrite IH.
  - destruct (Js.split sep r) as [|h t]; [contradiction|].
    destruct t as [|y t]; cbn [String.concat String.append] in *; now rewrite IH.
Qed.

Lemma split_pieces (sep : ascii) (s : string) :
  Forall (fun piece => hasChar sep piece = false) (Js.split sep s).
Proof.
  induction s as [|c r IH]; cbn [Js.split]; [repeat constructor|].
  destruct (Ascii.eqb_spec c sep) as [->|D].
  - constructor; [reflexivity|exact IH].
  - destruct (Js.split sep r) as [|h t]; inversion IH; subst.
    + repeat constructor. cbn. apply Ascii.eqb_neq in D.
      rewrite Ascii.eqb_sym. now rewrite D.
    + constructor; [|assumption]. cbn. apply Ascii.eqb_neq in D.
      rewrite Ascii.eqb_sym, D. assumption.
Qed.

Lemma split_no_separator (sep : ascii) (s : string) :
  hasChar sep s = false -> Js.split sep s = [s].
Proof.
  induction s as [|c r IH]; cbn; [reflexivity|]. intros N.
  apply Bool.orb_false_iff in N as [Nc Nr]. rewrite Ascii.eqb_sym, Nc.
  now rewrite (IH Nr).
Qed.

Lemma split_at_separator (sep : ascii) (a b : string) :
  hasChar sep a = false ->
  Js.split sep (a ++ String sep b) = a :: Js.split sep b.
Proof.
  induction a as [|c r IH]; cbn; intros N.
  - now rewrite Ascii.eqb_refl.
  - apply Bool.orb_false_iff in N as [Nc Nr]. rewrite Ascii.eqb_sym, Nc.
    now rewrite (IH Nr).
Qed.

(** ** lib/auth.ts: the Authorization header and the password rules *)

(** [extractTokenFromHeader] accepts exactly the headers made of the
    word "Bearer", one space and a token without spaces, and returns that
    token (the empty one for the header "Bearer " included); every other
    header, a missing one as well, gives null. *)
Theorem extractTokenFromHeader_bearer (header : option string) (token : string) :
  extractTokenFromHeader header = Some token
  <-> header = Some ("Bearer " ++ token) /\ hasChar " " token = false.
Proof.
  split.
  - destruct header as [h|]; [|discriminate]. unfold extractTokenFromHeader.
    destruct (Js.nonEmpty h); cbn [negb]; [|discriminate].
    pose proof (split_concat " " h) as C. pose proof (split_pieces " " h) as P.
    destruct (Js.split " " h) as [|scheme [|tok [|x rest]]]; try discriminate.
    destruct (scheme =? "Bearer")%string eqn:S; [|discriminate].
    intros E. injection E as <-. apply String.eqb_eq in S. subst scheme.
    cbn in C. split; [now rewrite <- C|].
    inversion P as [|? ? _ P']; subst. now inversion P'.
  - intros [-> N]. unfold extractTokenFromHeader. cbn [Js.nonEmpty String.eqb negb].
    change ("Bearer " ++ token) with ("Bearer" ++ String " " token).
    rewrite split_at_separator by reflexivity.
    now rewrite (split_no_separator _ _ N).
Qed.

(** [validatePasswordStrength] reports every rule a password breaks,
    not only the first: each of the five messages is listed exactly when
    its rule is broken, and the password is valid exactly when none
    is.  The length rule counts UTF-16 code units, as [password.length]
    does; the character classes are those of the four regular
    expressions. *)
Theorem validatePasswordStrength_reports_all (password : string) :
  let valid := fst (validatePasswordStrength password) in
  let errors := snd (validatePasswordStrength password) in
  (In "Password must be at least 8 characters long" errors
   <-> (Js.length password < 8)%nat)
  /\ (In "Password must contain at least one uppercase letter" errors
      <-> Js.existsb Js.isUpper password = false)
  /\ (In "Password must contain at least one lowercase letter" errors
      <-> Js.existsb Js.isLower password = false)
  /\ (In "Password must contain at least one number" errors
      <-> Js.existsb Js.isDigit password = false)
  /\ (In "Password must contain at least one special character" errors
      <-> Js.existsb (fun c => negb (isAlnum c)) password = false)
  /\ (valid = true <-> errors = [])
  /\ (valid = true
      <-> (8 <= Js.length password)%nat
          /\ Js.existsb Js.isUpper password = true
          /\ Js.existsb Js.isLower password = true
          /\ Js.existsb Js.isDigit password = true
          /\ Js.existsb (fun c => negb (isAlnum c)) password = true).
Proof.
  unfold validatePasswordStrength. cbn [fst snd].
  destruct (Nat.ltb_spec (Js.length password) 8);
    destruct (Js.existsb Js.isUpper password);
    destruct (Js.existsb Js.isLower password);
    destruct (Js.existsb Js.isDigit password);
    destruct (Js.existsb (fun c => negb (isAlnum c)) password);
    cbn [negb app length Nat.eqb In];
    repeat split; intros;
    repeat match goal with
           | H : _ \/ _ |- _ => destruct H
           | H : _ /\ _ |- _ => destruct H
           | H : False |- _ => destruct H
           end;
    try discriminate; try lia; try congruence; auto 10.
Qed.

(** ** Sorted, limited listings *)

Section Cursor.
Context {D : Type} (key : D -> Z).

Lemma insertDesc_perm (d : D) (l : list D) : Permutation (insertDesc key d l) (d :: l).
Proof.
  induction l as [|x r IH]; cbn; [reflexivity|].
  destruct (key x <=? key d); [reflexivity|].
  rewrite IH. apply perm_swap.
Qed.

Lemma sortDesc_perm (l : list D) : Permutation (sortDesc key l) l.
Proof.
  induction l as [|d r IH]; cbn; [reflexivity|].
  rewrite insertDesc_perm. now constructor.
Qed.

Lemma sortDesc_In (l : list D) (d : D) : In d (sortDesc key l) <-> In d l.
Proof.
  split; apply Permutation_in; [|symmetry]; apply sortDesc_perm.
Qed.

Lemma insertDesc_sorted (d : D) (l : list D) :
  StronglySorted (newerFirst key) l -> StronglySorted (newerFirst key) (insertDesc key d l).
Proof.
  induction l as [|x r IH]; cbn; intros S; [repeat constructor|].
  inversion S as [|? ? Sr Fx]; subst.
  destruct (Z.leb_spec (key x) (key d)).
  - constructor; [exact S|]. constructor; [assumption|].
    eapply Forall_impl; [|exact Fx]. unfold newerFirst. intros; lia.
  - constructor; [now apply IH|].
    eapply Permutation_Forall; [symmetry; apply insertDesc_perm|].
    constructor; [unfold newerFirst; lia|exact Fx].
Qed.

Lemma sortDesc_sorted (l : list D) : StronglySorted (newerFirst key) (sortDesc key l).
Proof.
  induction l as [|d r IH]; cbn; [constructor|]. now apply insertDesc_sorted.
Qed.

Lemma firstn_incl (n : nat) (l : list D) (d : D) : In d (firstn n l) -> In d l.
Proof.
  revert n. induction l as [|x r IH]; intros [|n]; cbn; try easy.
  intros [<-|I]; [now left|right; eauto].
Qed.

Lemma limitTo_incl (n : nat) (l : list D) (d : D) : In d (limitTo n l) -> In d l.
Proof.
  unfold limitTo. destruct (n =? 0)%nat; [easy|]. apply firstn_incl.
Qed.

Lemma limitTo_length (n : nat) (l : list D) :
  n <> 0%nat -> (length (limitTo n l) <= n)%nat.
Proof.
  intros NZ. unfold limitTo. apply Nat.eqb_neq in NZ. rewrite NZ.
  rewrite length_firstn. lia.
Qed.

Lemma limitTo_all (n : nat) (l : list D) :
  (n = 0 \/ length l <= n)%nat -> limitTo n l = l.
Proof.
  unfold limitTo. intros [->|L]; [reflexivity|].
  destruct (n =? 0)%nat; [reflexivity|]. now apply firstn_all2.
Qed.

Lemma firstn_sorted (P : D -> D -> Prop) (n : nat) (l : list D) :
  StronglySorted P l -> StronglySorted P (firstn n l).
Proof.
  revert n. induction l as [|x r IH]; intros [|n] S; cbn; try constructor.
  - inversion S; subst. now apply IH.
  - inversion S as [|? ? _ F]; subst.
    apply Forall_forall. intros d I. apply firstn_incl in I.
    now apply (proj1 (Forall_forall _ _) F).
Qed.

Lemma limitTo_sorted (P : D -> D -> Prop) (n : nat) (l : list D) :
  StronglySorted P l -> StronglySorted P (limitTo n l).
Proof.
  unfold limitTo. destruct (n =? 0)%nat; [easy|]. apply firstn_sorted.
Qed.

End Cursor.

(** ** repos/auditLogRepo.ts: listings, triage and pruning *)

(** [getSuspiciousActivities] lists only stored entries of severity high
    or critical that are not resolved, newest first, at most [limit] of
    them when [limit] is positive; with [limit = 0], or when no more than
    [limit] entries qualify, it lists every such entry. *)
Theorem getSuspiciousActivities_listing (limit : nat) (w : World.t) :
  exists listed,
    getSuspiciousActivities limit w = (Ok listed, w)
    /\ (forall d, In d listed ->
          In d (World.auditLogs w) /\ isSevere d = true /\ AuditLogDoc.resolved d = false)
    /\ StronglySorted (newerFirst AuditLogDoc.timestamp) listed
    /\ (limit <> 0%nat -> (length listed <= limit)%nat)
    /\ ((limit = 0
         \/ countDocuments (fun d => isSevere d && negb (AuditLogDoc.resolved d))
              (World.auditLogs w) <= limit)%nat ->
        forall d, In d (World.auditLogs w) -> isSevere d = true ->
                  AuditLogDoc.resolved d = false -> In d listed).
Proof.
  eexists. split; [reflexivity|]. split; [|split; [|split]].
  - intros d I. apply limitTo_incl, sortDesc_In, filter_In in I as [I P].
    apply andb_prop in P as [S U]. apply Bool.negb_true_iff in U. now repeat split.
  - apply limitTo_sorted, sortDesc_sorted.
  - apply limitTo_length.
  - intros L d I S U. rewrite limitTo_all.
    + apply sortDesc_In, filter_In. split; [exact I|]. now rewrite S, U.
    + destruct L as [L|L]; [now left|right].
      rewrite (Permutation_length (sortDesc_perm _ _)). exact L.
Qed.

Lemma updateOne_In {D} (q : D -> bool) (f : D -> D) (col : list D) (x : D) :
  In x (updateOne q f col) -> In x col \/ exists d, In d col /\ q d = true /\ x = f d.
Proof.
  induction col as [|c r IH]; cbn; [easy|]. destruct (q c) eqn:Q.
  - intros [<-|I]; [right; exists c; auto|left; now right].
  - intros [<-|I]; [left; now left|].
    destruct (IH I) as [J|(d & J & Qd & ->)]; [left; now right|].
    right. exists d. auto.
Qed.

Lemma updateOne_keeps {D} (q : D -> bool) (f : D -> D) (col : list D) (x : D) :
  In x col -> q x = false -> In x (updateOne q f col).
Proof.
  induction col as [|c r IH]; cbn; [easy|]. intros [->|I] Q.
  - rewrite Q. now left.
  - destruct (q c); right; auto.
Qed.

(** [markAsResolved] takes an entry off the suspicious-activity listing
    and touches nothing else: with distinct entry ids, the unlimited
    listing afterwards holds exactly the entries listed before whose id
    is another one; marking again, or marking an id no entry has, changes
    nothing. *)
Theorem markAsResolved_takes_off_listing (logId : ObjectId) (w : World.t) :
  NoDup (map AuditLogDoc._id (World.auditLogs w)) ->
  let w' := snd (markAsResolved logId w) in
  (forall d, In d (returned [] (getSuspiciousActivities 0) w')
             <-> In d (returned [] (getSuspiciousActivities 0) w)
                 /\ AuditLogDoc._id d <> logId)
  /\ snd (markAsResolved logId w') = w'
  /\ ((forall d, In d (World.auditLogs w) -> AuditLogDoc._id d <> logId) -> w' = w).
Proof.
  intros N. cbn zeta. unfold returned, getSuspiciousActivities, gets, markAsResolved, modify.
  cbn [fst snd World.auditLogs World.with_auditLogs limitTo Nat.eqb].
  set (byId := fun d => (AuditLogDoc._id d =? logId)%nat).
  split; [|split].
  - intros d. rewrite !sortDesc_In, !filter_In. split.
    + intros [I' P]. apply andb_prop in P as [S U]. apply Bool.negb_true_iff in U.
      destruct (updateOne_In _ _ _ _ I') as [I|(d0 & I0 & Q0 & ->)]; [|discriminate U].
      split; [split; [exact I|now rewrite S, U]|].
      intros E.
      destruct (updateOne_by_key AuditLogDoc._id byId setResolved _ d N I) as [_ Others].
      { intros x. unfold byId. rewrite Nat.eqb_eq. now rewrite E. }
      destruct (Others d I') as [R|[_ Ne]]; [|now apply Ne].
      rewrite R in U. discriminate U.
    + intros [[I P] Ne]. split; [|exact P].
      apply updateOne_keeps; [exact I|]. now apply Nat.eqb_neq.
  - unfold World.with_auditLogs. cbn [World.auditLogs]. f_equal.
    rewrite updateOne_twice by reflexivity. now apply updateOne_ext.
  - intros Unknown. unfold World.with_auditLogs.
    rewrite updateOne_no_match; [now destruct w|].
    intros d I. apply Nat.eqb_neq. now apply Unknown.
Qed.

(** Two log entries in the demo world: a forged refresh token and a
    failed login. *)
Lemma markAsResolved_takes_off_listing_witness :
  let w := @performAll demoPlatform
             [(envAt (minutes 1), Refresh (refreshRequest "forged"));
              (envAt (minutes 2),
               Login (loginRequest "203.0.113.7" "alice@example.com" "guess"))] world0 in
  let w' := snd (markAsResolved 2 w) in
  (forall d, In d (returned [] (getSuspiciousActivities 0) w')
             <-> In d (returned [] (getSuspiciousActivities 0) w)
                 /\ AuditLogDoc._id d <> 2%nat)
  /\ snd (markAsResolved 2 w') = w'
  /\ ((forall d, In d (World.auditLogs w) -> AuditLogDoc._id d <> 2%nat) -> w' = w).
Proof.
  apply (markAsResolved_takes_off_listing 2).
  vm_compute. constructor; [|constructor; [|constructor]].
  - intros [E|[]]. discriminate E.
  - intros [].
Defined.

(** ** Deleting and filtering *)

Section Filters.
Context {D : Type}.
Implicit Types (p q : D -> bool) (f : D -> D) (col : list D).

Lemma filter_implied p q col :
  (forall d, q d = true -> p d = true) -> filter q (filter p col) = filter q col.
Proof.
  intros Imp. induction col as [|d r IH]; cbn; [reflexivity|].
  destruct (p d) eqn:P; cbn; destruct (q d) eqn:Q; rewrite ?IH; try reflexivity.
  rewrite (Imp d Q) in P. discriminate P.
Qed.

Lemma findOne_filter p q col :
  (forall d, q d = true -> p d = true) -> findOne q (filter p col) = findOne q col.
Proof.
  intros Imp. unfold findOne. induction col as [|d r IH]; cbn; [reflexivity|].
  destruct (p d) eqn:P; cbn; destruct (q d) eqn:Q; rewrite ?IH; try reflexivity.
  rewrite (Imp d Q) in P. discriminate P.
Qed.

Lemma findOne_filter_kept p q col d :
  findOne q col = Some d -> p d = true -> findOne q (filter p col) = Some d.
Proof.
  unfold findOne. induction col as [|c r IH]; cbn; [discriminate|].
  destruct (q c) eqn:Q.
  - intros E P. injection E as ->. rewrite P. cbn. now rewrite Q.
  - intros E P. destruct (p c); cbn; rewrite ?Q; now apply IH.
Qed.

Lemma countDocuments_filter p q col :
  (forall d, q d = true -> p d = true) ->
  countDocuments q (filter p col) = countDocuments q col.
Proof. intros Imp. unfold countDocuments. now rewrite filter_implied. Qed.

Lemma deleteMany_count q col :
  (countDocuments q col + length (deleteMany q col) = length col)%nat.
Proof.
  unfold countDocuments, deleteMany. induction col as [|d r IH]; cbn; [reflexivity|].
  destruct (q d); cbn; lia.
Qed.

Lemma deleteMany_In q col d : In d (deleteMany q col) <-> In d col /\ q d = false.
Proof. unfold deleteMany. rewrite filter_In. now rewrite Bool.negb_true_iff. Qed.

Lemma updateOne_filter p q f col :
  (forall d, q d = true -> p d = false) -> (forall d, p (f d) = p d) ->
  filter p (updateOne q f col) = filter p col.
Proof.
  intros Out Same. induction col as [|d r IH]; cbn; [reflexivity|].
  destruct (q d) eqn:Q; cbn.
  - now rewrite Same, (Out d Q).
  - now rewrite IH.
Qed.

Lemma updateMany_filter p q f col :
  (forall d, q d = true -> p d = false) -> (forall d, p (f d) = p d) ->
  filter p (updateMany q f col) = filter p col.
Proof.
  intros Out Same. unfold updateMany. induction col as [|d r IH]; cbn; [reflexivity|].
  destruct (q d) eqn:Q; cbn.
  - now rewrite Same, (Out d Q), IH.
  - now rewrite IH.
Qed.

Lemma updateMany_none q f col :
  (forall d, In d col -> q d = false) -> updateMany q f col = col.
Proof.
  intros N. unfold updateMany. induction col as [|d r IH]; cbn; [reflexivity|].
  rewrite (N d (or_introl eq_refl)). f_equal. apply IH. intros; apply N; now right.
Qed.

Lemma updateMany_In q f col x :
  In x (updateMany q f col) ->
  (In x col /\ q x = false) \/ exists d, In d col /\ q d = true /\ x = f d.
Proof.
  unfold updateMany. rewrite in_map_iff. intros (d & E & I).
  destruct (q d) eqn:Q; [right; exists d; auto|left; subst; auto].
Qed.

Lemma filter_none p col : (forall d, In d col -> p d = false) -> filter p col = [].
Proof.
  induction col as [|d r IH]; cbn; intros N; [reflexivity|].
  rewrite (N d (or_introl eq_refl)). apply IH. intros; apply N; now right.
Qed.
End Filters.

(** ** repos/refreshTokenRepo.ts: housekeeping and revocation *)

(** [cleanupExpiredTokens] reports how many records it removed and
    removes exactly the records that expired before now.  No token that
    is valid now or at a later time is lost: at any such time
    [findValidRefreshToken] and [getUserActiveRefreshTokens] answer the
    same as without the cleanup. *)
Theorem cleanupExpiredTokens_spares_live_tokens (env : Env.t) (w : World.t) :
  exists deleted w',
    cleanupExpiredTokens env w = (Ok deleted, w')
    /\ (deleted + length (World.refreshTokens w') = length (World.refreshTokens w))%nat
    /\ (forall d, In d (World.refreshTokens w')
                  <-> In d (World.refreshTokens w)
                      /\ Env.now env <= RefreshTokenDoc.expiresAt d)
    /\ (forall later token, Env.now env <= Env.now later ->
          fst (findValidRefreshToken later token w')
          = fst (findValidRefreshToken later token w))
    /\ (forall later userId, Env.now env <= Env.now later ->
          fst (getUserActiveRefreshTokens later userId w')
          = fst (getUserActiveRefreshTokens later userId w)).
Proof.
  do 2 eexists. split; [reflexivity|]. cbn [World.refreshTokens World.with_refreshTokens].
  split; [apply deleteMany_count|]. split; [|split].
  - intros d. rewrite deleteMany_In. rewrite Z.ltb_ge. reflexivity.
  - intros later token L. unfold findValidRefreshToken, gets. cbn [fst]. f_equal.
    apply findOne_filter. intros d V. unfold isValidRefreshToken in V.
    apply andb_prop in V as [_ V]. apply Z.ltb_lt in V.
    apply Bool.negb_true_iff, Z.ltb_ge. lia.
  - intros later userId L. unfold getUserActiveRefreshTokens, gets. cbn [fst]. do 2 f_equal.
    apply filter_implied. intros d V. unfold isActiveFor in V.
    apply andb_prop in V as [_ V]. apply Z.ltb_lt in V.
    apply Bool.negb_true_iff, Z.ltb_ge. lia.
Qed.

(** [revokeAllUserRefreshTokens] ends every session of the user: from then
    on, at any time, the user has no active token and no token that
    validates belongs to the user.  Tokens of other users are left as
    they are, and a second call, whenever it comes, changes nothing, not
    even the recorded revocation times. *)
Theorem revokeAllUserRefreshTokens_ends_sessions (env : Env.t) (userId : ObjectId)
    (w : World.t) :
  let w' := snd (revokeAllUserRefreshTokens env userId w) in
  (forall later, fst (getUserActiveRefreshTokens later userId w') = Ok [])
  /\ (forall later token d,
        fst (findValidRefreshToken later token w') = Ok (Some d) ->
        RefreshTokenDoc.userId d <> userId)
  /\ filter (fun d => negb (RefreshTokenDoc.userId d =? userId)%nat) (World.refreshTokens w')
     = filter (fun d => negb (RefreshTokenDoc.userId d =? userId)%nat) (World.refreshTokens w)
  /\ (forall later, snd (revokeAllUserRefreshTokens later userId w') = w').
Proof.
  cbn zeta. unfold revokeAllUserRefreshTokens, modify.
  cbn [snd World.refreshTokens World.with_refreshTokens].
  set (q := fun d => (RefreshTokenDoc.userId d =? userId)%nat
                     && negb (RefreshTokenDoc.revoked d)).
  assert (Done : forall d, In d (updateMany q (setRevoked (Env.now env))
                                   (World.refreshTokens w)) -> q d = false).
  { intros d I. apply updateMany_In in I as [[_ Q]|(d0 & _ & _ & ->)]; [exact Q|].
    unfold q. cbn. apply Bool.andb_false_r. }
  split; [|split; [|split]].
  - intros later. unfold getUserActiveRefreshTokens, gets. cbn [fst]. f_equal.
    rewrite filter_none; [reflexivity|]. intros d I. apply Done in I.
    unfold isActiveFor. fold (q d). now rewrite I.
  - intros later token d F. unfold findValidRefreshToken, gets in F. cbn [fst] in F.
    injection F as F. apply find_some in F as [I V]. apply Done in I.
    unfold isValidRefreshToken in V. apply andb_prop in V as [V _].
    apply andb_prop in V as [_ V]. unfold q in I. rewrite V, Bool.andb_true_r in I.
    now apply Nat.eqb_neq.
  - apply updateMany_filter; [|reflexivity].
    intros d Q. unfold q in Q. apply andb_prop in Q as [Q _]. now rewrite Q.
  - intros later. unfold World.with_refreshTokens. cbn [World.refreshTokens].
    rewrite (updateMany_none _ _ _ Done). reflexivity.
Qed.

(** [revokeRefreshTokenByIdForUser] revokes a session only for its
    owner.  It answers true exactly when the user owns an unrevoked
    record with that id; otherwise nothing changes.  In either case the
    records of other users and the records with other ids stay as they
    are, and no record is removed or un-revoked. *)
Theorem revokeRefreshTokenByIdForUser_checks_owner (env : Env.t)
    (tokenId userId : ObjectId) (w : World.t) :
  exists done w',
    revokeRefreshTokenByIdForUser env tokenId userId w = (Ok done, w')
    /\ (done = true
        <-> exists d, In d (World.refreshTokens w)
                      /\ RefreshTokenDoc._id d = tokenId
                      /\ RefreshTokenDoc.userId d = userId
                      /\ RefreshTokenDoc.revoked d = false)
    /\ (done = false -> w' = w)
    /\ filter (fun d => negb (RefreshTokenDoc.userId d =? userId)%nat)
         (World.refreshTokens w')
       = filter (fun d => negb (RefreshTokenDoc.userId d =? userId)%nat)
           (World.refreshTokens w)
    /\ filter (fun d => negb (RefreshTokenDoc._id d =? tokenId)%nat)
         (World.refreshTokens w')
       = filter (fun d => negb (RefreshTokenDoc._id d =? tokenId)%nat)
           (World.refreshTokens w)
    /\ Forall2 laterVersion (World.refreshTokens w) (World.refreshTokens w').
Proof.
  do 2 eexists. split; [reflexivity|].
  cbn [World.refreshTokens World.with_refreshTokens].
  set (q := fun d => (RefreshTokenDoc._id d =? tokenId)%nat
                     && (RefreshTokenDoc.userId d =? userId)%nat
                     && negb (RefreshTokenDoc.revoked d)).
  assert (Q : forall d, q d = true <-> RefreshTokenDoc._id d = tokenId
                                       /\ RefreshTokenDoc.userId d = userId
                                       /\ RefreshTokenDoc.revoked d = false).
  { intros d. unfold q. rewrite !Bool.andb_true_iff, !Nat.eqb_eq, Bool.negb_true_iff.
    tauto. }
  split; [|split; [|split; [|split]]].
  - rewrite existsb_exists. split; intros (d & I & E); exists d; [|split; [exact I|]];
      [apply Q in E; tauto|now apply Q].
  - intros NotDone. unfold World.with_refreshTokens.
    rewrite updateOne_no_match; [now destruct w|].
    intros d I. destruct (q d) eqn:E; [|reflexivity].
    rewrite <- NotDone. symmetry. apply existsb_exists. now exists d.
  - apply updateOne_filter; [|reflexivity].
    intros d E. apply Q in E as (_ & -> & _). now rewrite Nat.eqb_refl.
  - apply updateOne_filter; [|reflexivity].
    intros d E. apply Q in E as (-> & _). now rewrite Nat.eqb_refl.
  - apply updateOne_laterVersion.
Qed.

(** [revokeAllUserRefreshTokensExcept] signs the user out everywhere
    else.  It returns the number of records it revoked.  Given a
    non-empty address and user agent, records bound to both are left as
    they are and every token of the user that is still active afterwards
    is bound to both; with either one missing or empty, the user has no
    active token left.  Tokens of other users are never touched. *)
Theorem revokeAllUserRefreshTokensExcept_keeps_this_device (env : Env.t)
    (userId : ObjectId) (ipAddress userAgent : option string) (w : World.t) :
  exists revokedNow w',
    revokeAllUserRefreshTokensExcept env userId ipAddress userAgent w = (Ok revokedNow, w')
    /\ countDocuments RefreshTokenDoc.revoked (World.refreshTokens w')
       = (countDocuments RefreshTokenDoc.revoked (World.refreshTokens w) + revokedNow)%nat
    /\ filter (fun d => negb (RefreshTokenDoc.userId d =? userId)%nat)
         (World.refreshTokens w')
       = filter (fun d => negb (RefreshTokenDoc.userId d =? userId)%nat)
           (World.refreshTokens w)
    /\ (forall ip ua,
          ipAddress = Some ip -> userAgent = Some ua ->
          Js.nonEmpty ip = true -> Js.nonEmpty ua = true ->
          filter (boundTo ip ua) (World.refreshTokens w')
          = filter (boundTo ip ua) (World.refreshTokens w)
          /\ forall d, In d (returned [] (getUserActiveRefreshTokens env userId) w') ->
                       boundTo ip ua d = true)
    /\ (Js.truthyOpt ipAddress && Js.truthyOpt userAgent = false ->
        returned [] (getUserActiveRefreshTokens env userId) w' = []).
Proof.
  do 2 eexists. split; [reflexivity|].
  cbn [World.refreshTokens World.with_refreshTokens].
  match goal with
  | |- context [updateMany ?f _ _] => set (q := f)
  end.
  assert (Active : forall d, q d = true -> isActiveFor (Env.now env) userId d = true).
  { intros d E. unfold q in E. now apply andb_prop in E as [E _]. }
  assert (Unrevoked : forall d, q d = true -> RefreshTokenDoc.revoked d = false).
  { intros d E. apply Active in E. unfold isActiveFor in E.
    apply andb_prop in E as [E _]. apply andb_prop in E as [_ E].
    now apply Bool.negb_true_iff. }
  split; [|split; [|split]].
  - unfold countDocuments, updateMany.
    induction (World.refreshTokens w) as [|d r IH]; cbn; [reflexivity|].
    destruct (q d) eqn:E; cbn.
    + rewrite (Unrevoked d E). cbn. rewrite IH. lia.
    + destruct (RefreshTokenDoc.revoked d); cbn; rewrite IH; lia.
  - apply updateMany_filter; [|reflexivity].
    intros d E. apply Active in E. unfold isActiveFor in E.
    apply andb_prop in E as [E _]. apply andb_prop in E as [E _]. now rewrite E.
  - intros ip ua -> -> Ip Ua. split.
    + apply updateMany_filter; [|reflexivity].
      intros d E. unfold q in E. rewrite Ip, Ua in E. cbn in E.
      apply andb_prop in E as [_ E]. now apply Bool.negb_true_iff.
    + intros d I. unfold returned, getUserActiveRefreshTokens, gets in I.
      cbn [fst World.refreshTokens] in I.
      apply sortDesc_In, filter_In in I as [I A].
      apply updateMany_In in I as [[_ E]|(d0 & _ & _ & ->)].
      * unfold q in E. rewrite A, Ip, Ua in E. cbn in E.
        now apply Bool.negb_false_iff.
      * unfold isActiveFor in A. cbn in A. now rewrite Bool.andb_false_r in A.
  - intros Missing. unfold returned, getUserActiveRefreshTokens, gets.
    cbn [fst World.refreshTokens]. rewrite filter_none; [reflexivity|].
    intros d I. apply updateMany_In in I as [[_ E]|(d0 & _ & _ & ->)].
    + unfold q in E. destruct (isActiveFor (Env.now env) userId d); [|reflexivity].
      exfalso. cbn in E.
      destruct ipAddress as [ip|], userAgent as [ua|]; try discriminate E.
      unfold Js.truthyOpt in Missing. cbn in Missing.
      rewrite Missing in E. discriminate E.
    + unfold isActiveFor. cbn. now rewrite Bool.andb_false_r.
Qed.

(** ** repos/userRepo.ts: expired reset tokens *)

(** [deleteExpiredTokens] reports how many reset tokens it removed and
    removes exactly those that expired before now; a reset token that
    [findPasswordResetToken] returns and that has not expired is returned
    after the purge as well. *)
Theorem deleteExpiredTokens_spares_usable_tokens (env : Env.t) (w : World.t) :
  exists deleted w',
    deleteExpiredTokens env w = (Ok deleted, w')
    /\ (deleted + length (World.passwordResetTokens w')
        = length (World.passwordResetTokens w))%nat
    /\ (forall d, In d (World.passwordResetTokens w')
                  <-> In d (World.passwordResetTokens w)
                      /\ Env.now env <= PasswordResetTokenDoc.expiresAt d)
    /\ (forall token d,
          fst (findPasswordResetToken token w) = Ok (Some d) ->
          Env.now env <= PasswordResetTokenDoc.expiresAt d ->
          fst (findPasswordResetToken token w') = Ok (Some d)).
Proof.
  do 2 eexists. split; [reflexivity|].
  cbn [World.passwordResetTokens World.with_passwordResetTokens].
  split; [apply deleteMany_count|]. split.
  - intros d. rewrite deleteMany_In. rewrite Z.ltb_ge. reflexivity.
  - intros token d F Live. unfold findPasswordResetToken, gets in *. cbn [fst] in *.
    injection F as F. f_equal. unfold deleteMany. apply findOne_filter_kept; [exact F|].
    now apply Bool.negb_true_iff, Z.ltb_ge.
Qed.

(** ** repos/auditLogRepo.ts: pruning and the dashboard *)

(** [cleanupOldLogs] reports how many entries it removed and removes
    exactly the entries older than the cutoff whose severity is low or
    medium.  The suspicious-activity listing is the same before and
    after, and so is every counter of the rate limiter whose window
    starts at or after the cutoff. *)
Theorem cleanupOldLogs_keeps_evidence (env : Env.t) (daysToKeep : Z) (w : World.t) :
  let cutoffDate := Env.now env - daysToKeep * 24 * 60 * 60 * 1000 in
  exists deleted w',
    cleanupOldLogs env daysToKeep w = (Ok deleted, w')
    /\ (deleted + length (World.auditLogs w') = length (World.auditLogs w))%nat
    /\ (forall d, In d (World.auditLogs w')
                  <-> In d (World.auditLogs w)
                      /\ (isSevere d = true \/ cutoffDate <= AuditLogDoc.timestamp d))
    /\ (forall limit,
          fst (getSuspiciousActivities limit w') = fst (getSuspiciousActivities limit w))
    /\ (forall since eventType fieldIs,
          cutoffDate <= since ->
          loggedSince since eventType fieldIs (World.auditLogs w')
          = loggedSince since eventType fieldIs (World.auditLogs w)).
Proof.
  cbn zeta. do 2 eexists. split; [reflexivity|].
  cbn [World.auditLogs World.with_auditLogs].
  split; [apply deleteMany_count|]. split; [|split].
  - intros d. rewrite deleteMany_In. rewrite Bool.andb_false_iff, Z.ltb_ge,
      Bool.negb_false_iff. tauto.
  - intros limit. unfold getSuspiciousActivities, gets. cbn [fst]. do 3 f_equal.
    apply filter_implied. intros d S. apply andb_prop in S as [S _].
    rewrite S. cbn. now rewrite Bool.andb_false_r.
  - intros since eventType fieldIs L. unfold loggedSince. apply countDocuments_filter.
    intros d S. apply andb_prop in S as [_ S]. apply Z.leb_le in S.
    apply Bool.negb_true_iff, Bool.andb_false_iff. left. apply Z.ltb_ge. lia.
Qed.


(** ** routes/auth.ts: refreshing a session *)


(** ** routes/auth.ts: a session from login to refresh *)

Lemma findOne_updateOne {D} (q : D -> bool) (f : D -> D) (col : list D) :
  (forall d, q (f d) = q d) ->
  findOne q (updateOne q f col) = option_map f (findOne q col).
Proof.
  intros Same. unfold findOne. induction col as [|d r IH]; cbn; [reflexivity|].
  destruct (q d) eqn:Q; cbn; [now rewrite Same, Q|now rewrite Q].
Qed.

Lemma findOne_app_fresh {D} (q : D -> bool) (col : list D) (d : D) :
  (forall x, In x col -> q x = false) -> q d = true -> findOne q (col ++ [d]) = Some d.
Proof.
  unfold findOne. induction col as [|c r IH]; cbn; intros N Q; [now rewrite Q|].
  rewrite (N c (or_introl eq_refl)). apply IH; [|exact Q]. intros; apply N; now right.
Qed.

Lemma updateOne_app_fresh {D} (q : D -> bool) (f : D -> D) (col : list D) (d : D) :
  (forall x, In x col -> q x = false) -> q d = true ->
  updateOne q f (col ++ [d]) = (col ++ [f d])%list.
Proof.
  induction col as [|c r IH]; cbn; intros N Q; [now rewrite Q|].
  rewrite (N c (or_introl eq_refl)). f_equal. apply IH; [|exact Q].
  intros; apply N; now right.
Qed.

(** A refresh request presenting a token whose records are all revoked
    is refused. *)
Lemma refresh_refuses_revoked `{Platform} (env : Env.t) (req : Request.t) (token : string)
    (w : World.t) :
  allRevoked token (World.refreshTokens w) ->
  field "refreshToken" (Request.body req) = Js.Str token ->
  exists r, fst (POST_auth_refresh env req w) = Refused r.
Proof.
  intros Dead Fld. unfold POST_auth_refresh, rateLimitData.
  destruct (Env.apiLimiterAllows env); [|eexists; reflexivity].
  destruct (Env.routeLimiterAllows env); [|eexists; reflexivity].
  unfold routeData, refreshHandler. rewrite Fld.
  destruct (negb (Js.nonEmpty token)); [eexists; reflexivity|].
  unfold bind at 1. unfold findValidRefreshToken, gets. rewrite allRevoked_find by exact Dead.
  unfold bind, trackSuspiciousActivity. rewrite logSecurityEvent_run.
  eexists; reflexivity.
Qed.

(** A session from login to refresh, the requests served one after
    another.  A login with the right password of an unlocked account
    answers 200 with a fresh refresh token, which expires seven days of
    local time after the login; if no stored record carried that value
    before, a refresh request presenting it whose two readings of the
    clock both fall before that expiry is granted and returns the next
    random value; after that the first value is spent: every further
    refresh request presenting it, at any time, is refused. *)
Theorem login_session_refreshes_once `{Platform} (env1 env2 : Env.t)
    (login refresh : Request.t) (email password : string) (user : UserDoc.t)
    (w : World.t) :
  field "email" (Request.body login) = Js.Str email ->
  field "password" (Request.body login) = Js.Str password ->
  Js.nonEmpty email = true -> Js.nonEmpty (Js.trim email) = true ->
  Js.nonEmpty password = true ->
  fst (findUserByEmail email w) = Ok (Some user) ->
  fst (findUserById (UserDoc._id user) w) = Ok (Some user) ->
  UserDoc.locked user = false ->
  bcrypt_compare password (UserDoc.passwordHash user) = true ->
  (forall d, In d (World.refreshTokens w) ->
             RefreshTokenDoc.token d <> Env.randomToken env1 64) ->
  field "refreshToken" (Request.body refresh) = Js.Str (Env.randomToken env1 64) ->
  Js.nonEmpty (Env.randomToken env1 64) = true ->
  Env.randomToken env2 64 <> Env.randomToken env1 64 ->
  Env.now env2 < plusLocalTime (Env.now env1) (7 * 86400000) ->
  Env.nowAgain env2 < plusLocalTime (Env.now env1) (7 * 86400000) ->
  reachesHandler env1 = true -> reachesHandler env2 = true ->
  exists accessToken w1 data w2,
    POST_auth_login env1 login w
    = (Response.mk 200
         (LoginJson (toUserProfile user) accessToken (Env.randomToken env1 64)), w1)
    /\ POST_auth_refresh env2 refresh w1 = (Granted data, w2)
    /\ Refreshed.refreshToken data = Env.randomToken env2 64
    /\ forall env3 replay,
         field "refreshToken" (Request.body replay) = Js.Str (Env.randomToken env1 64) ->
         exists r, fst (POST_auth_refresh env3 replay w2) = Refused r.
Proof.
  intros FE FP NE NT NP ByEmail ById Unlocked Pw Fresh FR NR Other Soon Still Reach1 Reach2.
  destruct (login_success env1 login email password user w FE FP NE NT NP Reach1
              ByEmail Unlocked Pw)
    as (accessToken & issued & w1 & Login & Tokens & Tok & Owner & Live & Exp & _ & _ & Users).
  exists accessToken, w1.
  assert (Valid : forall now, now < plusLocalTime (Env.now env1) (7 * 86400000) ->
                    findOne (isValidRefreshToken now (Env.randomToken env1 64))
                      (World.refreshTokens w1) = Some issued).
  { intros now Before. rewrite Tokens. apply findOne_app_fresh.
    - intros x I. unfold isValidRefreshToken.
      destruct (String.eqb_spec (RefreshTokenDoc.token x) (Env.randomToken env1 64)) as [E|_];
        [now apply Fresh in I|reflexivity].
    - unfold isValidRefreshToken. rewrite Tok, String.eqb_refl, Live, Exp. cbn.
      now apply Z.ltb_lt. }
  assert (Account : exists user', findOne (fun d => (UserDoc._id d =? RefreshTokenDoc.userId issued)%nat)
                      (World.users w1) = Some user' /\ UserDoc.locked user' = false
                                                  /\ UserDoc._id user' = UserDoc._id user).
  { rewrite Users, Owner, findOne_updateOne by reflexivity.
    unfold findUserById, gets in ById. cbn [fst] in ById. injection ById as ->.
    eexists. split; [reflexivity|]. cbn. now split. }
  destruct Account as (user' & Account & Unlocked' & Same).
  unfold reachesHandler in Reach2. apply andb_prop in Reach2 as [A R].
  unfold POST_auth_refresh, rateLimitData. rewrite A, R.
  unfold routeData, refreshHandler. rewrite FR, NR. cbn [negb].
  unfold bind at 1. unfold findValidRefreshToken at 1, gets at 1.
  rewrite (Valid _ Soon).
  unfold bind at 1. unfold findUserById at 1, gets at 1. rewrite Account, Unlocked'.
  unfold bind at 1. rewrite (rotate_live_token (Env.again env2) _ _ _ _ (Valid _ Still)).
  cbn [ret].
  do 2 eexists. split; [exact Login|]. split; [reflexivity|]. split; [reflexivity|].
  intros env3 replay Fld.
  apply (refresh_refuses_revoked env3 replay (Env.randomToken env1 64)); [|exact Fld].
  cbn [World.refreshTokens World.with_refreshTokens World.with_nextObjectId].
  rewrite Tokens, updateOne_app_fresh.
  - intros d I T. apply in_app_or in I as [I|[<-|[]]].
    + apply in_app_or in I as [I|[<-|[]]]; [now apply Fresh in I|reflexivity].
    + cbn in T. contradiction.
  - intros x I. unfold hasToken. apply String.eqb_neq. now apply Fresh.
  - unfold hasToken. rewrite Tok. apply String.eqb_refl.
Qed.

(** The demo account logs in after one minute and refreshes a minute later. *)
Lemma login_session_refreshes_once_witness :
  exists accessToken w1 data w2,
    @POST_auth_login demoPlatform (envAt (minutes 1))
      (loginRequest "203.0.113.7" "alice@example.com" "Str0ng!Pass9") world0
    = (Response.mk 200
         (LoginJson (toUserProfile aliceDoc) accessToken
            (Env.randomToken (envAt (minutes 1)) 64)), w1)
    /\ @POST_auth_refresh demoPlatform (envAt (minutes 2))
         (refreshRequest (Env.randomToken (envAt (minutes 1)) 64)) w1
       = (Granted data, w2)
    /\ Refreshed.refreshToken data = Env.randomToken (envAt (minutes 2)) 64
    /\ forall env3 replay,
         field "refreshToken" (Request.body replay)
         = Js.Str (Env.randomToken (envAt (minutes 1)) 64) ->
         exists r, fst (@POST_auth_refresh demoPlatform env3 replay w2) = Refused r.
Proof.
  apply (@login_session_refreshes_once demoPlatform (envAt (minutes 1)) (envAt (minutes 2))
           (loginRequest "203.0.113.7" "alice@example.com" "Str0ng!Pass9")
           (refreshRequest (Env.randomToken (envAt (minutes 1)) 64))
           "alice@example.com" "Str0ng!Pass9" aliceDoc world0);
    try reflexivity.
  - intros d [].
  - vm_compute. intros E. discriminate E.
Defined.

(** ** Locked accounts *)

(** A locked account is kept out.  Whatever the password, right or
    wrong, a login naming it is answered 403 with the lock reason, is
    recorded as one suspicious activity and issues no token; a refresh
    request presenting one of its valid refresh tokens is answered 403
    and changes nothing, so the token is not consumed. *)
Theorem locked_account_is_refused `{Platform} (env : Env.t) (user : UserDoc.t)
    (w : World.t) :
  UserDoc.locked user = true ->
  reachesHandler env = true ->
  (forall req email password,
     field "email" (Request.body req) = Js.Str email ->
     field "password" (Request.body req) = Js.Str password ->
     Js.nonEmpty email = true -> Js.nonEmpty (Js.trim email) = true ->
     Js.nonEmpty password = true ->
     fst (findUserByEmail email w) = Ok (Some user) ->
     exists message entry w',
       POST_auth_login env req w = (Response.mk 403 (ErrorJson message), w')
       /\ (forall reason, UserDoc.lockReason user = Some reason ->
             Js.nonEmpty reason = true -> message = "Account is locked. " ++ reason)
       /\ World.auditLogs w' = (World.auditLogs w ++ [entry])%list
       /\ AuditLogDoc.eventType entry = SUSPICIOUS_ACTIVITY
       /\ AuditLogDoc.severity entry = high
       /\ World.refreshTokens w' = World.refreshTokens w
       /\ World.users w' = World.users w)
  /\ (forall req token stored,
        field "refreshToken" (Request.body req) = Js.Str token ->
        Js.nonEmpty token = true ->
        fst (findValidRefreshToken env token w) = Ok (Some stored) ->
        fst (findUserById (RefreshTokenDoc.userId stored) w) = Ok (Some user) ->
        POST_auth_refresh env req w
        = (Refused (Response.mk 403 (ErrorJson "Account is locked")), w)).
Proof.
  intros Locked Reach. unfold reachesHandler in Reach. apply andb_prop in Reach as [A R].
  split.
  - intros req email password FE FP NE NT NP Found.
    unfold POST_auth_login, apiLimiter, authLimiter, rateLimit. rewrite A, R.
    unfold route, loginHandler. rewrite FE, FP, NE, NT, NP. cbn [negb orb].
    unfold findUserByEmail, gets in Found. cbn [fst] in Found. injection Found as Found.
    unfold bind at 1. unfold findUserByEmail at 1, gets at 1. rewrite Found, Locked.
    unfold bind, trackSuspiciousActivity. rewrite logSecurityEvent_run.
    do 3 eexists. split; [reflexivity|]. split.
    + intros reason -> ->. reflexivity.
    + cbn. repeat split; reflexivity.
  - intros req token stored Fld NE Found User.
    unfold POST_auth_refresh, rateLimitData. rewrite A, R.
    unfold routeData, refreshHandler. rewrite Fld, NE. cbn [negb].
    unfold findValidRefreshToken, gets in Found. cbn [fst] in Found. injection Found as Found.
    unfold findUserById, gets in User. cbn [fst] in User. injection User as User.
    unfold bind at 1. unfold findValidRefreshToken at 1, gets at 1. rewrite Found.
    unfold bind at 1. unfold findUserById at 1, gets at 1. rewrite User, Locked.
    reflexivity.
Qed.

(** The locked demo account presents its password and its refresh token. *)
Lemma locked_account_is_refused_witness :
  (exists entry w',
     @POST_auth_login demoPlatform (envAt (minutes 1))
       (loginRequest "203.0.113.7" "alice@example.com" "Str0ng!Pass9") lockedWorld
     = (Response.mk 403 (ErrorJson "Account is locked. Unusual activity"), w')
     /\ World.auditLogs w' = (World.auditLogs lockedWorld ++ [entry])%list
     /\ AuditLogDoc.eventType entry = SUSPICIOUS_ACTIVITY
     /\ World.refreshTokens w' = World.refreshTokens lockedWorld)
  /\ @POST_auth_refresh demoPlatform (envAt (minutes 1)) (refreshRequest "T") lockedWorld
     = (Refused (Response.mk 403 (ErrorJson "Account is locked")), lockedWorld).
Proof.
  destruct (@locked_account_is_refused demoPlatform (envAt (minutes 1)) lockedAlice
              lockedWorld eq_refl eq_refl) as [Login Refresh].
  split.
  - destruct (Login (loginRequest "203.0.113.7" "alice@example.com" "Str0ng!Pass9")
                "alice@example.com" "Str0ng!Pass9" eq_refl eq_refl eq_refl eq_refl
                eq_refl eq_refl)
      as (message & entry & w' & Run & Reason & Logs & Kind & _ & Tokens & _).
    exists entry, w'.
    split; [rewrite Run, (Reason "Unusual activity" eq_refl eq_refl); reflexivity|].
    now repeat split.
  - apply (Refresh (refreshRequest "T") "T" sessionDoc); reflexivity.
Defined.

(** [unlockAccount] undoes [lockAccount].  While locked, the account
    found under the id carries the flag, the reason and the time of the
    lock; after unlocking it carries none of them and is otherwise the
    account it was before the lock, apart from its update time.  Accounts
    with other ids are not touched, and for an id no account has nothing
    changes at all. *)
Theorem unlockAccount_undoes_lockAccount (envLock envUnlock : Env.t) (userId : ObjectId)
    (reason : string) (w : World.t) :
  let locked := snd (lockAccount envLock userId reason w) in
  let unlocked := snd (unlockAccount envUnlock userId locked) in
  (forall u, fst (findUserById userId w) = Ok (Some u) ->
     (exists l, fst (findUserById userId locked) = Ok (Some l)
                /\ UserDoc.locked l = true
                /\ UserDoc.lockReason l = Some reason
                /\ UserDoc.lockedAt l = Some (Env.now envLock))
     /\ fst (findUserById userId unlocked)
        = Ok (Some (UserDoc.mk (UserDoc._id u) (UserDoc.email u) (UserDoc.fullName u)
                      (UserDoc.passwordHash u) (UserDoc.createdAt u) (Env.now envUnlock)
                      (UserDoc.emailVerified u) (UserDoc.lastLogin u) (UserDoc.role u)
                      false None None)))
  /\ filter (fun d => negb (UserDoc._id d =? userId)%nat) (World.users unlocked)
     = filter (fun d => negb (UserDoc._id d =? userId)%nat) (World.users w)
  /\ (fst (findUserById userId w) = Ok None -> unlocked = w).
Proof.
  cbn zeta. unfold lockAccount, unlockAccount, updateUser, modify, findUserById, gets.
  cbn [fst snd World.users World.with_users].
  split; [|split].
  - intros u Found. injection Found as Found. split.
    + rewrite findOne_updateOne by reflexivity. rewrite Found. cbn.
      eexists. split; [reflexivity|]. cbn. now repeat split.
    + rewrite updateOne_twice by reflexivity.
      rewrite findOne_updateOne by reflexivity. rewrite Found. reflexivity.
  - rewrite updateOne_twice by reflexivity. apply updateOne_filter; [|reflexivity].
    intros d E. now rewrite E.
  - intros Missing. injection Missing as Missing.
    unfold World.with_users. cbn [World.users].
    rewrite updateOne_twice by reflexivity.
    rewrite updateOne_no_match; [now destruct w|].
    intros d I. destruct (UserDoc._id d =? userId)%nat eqn:E; [|reflexivity].
    unfold findOne in Missing. now rewrite (find_none _ _ Missing d I) in E.
Qed.

(** ** Routes behind an access token *)

(** After [revokeAllUserRefreshTokens] no token of the user validates. *)
Lemma revokeAll_leaves_none_valid (env later : Env.t) (userId : ObjectId) (token : string)
    (d : RefreshTokenDoc.t) (w : World.t) :
  fst (findValidRefreshToken later token (snd (revokeAllUserRefreshTokens env userId w)))
  = Ok (Some d) ->
  RefreshTokenDoc.userId d <> userId.
Proof.
  unfold findValidRefreshToken, revokeAllUserRefreshTokens, gets, modify.
  cbn [fst snd World.refreshTokens World.with_refreshTokens].
  intros F. injection F as F. apply find_some in F as [I V].
  unfold isValidRefreshToken in V. apply andb_prop in V as [V _].
  apply andb_prop in V as [_ V].
  apply updateMany_In in I as [[_ Q]|(d0 & _ & _ & ->)]; [|discriminate V].
  rewrite V, Bool.andb_true_r in Q. now apply Nat.eqb_neq.
Qed.

(** A verification that succeeds reports no mismatch. *)
Lemma valid_without_mismatch `{Platform} (env : Env.t) (tok ip ua : string)
    (payload : option JWTPayload.t) (mismatch : option Mismatch.t) :
  verifyAccessTokenWithContext env tok ip ua = Verification.mk true payload mismatch ->
  mismatch = None.
Proof.
  unfold verifyAccessTokenWithContext.
  destruct (verifyAccessToken env tok); [|discriminate].
  destruct (_ || _); [congruence|]. destruct (_ || _); [discriminate|congruence].
Qed.

(** The [requireAuth] middleware either hands the verified payload to the
    handler or throws 401, having at most recorded one event. *)
Lemma requireAuth_run `{Platform} (env : Env.t) (req : Request.t)
    (next : JWTPayload.t -> M Response.t) (w : World.t) :
  (exists tok payload,
     extractTokenFromHeader (Request.authorization req) = Some tok
     /\ verifyAccessTokenWithContext env tok (getClientIP req) (getUserAgent req)
        = Verification.mk true (Some payload) None
     /\ requireAuth env req next w = next payload w)
  \/ (exists message w',
        requireAuth env req next w = (Throw (httpError 401 message), w')
        /\ World.users w' = World.users w
        /\ World.refreshTokens w' = World.refreshTokens w).
Proof.
  unfold requireAuth.
  destruct (extractTokenFromHeader (Request.authorization req)) as [tok|];
    [|right; do 2 eexists; split; [reflexivity|now split]].
  destruct (Js.nonEmpty tok); cbn [negb];
    [|right; do 2 eexists; split; [reflexivity|now split]].
  destruct (verifyAccessTokenWithContext env tok (getClientIP req) (getUserAgent req))
    as [valid payload mismatch] eqn:V.
  cbn [Verification.valid Verification.payload Verification.mismatch].
  destruct valid, payload as [payload|];
    try (right; destruct mismatch;
         [unfold bind, trackSuspiciousActivity; rewrite logSecurityEvent_run|];
         do 2 eexists; (split; [reflexivity|split; reflexivity])).
  left. exists tok, payload.
  assert (mismatch = None) as -> by (eapply valid_without_mismatch; exact V).
  now repeat split.
Qed.

(** [POST /auth/logout-all] never touches an account or the audit log.
    It answers 200 only to a request whose access token verifies in the
    context of the request, and then it has revoked the refresh tokens
    of the token's user, none of which validates from then on; any other
    answer leaves the state as it was. *)
Theorem logout_all_ends_the_callers_sessions `{Platform} (env : Env.t) (req : Request.t)
    (w : World.t) :
  exists resp w',
    POST_auth_logout_all env req w = (resp, w')
    /\ World.users w' = World.users w
    /\ World.auditLogs w' = World.auditLogs w
    /\ (Response.status resp = 200%nat ->
        exists tok payload,
          extractTokenFromHeader (Request.authorization req) = Some tok
          /\ verifyAccessTokenWithContext env tok (getClientIP req) (getUserAgent req)
             = Verification.mk true (Some payload) None
          /\ w' = snd (revokeAllUserRefreshTokens env (JWTPayload.userId payload) w)
          /\ forall later token d,
               fst (findValidRefreshToken later token w') = Ok (Some d) ->
               RefreshTokenDoc.userId d <> JWTPayload.userId payload)
    /\ (Response.status resp <> 200%nat -> w' = w).
Proof.
  unfold POST_auth_logout_all, apiLimiter, rateLimit.
  destruct (Env.apiLimiterAllows env);
    [|do 2 eexists; split; [reflexivity|]; cbn; repeat split; try discriminate; auto].
  unfold route, logoutAllHandler.
  destruct (extractTokenFromHeader (Request.authorization req)) as [tok|];
    [|do 2 eexists; split; [reflexivity|]; cbn; repeat split; try discriminate; auto].
  destruct (Js.nonEmpty tok); cbn [negb];
    [|do 2 eexists; split; [reflexivity|]; cbn; repeat split; try discriminate; auto].
  destruct (verifyAccessTokenWithContext env tok (getClientIP req) (getUserAgent req))
    as [valid payload mismatch] eqn:V.
  cbn [Verification.valid Verification.payload].
  destruct valid, payload as [payload|];
    try (do 2 eexists; split; [reflexivity|]; cbn; repeat split; try discriminate; auto;
         fail).
  do 2 eexists. split; [reflexivity|]. cbn [snd fst].
  split; [reflexivity|]. split; [reflexivity|]. split; [|cbn; congruence].
  intros _. exists tok, payload. split; [reflexivity|]. split.
  - assert (mismatch = None) as -> by (eapply valid_without_mismatch; exact V).
    exact V.
  - split; [reflexivity|]. intros later token d. apply revokeAll_leaves_none_valid.
Qed.

(** [POST /profile/change-password] changes a password only for the
    account of a verified access token, only when the request carries
    that account's current password, and only to a new password that
    passes the strength rules; the account then carries the hash of the
    new password.  Any other answer than 200 leaves every account as it
    was.  In no case is a refresh token revoked: sessions opened with
    the old password stay valid. *)
Theorem change_password_needs_current_password `{Platform} (env : Env.t) (req : Request.t)
    (w : World.t) :
  exists resp w',
    POST_profile_change_password env req w = (resp, w')
    /\ World.refreshTokens w' = World.refreshTokens w
    /\ (Response.status resp = 200%nat ->
        exists tok payload user current new user',
          extractTokenFromHeader (Request.authorization req) = Some tok
          /\ verifyAccessTokenWithContext env tok (getClientIP req) (getUserAgent req)
             = Verification.mk true (Some payload) None
          /\ fst (findUserById (JWTPayload.userId payload) w) = Ok (Some user)
          /\ field "currentPassword" (Request.body req) = Js.Str current
          /\ bcrypt_compare current (UserDoc.passwordHash user) = true
          /\ field "newPassword" (Request.body req) = Js.Str new
          /\ fst (validatePasswordStrength new) = true
          /\ fst (findUserById (JWTPayload.userId payload) w') = Ok (Some user')
          /\ UserDoc.passwordHash user' = bcrypt_hash new)
    /\ (Response.status resp <> 200%nat -> World.users w' = World.users w).
Proof.
  unfold POST_profile_change_password, apiLimiter, rateLimit.
  destruct (Env.apiLimiterAllows env);
    [|do 2 eexists; split; [reflexivity|]; cbn; repeat split; try discriminate; auto].
  unfold route.
  destruct (requireAuth_run env req (changePasswordHandler env req) w)
    as [(tok & payload & Tok & V & ->)|(message & w' & -> & Users & Tokens)];
    [|do 2 eexists; split; [reflexivity|]; cbn; repeat split; try discriminate; auto].
  unfold changePasswordHandler.
  destruct (field "currentPassword" (Request.body req)) as [| | | |current|] eqn:FC;
    try (do 2 eexists; split; [reflexivity|]; cbn; repeat split; try discriminate; auto;
         fail).
  destruct (Js.nonEmpty current); cbn [negb];
    [|do 2 eexists; split; [reflexivity|]; cbn; repeat split; try discriminate; auto].
  destruct (field "newPassword" (Request.body req)) as [| | | |new|] eqn:FN;
    try (do 2 eexists; split; [reflexivity|]; cbn; repeat split; try discriminate; auto;
         fail).
  destruct (Js.nonEmpty new); cbn [negb];
    [|do 2 eexists; split; [reflexivity|]; cbn; repeat split; try discriminate; auto].
  unfold bind at 1. unfold findUserById at 1, gets at 1.
  destruct (findOne _ (World.users w)) as [user|] eqn:User;
    [|do 2 eexists; split; [reflexivity|]; cbn; repeat split; try discriminate; auto].
  destruct (bcrypt_compare current (UserDoc.passwordHash user)) eqn:Pw; cbn [negb].
  - destruct (fst (validatePasswordStrength new)) eqn:Strong; cbn [negb];
      [|do 2 eexists; split; [reflexivity|]; cbn; repeat split; try discriminate; auto].
    unfold bind at 1.
    destruct (validatePasswordNotBreached_frame env new 1 w) as (v & lines & ->).
    destruct (BreachValidation.valid v); cbn [negb];
      [|do 2 eexists; split; [reflexivity|]; cbn; repeat split; try discriminate; auto].
    unfold bind, updatePassword, updateUser, modify, ret.
    do 2 eexists. split; [reflexivity|].
    cbn [snd Response.status World.refreshTokens World.users World.with_users
         World.with_winston].
    split; [reflexivity|]. split; [|congruence].
    intros _. exists tok, payload, user, current, new. eexists.
    unfold findUserById, gets, World.with_users, World.with_winston.
    cbn [fst World.users].
    rewrite findOne_updateOne, User by reflexivity. cbn [option_map].
    repeat split; solve [assumption|reflexivity].
  - unfold bind, trackSuspiciousActivity. rewrite logSecurityEvent_run.
    do 2 eexists. split; [reflexivity|]. cbn. repeat split; try discriminate; auto.
Qed.

(** [POST /security/resolve/:logId] marks an entry as resolved only for
    an administrator: the answer is 200 only when the access token
    verifies in the context of the request and carries the role admin,
    and then the state is the one [markAsResolved] leaves.  With any
    other answer no entry has been resolved or rewritten; at most the
    attempt itself has been added to the log.  Accounts and refresh
    tokens are never touched. *)
Theorem resolve_requires_admin `{Platform} (env : Env.t) (req : Request.t)
    (logId : option ObjectId) (w : World.t) :
  exists resp w',
    POST_security_resolve env req logId w = (resp, w')
    /\ World.users w' = World.users w
    /\ World.refreshTokens w' = World.refreshTokens w
    /\ (Response.status resp = 200%nat ->
        exists tok payload id,
          extractTokenFromHeader (Request.authorization req) = Some tok
          /\ verifyAccessTokenWithContext env tok (getClientIP req) (getUserAgent req)
             = Verification.mk true (Some payload) None
          /\ JWTPayload.role payload = admin
          /\ logId = Some id
          /\ w' = snd (markAsResolved id w))
    /\ (Response.status resp <> 200%nat -> auditAppended (Env.now env) w w').
Proof.
  unfold POST_security_resolve, apiLimiter, rateLimit.
  destruct (Env.apiLimiterAllows env);
    [|do 2 eexists; split; [reflexivity|]; cbn; repeat split; try discriminate;
      intros; apply auditAppended_refl].
  unfold route, requireAdmin.
  destruct (extractTokenFromHeader (Request.authorization req)) as [tok|];
    [|do 2 eexists; split; [reflexivity|]; cbn; repeat split; try discriminate;
      intros; apply auditAppended_refl].
  destruct (Js.nonEmpty tok); cbn [negb];
    [|do 2 eexists; split; [reflexivity|]; cbn; repeat split; try discriminate;
      intros; apply auditAppended_refl].
  destruct (verifyAccessTokenWithContext env tok (getClientIP req) (getUserAgent req))
    as [valid payload mismatch] eqn:V.
  cbn [Verification.valid Verification.payload Verification.mismatch].
  destruct valid, payload as [payload|];
    try (destruct mismatch;
         [unfold bind, trackSuspiciousActivity; rewrite logSecurityEvent_run;
          do 2 eexists; (split; [reflexivity|]); cbn [fst snd Response.status];
          repeat split; try discriminate; intros _;
          exact (auditAppended_event env SUSPICIOUS_ACTIVITY high _ w)
         |do 2 eexists; (split; [reflexivity|]); cbn; repeat split; try discriminate;
          intros; apply auditAppended_refl]).
  assert (mismatch = None) as -> by (eapply valid_without_mismatch; exact V).
  destruct (JWTPayload.role payload) eqn:Role;
    try (do 2 eexists; (split; [reflexivity|]); cbn; repeat split; try discriminate;
         intros; apply auditAppended_refl).
  unfold resolveHandler. destruct logId as [id|];
    [|do 2 eexists; (split; [reflexivity|]); cbn; repeat split; try discriminate;
      intros; apply auditAppended_refl].
  do 2 eexists. split; [reflexivity|]. cbn [fst snd Response.status].
  split; [reflexivity|]. split; [reflexivity|]. split; [|congruence].
  intros _. exists tok, payload, id. now repeat split.
Qed.

(** ** Account recovery, end to end *)

(** The first document a filter finds is still the first one it finds
    after an update that finds the same document and keeps the filter's
    verdict. *)
Lemma findOne_updateOne_same_doc {D} (p q : D -> bool) (f : D -> D) (col : list D) (u : D) :
  findOne p col = Some u -> findOne q col = Some u ->
  (forall d, p (f d) = p d) ->
  findOne p (updateOne q f col) = Some (f u).
Proof.
  unfold findOne. intros P Q Same. induction col as [|c r IH]; [discriminate|].
  cbn in *. destruct (p c) eqn:Pc, (q c) eqn:Qc; cbn.
  - injection P as ->. now rewrite Same, Pc.
  - injection P as ->. apply find_some in Q as [_ Q]. congruence.
  - injection Q as ->. apply find_some in P as [_ P]. congruence.
  - rewrite Pc. now apply IH.
Qed.

Section Recovery.
Context `{Platform}.

(** The verdict of the breach check does not depend on the store. *)
Lemma validatePasswordNotBreached_uniform (env : Env.t) (password : string)
    (threshold : Z) :
  exists v lines,
    forall w, validatePasswordNotBreached env password threshold w
              = (Ok v, World.with_winston (fun l => l ++ lines)%list w).
Proof.
  assert (Check : exists r lines,
             forall w, checkPasswordBreach env password w
                       = (Ok r, World.with_winston (fun l => l ++ lines)%list w)).
  { unfold checkPasswordBreach.
    destruct (Env.fetchOutcome env) as [|ok status data].
    - eexists. exists [LogLine.mk "error" "Error checking password breach"]. reflexivity.
    - destruct ok; cbn [negb].
      + destruct (scanLines _ _) as [[count|]|].
        * eexists. exists [LogLine.mk "warn" "Password found in breach database"].
          reflexivity.
        * eexists. exists [LogLine.mk "error" "Error checking password breach"].
          reflexivity.
        * eexists. exists []. intros w. unfold ret, World.with_winston.
          rewrite app_nil_r. now destruct w.
      + eexists. exists [LogLine.mk "error" "HaveIBeenPwned API error"]. reflexivity. }
  destruct Check as (r & lines & E). unfold validatePasswordNotBreached, bind.
  destruct (Js.truthyOpt (BreachResult.error r)) eqn:T;
    [eexists; exists lines; intros w; rewrite E, T; reflexivity|].
  destruct (BreachResult.count r) as [count|] eqn:C;
    [|eexists; exists lines; intros w; rewrite E, T, C; reflexivity].
  destruct (BreachResult.breached r && (threshold <=? count)) eqn:B;
    eexists; exists lines; intros w; rewrite E, T, C, B; reflexivity.
Qed.

Lemma passesPasswordChecks_anywhere (env : Env.t) (req : Request.t) (w w' : World.t) :
  passesPasswordChecks env req w = passesPasswordChecks env req w'.
Proof.
  unfold passesPasswordChecks.
  destruct (field "password" (Request.body req)) as [| | | |password|]; try reflexivity.
  destruct (validatePasswordNotBreached_uniform env password 1) as (v & lines & E).
  now rewrite !E.
Qed.

(** The state a forgot-password request for an existing account leaves
    when it is not rate limited and the mail goes out. *)
Lemma forgot_success (env : Env.t) (req : Request.t) (email : string) (user : UserDoc.t)
    (w : World.t) :
  field "email" (Request.body req) = Js.Str email ->
  Js.nonEmpty email = true -> Js.nonEmpty (Js.trim email) = true ->
  reachesHandler env = true -> Env.sendMailOk env = true ->
  fst (findUserByEmail email w) = Ok (Some user) ->
  (loggedSince (sinceDate env 60) PASSWORD_RESET_REQUESTED (byEmail email)
     (World.auditLogs w) < 3)%nat ->
  (loggedSince (sinceDate env 60) PASSWORD_RESET_REQUESTED (byIP (getClientIP req))
     (World.auditLogs w) < 5)%nat ->
  exists issued w',
    POST_auth_forgot_password env req w
    = (Response.mk 200 (MessageJson forgotPasswordMessage), w')
    /\ World.passwordResetTokens w' = (World.passwordResetTokens w ++ [issued])%list
    /\ PasswordResetTokenDoc.token issued = Env.randomToken env 32
    /\ PasswordResetTokenDoc.userId issued = UserDoc._id user
    /\ PasswordResetTokenDoc.used issued = false
    /\ PasswordResetTokenDoc.expiresAt issued = plusLocalTime (Env.now env) 3600000
    /\ World.outbox w'
       = (World.outbox w
          ++ [Mail.mk (UserDoc.email user) "Reset Your Password - Appointment Booking"
                (Env.randomToken env 32)])%list
    /\ World.users w' = World.users w.
Proof.
  intros FE NE NT Reach Mail Found ByEmail ByIP.
  apply andb_prop in Reach as [R1 R2].
  unfold POST_auth_forgot_password, apiLimiter, passwordResetLimiter, rateLimit.
  rewrite R1, R2. unfold route, forgotPasswordHandler. rewrite FE, NE, NT. cbn [negb orb].
  unfold findUserByEmail, gets in Found. cbn [fst] in Found. injection Found as Found.
  unfold bind at 1. unfold findUserByEmail at 1, gets at 1. rewrite Found.
  unfold bind at 1.
  destruct (trackPasswordResetRequest_run env email req true w)
    as (check & w1 & T & B & _ & U & P & O).
  cbn zeta in B. rewrite T, B.
  replace (3 <? S _)%nat with false by (symmetry; apply Nat.ltb_ge; lia).
  replace (5 <? S _)%nat with false by (symmetry; apply Nat.ltb_ge; lia).
  cbn [orb]. unfold bind at 1. unfold createPasswordResetTokenData. cbv beta iota zeta.
  unfold bind at 1. unfold createPasswordResetToken, bind, freshObjectId, gets, modify, ret.
  unfold sendPasswordResetEmail. rewrite Mail.
  unfold modify. do 2 eexists. split; [reflexivity|]. cbn.
  rewrite U, P, O. repeat split; reflexivity.
Qed.

(** The state a reset request leaves when its token is found unused
    and unexpired and its password passes the checks. *)
Lemma reset_success (env : Env.t) (req : Request.t) (token password : string)
    (r : PasswordResetTokenDoc.t) (w : World.t) :
  field "token" (Request.body req) = Js.Str token ->
  Js.nonEmpty token = true ->
  field "password" (Request.body req) = Js.Str password ->
  passesPasswordChecks env req w = true ->
  Env.apiLimiterAllows env = true ->
  fst (findPasswordResetToken token w) = Ok (Some r) ->
  Env.now env <= PasswordResetTokenDoc.expiresAt r ->
  exists w',
    POST_auth_reset_password env req w
    = (Response.mk 200 (MessageJson "Password has been reset successfully"), w')
    /\ World.users w'
       = updateOne (fun d => (UserDoc._id d =? PasswordResetTokenDoc.userId r)%nat)
           (fun d => UserDoc.mk (UserDoc._id d) (UserDoc.email d) (UserDoc.fullName d)
                       (bcrypt_hash password) (UserDoc.createdAt d) (Env.now env)
                       (UserDoc.emailVerified d) (UserDoc.lastLogin d) (UserDoc.role d)
                       (UserDoc.locked d) (UserDoc.lockReason d) (UserDoc.lockedAt d))
           (World.users w).
Proof.
  intros FT NT FP Checks Api Found Live.
  unfold POST_auth_reset_password, apiLimiter, rateLimit. rewrite Api.
  unfold route, resetPasswordHandler, passesPasswordChecks in *.
  rewrite FT, NT, FP in *. cbn [negb].
  destruct (Js.nonEmpty password); [|discriminate Checks].
  destruct (fst (validatePasswordStrength password)); [|discriminate Checks].
  cbn [negb andb] in *.
  destruct (validatePasswordNotBreached_frame env password 1 w) as (v & lines & E).
  unfold bind at 1. rewrite E in *.
  destruct (BreachValidation.valid v); [|discriminate Checks]. cbn [negb].
  unfold findPasswordResetToken, gets in Found. cbn [fst] in Found. injection Found as Found.
  unfold bind at 1. unfold findPasswordResetToken at 1, gets at 1.
  cbn [World.passwordResetTokens World.with_winston]. rewrite Found.
  replace (PasswordResetTokenDoc.expiresAt r <? Env.now env) with false
    by (symmetry; apply Z.ltb_ge; lia).
  unfold bind at 1. unfold findUserById at 1, gets at 1.
  unfold bind at 1. unfold updatePassword, updateUser, modify.
  unfold bind at 1. unfold markTokenAsUsed, modify.
  unfold bind at 1. unfold trackPasswordReset. rewrite logSecurityEvent_run.
  eexists. split; reflexivity.
Qed.

End Recovery.

(** Account recovery works end to end, the requests served one after
    another.  For an existing, unlocked account whose forgot-password
    request passes the limiters and the tracker's two counts, the
    request mails one reset token to the address stored for the account;
    the token expires one hour of local time later; a reset request
    presenting it no later than that, with a password that passes the
    strength and breach checks, is answered 200; and from then on a
    login with the new password is answered 200 (given that the hash
    library verifies the password it has just hashed). *)
Theorem password_reset_round_trip `{Platform} (env1 env2 env3 : Env.t)
    (forgot reset login : Request.t) (email new : string) (user : UserDoc.t)
    (w : World.t) :
  fst (findUserByEmail email w) = Ok (Some user) ->
  fst (findUserById (UserDoc._id user) w) = Ok (Some user) ->
  UserDoc.locked user = false ->
  field "email" (Request.body forgot) = Js.Str email ->
  Js.nonEmpty email = true -> Js.nonEmpty (Js.trim email) = true ->
  reachesHandler env1 = true -> Env.sendMailOk env1 = true ->
  (loggedSince (sinceDate env1 60) PASSWORD_RESET_REQUESTED (byEmail email)
     (World.auditLogs w) < 3)%nat ->
  (loggedSince (sinceDate env1 60) PASSWORD_RESET_REQUESTED (byIP (getClientIP forgot))
     (World.auditLogs w) < 5)%nat ->
  (forall d, In d (World.passwordResetTokens w) ->
             PasswordResetTokenDoc.token d <> Env.randomToken env1 32) ->
  field "token" (Request.body reset) = Js.Str (Env.randomToken env1 32) ->
  Js.nonEmpty (Env.randomToken env1 32) = true ->
  field "password" (Request.body reset) = Js.Str new ->
  passesPasswordChecks env2 reset w = true ->
  Env.apiLimiterAllows env2 = true ->
  Env.now env2 <= plusLocalTime (Env.now env1) 3600000 ->
  field "email" (Request.body login) = Js.Str email ->
  field "password" (Request.body login) = Js.Str new ->
  reachesHandler env3 = true ->
  bcrypt_compare new (bcrypt_hash new) = true ->
  exists w1 w2 w3 accessToken,
    POST_auth_forgot_password env1 forgot w
    = (Response.mk 200 (MessageJson forgotPasswordMessage), w1)
    /\ World.outbox w1
       = (World.outbox w
          ++ [Mail.mk (UserDoc.email user) "Reset Your Password - Appointment Booking"
                (Env.randomToken env1 32)])%list
    /\ POST_auth_reset_password env2 reset w1
       = (Response.mk 200 (MessageJson "Password has been reset successfully"), w2)
    /\ POST_auth_login env3 login w2
       = (Response.mk 200
            (LoginJson (toUserProfile user) accessToken (Env.randomToken env3 64)), w3).
Proof.
  intros ByEmail ById Unlocked FE NE NT Reach1 Mail Few FewIp Fresh FT NTok FP Checks Api
    Soon LE LP Reach3 Hash.
  destruct (forgot_success env1 forgot email user w FE NE NT Reach1 Mail ByEmail Few FewIp)
    as (issued & w1 & Forgot & Tokens & Tok & Owner & Unused & Exp & Outbox & Users1).
  assert (Found : fst (findPasswordResetToken (Env.randomToken env1 32) w1)
                  = Ok (Some issued)).
  { unfold findPasswordResetToken, gets. cbn [fst]. f_equal. rewrite Tokens.
    apply findOne_app_fresh.
    - intros x I. apply Bool.andb_false_iff. left. apply String.eqb_neq. now apply Fresh.
    - now rewrite Tok, String.eqb_refl, Unused. }
  rewrite (passesPasswordChecks_anywhere env2 reset w w1) in Checks.
  destruct (reset_success env2 reset _ new issued w1 FT NTok FP Checks Api Found)
    as (w2 & Reset & Users2); [lia|].
  assert (NP : Js.nonEmpty new = true).
  { unfold passesPasswordChecks in Checks. rewrite FP in Checks.
    now destruct (Js.nonEmpty new). }
  assert (Account : fst (findUserByEmail email w2)
                    = Ok (Some (UserDoc.mk (UserDoc._id user) (UserDoc.email user)
                                  (UserDoc.fullName user) (bcrypt_hash new)
                                  (UserDoc.createdAt user) (Env.now env2)
                                  (UserDoc.emailVerified user) (UserDoc.lastLogin user)
                                  (UserDoc.role user) (UserDoc.locked user)
                                  (UserDoc.lockReason user) (UserDoc.lockedAt user)))).
  { unfold findUserByEmail, findUserById, gets in *. cbn [fst] in *.
    injection ByEmail as ByEmail. injection ById as ById. f_equal.
    rewrite Users2, Users1, Owner.
    erewrite (findOne_updateOne_same_doc _ _ _ _ user);
      first [exact ByEmail | exact ById | reflexivity]. }
  destruct (login_success env3 login email new _ w2 LE LP NE NT NP Reach3 Account
              Unlocked Hash)
    as (accessToken & _ & w3 & Login & _).
  exists w1, w2, w3, accessToken. now repeat split.
Qed.

(** The demo account asks for a reset, uses the mailed token ten
    minutes later and logs in with the new password. *)
Lemma password_reset_round_trip_witness :
  exists w1 w2 w3 accessToken,
    @POST_auth_forgot_password demoPlatform (envAt 0)
      (forgotPasswordRequest "203.0.113.7" "alice@example.com") world0
    = (Response.mk 200 (MessageJson forgotPasswordMessage), w1)
    /\ World.outbox w1
       = (World.outbox world0
          ++ [Mail.mk "alice@example.com" "Reset Your Password - Appointment Booking"
                (Env.randomToken (envAt 0) 32)])%list
    /\ @POST_auth_reset_password demoPlatform (envAt (minutes 10))
         (resetRequest (Env.randomToken (envAt 0) 32) "N3w!Passw0rd") w1
       = (Response.mk 200 (MessageJson "Password has been reset successfully"), w2)
    /\ @POST_auth_login demoPlatform (envAt (minutes 20))
         (loginRequest "203.0.113.7" "alice@example.com" "N3w!Passw0rd") w2
       = (Response.mk 200
            (LoginJson (toUserProfile aliceDoc) accessToken
               (Env.randomToken (envAt (minutes 20)) 64)), w3).
Proof.
  apply (@password_reset_round_trip demoPlatform (envAt 0) (envAt (minutes 10))
           (envAt (minutes 20))
           (forgotPasswordRequest "203.0.113.7" "alice@example.com")
           (resetRequest (Env.randomToken (envAt 0) 32) "N3w!Passw0rd")
           (loginRequest "203.0.113.7" "alice@example.com" "N3w!Passw0rd")
           "alice@example.com" "N3w!Passw0rd" aliceDoc world0);
    try reflexivity.
  - vm_compute. lia.
  - vm_compute. lia.
  - intros d [].
  - vm_compute. intros E. discriminate E.
Defined.

(** ** lib/passwordBreach.ts: when a password is refused *)

Lemma matchLine_miss (suffix line : string) :
  matchLine suffix line = None <-> hd EmptyString (Js.split ":" line) <> suffix.
Proof.
  unfold matchLine. pose proof (split_nonempty ":" line) as NE.
  destruct (Js.split ":" line) as [|first rest]; [contradiction|]. cbn [hd].
  destruct (String.eqb_spec first suffix) as [->|D].
  - destruct rest; split; intros E; try discriminate E; now contradiction E.
  - now split.
Qed.

Lemma matchLine_hit (suffix line : string) (count : option Z) :
  matchLine suffix line = Some (Some count)
  <-> exists countStr rest,
        Js.split ":" line = suffix :: countStr :: rest
        /\ count = Js.parseInt (Js.trim countStr).
Proof.
  unfold matchLine. destruct (Js.split ":" line) as [|first rest].
  - split; [discriminate|]. intros (c & r & E & _). discriminate E.
  - destruct (String.eqb_spec first suffix) as [->|D].
    + destruct rest as [|countStr rest].
      * split; [discriminate|]. intros (c & r & E & _). discriminate E.
      * split.
        -- intros E. injection E as <-. now exists countStr, rest.
        -- intros (c & r & E & ->). now injection E as -> _.
    + split; [discriminate|]. intros (c & r & E & _). injection E as -> _.
      now contradiction D.
Qed.

Lemma scanLines_first_hit (suffix : string) (lines : list string)
    (r : option (option Z)) :
  scanLines suffix lines = Some r
  <-> exists before line after,
        lines = (before ++ line :: after)%list
        /\ Forall (fun l => matchLine suffix l = None) before
        /\ matchLine suffix line = Some r.
Proof.
  induction lines as [|l rest IH]; cbn.
  - split; [discriminate|]. intros (b & x & a & E & _). now destruct b.
  - destruct (matchLine suffix l) as [r0|] eqn:M.
    + split.
      * intros E. injection E as <-. exists [], l, rest. now repeat split.
      * intros ([|b0 b] & x & a & E & F & Hit); injection E as <- _.
        -- congruence.
        -- inversion F; congruence.
    + rewrite IH. split.
      * intros (b & x & a & -> & F & Hit). exists (l :: b), x, a.
        repeat split; [now constructor|exact Hit].
      * intros ([|b0 b] & x & a & E & F & Hit); injection E as <- ->.
        -- congruence.
        -- exists b, x, a. repeat split; [now inversion F|exact Hit].
Qed.

(** Once the range lookup has settled, with an answer or a failure,
    [validatePasswordNotBreached] returns without throwing, and it
    refuses a password in one case only: the lookup answered ok, the
    first line of the answer whose first field is the hash suffix has a
    second field, [parseInt] reads a number from that field after
    [trim], and that number (the double nearest to the digits read)
    reaches the threshold.  A failed lookup, no such line, a line without
    a count, a count that is not a number and a count below the threshold
    (a padding line) all let the password through.  Running the check
    changes nothing but the application log. *)
Theorem validatePasswordNotBreached_refuses_iff `{Platform} (env : Env.t)
    (password : string) (threshold : Z) (w : World.t) :
  exists v lines,
    validatePasswordNotBreached env password threshold w
    = (Ok v, World.with_winston (fun l => l ++ lines)%list w)
    /\ (BreachValidation.valid v = false
        <-> exists status data before line after countStr rest count,
              Env.fetchOutcome env = FetchResponse true status data
              /\ Js.split "010" data = (before ++ line :: after)%list
              /\ Forall (fun l => hd EmptyString (Js.split ":" l)
                                  <> Js.drop 5 (sha1_hex_upper password)) before
              /\ Js.split ":" line
                 = Js.drop 5 (sha1_hex_upper password) :: countStr :: rest
              /\ Js.parseInt (Js.trim countStr) = Some count
              /\ threshold <= count).
Proof.
  unfold validatePasswordNotBreached, checkPasswordBreach, bind.
  set (suffix := Js.drop 5 (sha1_hex_upper password)).
  assert (Spec : forall data count,
            scanLines suffix (Js.split "010" data) = Some (Some count)
            <-> exists before line after countStr rest,
                  Js.split "010" data = (before ++ line :: after)%list
                  /\ Forall (fun l => hd EmptyString (Js.split ":" l) <> suffix) before
                  /\ Js.split ":" line = suffix :: countStr :: rest
                  /\ count = Js.parseInt (Js.trim countStr)).
  { intros data count. rewrite scanLines_first_hit. split.
    - intros (b & x & a & E & F & Hit). apply matchLine_hit in Hit as (c & r & S & P).
      exists b, x, a, c, r. repeat split; try assumption.
      eapply Forall_impl; [|exact F]. intros l. apply matchLine_miss.
    - intros (b & x & a & c & r & E & F & S & P). exists b, x, a.
      repeat split; [exact E| |apply matchLine_hit; now exists c, r].
      eapply Forall_impl; [|exact F]. intros l. apply matchLine_miss. }
  destruct (Env.fetchOutcome env) as [|ok status data] eqn:Fetch.
  - do 2 eexists. split; [reflexivity|]. cbn. split; [discriminate|].
    intros (s & d & b & x & a & c & r & n & E & _). discriminate E.
  - destruct ok; cbn [negb].
    + destruct (scanLines suffix (Js.split "010" data)) as [[[count|]|]|] eqn:Scan.
      * cbn. destruct (threshold <=? count) eqn:T.
        -- do 2 eexists. split; [reflexivity|]. cbn. split; [intros _|reflexivity].
           apply Spec in Scan as (b & x & a & c & r & E & F & S & P).
           exists status, data, b, x, a, c, r, count.
           repeat split; try assumption; [now symmetry|now apply Z.leb_le].
        -- do 2 eexists. split; [reflexivity|]. cbn. split; [discriminate|].
           intros (s & d & b & x & a & c & r & n & E & Sp & F & S & P & Le).
           injection E as _ <-.
           assert (Scan' : scanLines suffix (Js.split "010" data) = Some (Some (Some n))).
           { apply Spec. exists b, x, a, c, r. now repeat split. }
           rewrite Scan in Scan'. injection Scan' as ->. apply Z.leb_gt in T. lia.
      * do 2 eexists. split; [reflexivity|]. cbn. split; [discriminate|].
        intros (s & d & b & x & a & c & r & n & E & Sp & F & S & P & Le).
        injection E as _ <-.
        assert (Scan' : scanLines suffix (Js.split "010" data) = Some (Some (Some n))).
        { apply Spec. exists b, x, a, c, r. now repeat split. }
        rewrite Scan in Scan'. discriminate Scan'.
      * do 2 eexists. split; [reflexivity|]. cbn. split; [discriminate|].
        intros (s & d & b & x & a & c & r & n & E & Sp & F & S & P & Le).
        injection E as _ <-.
        assert (Scan' : scanLines suffix (Js.split "010" data) = Some (Some (Some n))).
        { apply Spec. exists b, x, a, c, r. now repeat split. }
        rewrite Scan in Scan'. discriminate Scan'.
      * eexists. exists []. split.
        { unfold ret, World.with_winston. rewrite app_nil_r. now destruct w. }
        cbn. split; [discriminate|].
        intros (s & d & b & x & a & c & r & n & E & Sp & F & S & P & Le).
        injection E as _ <-.
        assert (Scan' : scanLines suffix (Js.split "010" data) = Some (Some (Some n))).
        { apply Spec. exists b, x, a, c, r. now repeat split. }
        rewrite Scan in Scan'. discriminate Scan'.
    + do 2 eexists. split; [reflexivity|]. cbn. split; [discriminate|].
      intros (s & d & b & x & a & c & r & n & E & _). discriminate E.
Qed.

(** ** Active sessions and valid tokens *)

(** [getUserActiveRefreshTokens] lists, newest first, exactly the
    stored records of the user that are neither revoked nor expired.
    These are the records [findValidRefreshToken] accepts: every record
    it returns is listed among its owner's active tokens, and for every
    listed record a lookup of its token value finds a valid record. *)
Theorem active_tokens_are_the_valid_ones (env : Env.t) (userId : ObjectId) (w : World.t) :
  exists listed,
    getUserActiveRefreshTokens env userId w = (Ok listed, w)
    /\ StronglySorted (newerFirst RefreshTokenDoc.createdAt) listed
    /\ (forall d, In d listed
                  <-> In d (World.refreshTokens w)
                      /\ RefreshTokenDoc.userId d = userId
                      /\ RefreshTokenDoc.revoked d = false
                      /\ Env.now env < RefreshTokenDoc.expiresAt d)
    /\ (forall d, In d listed ->
          exists found,
            fst (findValidRefreshToken env (RefreshTokenDoc.token d) w) = Ok (Some found))
    /\ (forall token d,
          fst (findValidRefreshToken env token w) = Ok (Some d) ->
          RefreshTokenDoc.userId d = userId -> In d listed).
Proof.
  eexists. split; [reflexivity|]. split; [apply sortDesc_sorted|].
  assert (Listed : forall d,
            In d (sortDesc RefreshTokenDoc.createdAt
                    (filter (isActiveFor (Env.now env) userId) (World.refreshTokens w)))
            <-> In d (World.refreshTokens w)
                /\ RefreshTokenDoc.userId d = userId
                /\ RefreshTokenDoc.revoked d = false
                /\ Env.now env < RefreshTokenDoc.expiresAt d).
  { intros d. rewrite sortDesc_In, filter_In. unfold isActiveFor.
    rewrite !Bool.andb_true_iff, Nat.eqb_eq, Bool.negb_true_iff, Z.ltb_lt. tauto. }
  split; [exact Listed|]. split.
  - intros d I. apply Listed in I as (I & _ & Live & Fresh).
    unfold findValidRefreshToken, gets. cbn [fst].
    destruct (findOne _ _) as [found|] eqn:F; [now exists found|].
    exfalso. unfold findOne in F. apply (find_none _ _ F) in I.
    unfold isValidRefreshToken in I.
    rewrite String.eqb_refl, Live in I. cbn in I. apply Z.ltb_ge in I. lia.
  - intros token d F Owner. apply Listed.
    unfold findValidRefreshToken, gets in F. cbn [fst] in F. injection F as F.
    apply find_some in F as [I V]. unfold isValidRefreshToken in V.
    apply andb_prop in V as [V Fresh]. apply andb_prop in V as [_ Live].
    apply Bool.negb_true_iff in Live. apply Z.ltb_lt in Fresh. now repeat split.
Qed.

(** ** GET /auth/validate and GET /auth/me *)

(** The two routes that identify the caller agree: for one request,
    [GET /auth/validate] answers 200 with a profile exactly when
    [GET /auth/me] answers 200 with that profile, and then the profile is
    the one stored under the id in the verified access token.  Neither
    route changes an account or a refresh token. *)
Theorem validate_and_me_agree `{Platform} (env : Env.t) (req : Request.t) (w : World.t) :
  (forall profile,
     fst (GET_auth_validate env req w) = Response.mk 200 (ValidateJson profile)
     <-> fst (GET_auth_me env req w) = Response.mk 200 (MeJson profile))
  /\ (forall profile,
        fst (GET_auth_me env req w) = Response.mk 200 (MeJson profile) ->
        exists tok payload user,
          extractTokenFromHeader (Request.authorization req) = Some tok
          /\ verifyAccessTokenWithContext env tok (getClientIP req) (getUserAgent req)
             = Verification.mk true (Some payload) None
          /\ fst (findUserById (JWTPayload.userId payload) w) = Ok (Some user)
          /\ profile = toUserProfile user)
  /\ World.users (snd (GET_auth_validate env req w)) = World.users w
  /\ World.users (snd (GET_auth_me env req w)) = World.users w
  /\ World.refreshTokens (snd (GET_auth_validate env req w)) = World.refreshTokens w
  /\ World.refreshTokens (snd (GET_auth_me env req w)) = World.refreshTokens w.
Proof.
  unfold GET_auth_validate, GET_auth_me, apiLimiter, rateLimit.
  destruct (Env.apiLimiterAllows env);
    [|cbn; repeat split; intros; discriminate].
  unfold route, validateHandler, meHandler.
  destruct (extractTokenFromHeader (Request.authorization req)) as [tok|].
  2:{ unfold bind, trackTokenValidationFailure. rewrite logSecurityEvent_run.
      cbn. repeat split; intros; discriminate. }
  destruct (Js.nonEmpty tok); cbn [negb].
  2:{ unfold bind, trackTokenValidationFailure. rewrite logSecurityEvent_run.
      cbn. repeat split; intros; discriminate. }
  cbv zeta.
  destruct (verifyAccessTokenWithContext env tok (getClientIP req) (getUserAgent req))
    as [valid payload mismatch] eqn:V.
  cbn [Verification.valid Verification.payload Verification.mismatch].
  destruct valid, payload as [payload|];
    try (destruct mismatch;
         unfold bind, trackSuspiciousActivity, trackTokenValidationFailure;
         rewrite ?logSecurityEvent_run; cbn; repeat split; intros; discriminate).
  assert (mismatch = None) as -> by (eapply valid_without_mismatch; exact V).
  unfold bind, findUserById, gets.
  destruct (findOne _ (World.users w)) as [user|] eqn:User; rewrite ?User.
  - cbn. repeat split; try (intros E; injection E as <-; reflexivity).
    intros profile E. injection E as <-. exists tok, payload, user.
    repeat split; try assumption; try reflexivity. now rewrite User.
  - unfold trackTokenValidationFailure. rewrite logSecurityEvent_run.
    cbn. repeat split; intros; discriminate.
Qed.

(** ** lib/logger.ts: the address a request is attributed to *)

(** [getClientIP] never returns the empty string.  When the request
    carries an X-Forwarded-For header whose text up to the first comma
    is not empty, that text is the address, whatever the socket reports;
    when the header is absent, empty or starts with a comma, the address
    is the socket's remote address if it has one, and "unknown"
    otherwise. *)
Theorem getClientIP_prefers_forwarded_header (req : Request.t) :
  Js.nonEmpty (getClientIP req) = true
  /\ (forall first,
        Js.nonEmpty first = true -> hasChar "," first = false ->
        (Request.xForwardedFor req = Some first
         \/ exists more, Request.xForwardedFor req = Some (first ++ String "," more)) ->
        getClientIP req = first)
  /\ ((Request.xForwardedFor req = None
       \/ Request.xForwardedFor req = Some ""
       \/ exists more, Request.xForwardedFor req = Some (String "," more)) ->
      (forall address,
         Request.remoteAddress req = Some address -> Js.nonEmpty address = true ->
         getClientIP req = address)
      /\ (Js.truthyOpt (Request.remoteAddress req) = false ->
          getClientIP req = "unknown")).
Proof.
  split; [apply getClientIP_nonEmpty|]. unfold getClientIP. split.
  - intros first NE NoComma [E|(more & E)]; rewrite E; cbn [option_map].
    + rewrite (split_no_separator _ _ NoComma). cbn [hd].
      unfold Js.orElse, Js.truthyOpt. now rewrite NE, NE.
    + rewrite (split_at_separator _ _ more NoComma). cbn [hd].
      unfold Js.orElse, Js.truthyOpt. now rewrite NE, NE.
  - intros Header.
    assert (First : Js.truthyOpt
                      (option_map (fun s => hd EmptyString (Js.split "," s))
                         (Request.xForwardedFor req)) = false).
    { destruct Header as [->|[->|(more & ->)]]; reflexivity. }
    assert (Inner : Js.orElse
                      (option_map (fun s => hd EmptyString (Js.split "," s))
                         (Request.xForwardedFor req))
                      (Request.remoteAddress req) = Request.remoteAddress req)
      by (unfold Js.orElse; now rewrite First).
    rewrite Inner. split.
    + intros address -> NE. unfold Js.orElse, Js.truthyOpt. now rewrite NE.
    + intros NoAddress. unfold Js.orElse. now rewrite NoAddress.
Qed.

(** ** The cap on password reset requests *)

(** What [trackPasswordResetRequest] adds to the audit log: the request
    itself, under the email as typed, and at most one note of suspicious
    activity. *)
Lemma trackPasswordResetRequest_logs `{Platform} (env : Env.t) (email : string) (req : Request.t)
    (userExists : bool) (w : World.t) :
  exists check w' entry more,
    trackPasswordResetRequest env email req userExists w = (Ok check, w')
    /\ World.auditLogs w' = (World.auditLogs w ++ entry :: more)%list
    /\ AuditLogDoc.eventType entry = PASSWORD_RESET_REQUESTED
    /\ AuditLogDoc.email entry = Some email
    /\ AuditLogDoc.timestamp entry = Env.now env
    /\ Forall (fun d => AuditLogDoc.eventType d = SUSPICIOUS_ACTIVITY) more.
Proof.
  unfold trackPasswordResetRequest.
  unfold bind at 1. unfold getPasswordResetRequestsByEmail at 1, gets at 1.
  unfold bind at 1. unfold getPasswordResetRequestsByIP at 1, gets at 1.
  set (te := (loggedSince _ _ (byEmail _) _ + 1)%nat).
  set (ti := (loggedSince _ _ (byIP _) _ + 1)%nat).
  await_event. cbv zeta.
  destruct ((3 <? te)%nat || (5 <? ti)%nat).
  - unfold bind. rewrite logSecurityEvent_run.
    do 4 eexists. split; [reflexivity|]. cbn [World.auditLogs afterEvent].
    rewrite <- app_assoc. split; [reflexivity|]. repeat split. repeat constructor.
  - unfold bind. destruct ((2 <=? te)%nat || (3 <=? ti)%nat).
    + rewrite logSecurityEvent_run.
      do 4 eexists. split; [reflexivity|]. cbn [World.auditLogs afterEvent].
      rewrite <- app_assoc. split; [reflexivity|]. repeat split. repeat constructor.
    + do 4 eexists. split; [reflexivity|]. cbn [World.auditLogs afterEvent].
      split; [reflexivity|]. repeat split. constructor.
Qed.

Lemma loggedSince_other_events (since : Date) (eventType : SecurityEventType)
    (fieldIs : AuditLogDoc.t -> bool) (more : list AuditLogDoc.t) :
  Forall (fun d => SecurityEventType_eqb (AuditLogDoc.eventType d) eventType = false) more ->
  loggedSince since eventType fieldIs more = 0%nat.
Proof.
  unfold loggedSince, countDocuments. induction 1 as [|d r E _ IH]; cbn; [reflexivity|].
  now rewrite E.
Qed.

(** The per-email cap of [POST /auth/forgot-password].  Every request
    that reaches the handler with an email is logged, blocked or not, but
    the counter looks up what [toLowerCase] makes of the email while the
    log keeps it as typed: the request raises the count of the last hour
    by one when [toLowerCase] leaves its email unchanged, and not at all
    otherwise.  Once three requests of the last hour are counted, the
    answer is 429, no reset token is stored and no mail is sent. *)
Theorem password_reset_cap_counts_lowercase `{Platform} (env : Env.t) (req : Request.t)
    (email : string) (w : World.t) :
  field "email" (Request.body req) = Js.Str email ->
  Js.nonEmpty email = true -> Js.nonEmpty (Js.trim email) = true ->
  reachesHandler env = true ->
  let requests logs :=
    loggedSince (sinceDate env 60) PASSWORD_RESET_REQUESTED (byEmail email) logs in
  exists resp w',
    POST_auth_forgot_password env req w = (resp, w')
    /\ requests (World.auditLogs w')
       = (requests (World.auditLogs w)
          + (if (email =? toLowerCase email)%string then 1 else 0))%nat
    /\ ((3 <= requests (World.auditLogs w))%nat ->
        resp = Response.mk 429
                 (ErrorJson "Too many password reset requests for this email. Please try again in 1 hour.")
        /\ World.passwordResetTokens w' = World.passwordResetTokens w
        /\ World.outbox w' = World.outbox w).
Proof.
  intros FE NE NT Reach. cbn zeta. apply andb_prop in Reach as [R1 R2].
  unfold POST_auth_forgot_password, apiLimiter, passwordResetLimiter, rateLimit.
  rewrite R1, R2. unfold route, forgotPasswordHandler. rewrite FE, NE, NT. cbn [negb orb].
  unfold bind at 1. unfold findUserByEmail at 1, gets at 1.
  set (user := findOne _ (World.users w)).
  unfold bind at 1.
  destruct (trackPasswordResetRequest_logs env email req
              (match user with Some _ => true | None => false end) w)
    as (check & w1 & entry & more & T & Logs & Kind & Typed & Stamp & Notes).
  destruct (trackPasswordResetRequest_run env email req
              (match user with Some _ => true | None => false end) w)
    as (check' & w1' & T' & B & Rs & _ & P & O).
  rewrite T in T'. injection T' as <- <-. cbn zeta in B, Rs. rewrite T.
  assert (Counted : loggedSince (sinceDate env 60) PASSWORD_RESET_REQUESTED (byEmail email)
                      (World.auditLogs w1)
                    = (loggedSince (sinceDate env 60) PASSWORD_RESET_REQUESTED
                         (byEmail email) (World.auditLogs w)
                       + (if (email =? toLowerCase email)%string then 1 else 0))%nat).
  { rewrite Logs, loggedSince_app. f_equal.
    change (entry :: more) with ([entry] ++ more)%list. rewrite loggedSince_app.
    rewrite (loggedSince_other_events _ _ _ more), Nat.add_0_r.
    - unfold loggedSince, countDocuments, byEmail. cbn [filter].
      rewrite Kind, Typed, Stamp. cbn [SecurityEventType_eqb optStrIs andb].
      replace (sinceDate env 60 <=? Env.now env) with true
        by (symmetry; apply Z.leb_le; unfold sinceDate; lia).
      rewrite Bool.andb_true_r. now destruct (email =? toLowerCase email)%string.
    - eapply Forall_impl; [|exact Notes]. intros d E. now rewrite E. }
  destruct (ResetCheck.blocked check) eqn:Blocked.
  - do 2 eexists. split; [reflexivity|]. cbn [fst snd]. split; [exact Counted|].
    intros Cap. rewrite P, O. repeat split.
    rewrite Rs, <- B.
    replace (3 <? S _)%nat with true by (symmetry; apply Nat.ltb_lt; lia).
    reflexivity.
  - assert (Few : (loggedSince (sinceDate env 60) PASSWORD_RESET_REQUESTED (byEmail email)
                     (World.auditLogs w) < 3)%nat).
    { symmetry in B. apply Bool.orb_false_iff in B as [B _]. apply Nat.ltb_ge in B. lia. }
    unfold bind at 1.
    assert (Rest : exists out w2,
               (match user with
                | Some user =>
                    let '(token, expiresAt, userId) :=
                      createPasswordResetTokenData env (UserDoc._id user) in
                    _ <- createPasswordResetToken env userId token expiresAt ;;
                    sendPasswordResetEmail env (UserDoc.email user) (UserDoc.fullName user)
                      token
                | None => ret tt
                end)%handler w1 = (out, w2)
               /\ World.auditLogs w2 = World.auditLogs w1).
    { destruct user as [u|]; [|do 2 eexists; split; reflexivity].
      unfold createPasswordResetTokenData. cbv beta iota zeta.
      unfold bind, createPasswordResetToken, bind, freshObjectId, gets, modify, ret.
      unfold sendPasswordResetEmail. destruct (Env.sendMailOk env);
        do 2 eexists; split; reflexivity. }
    destruct Rest as (out & w2 & -> & Same).
    destruct out; do 2 eexists; (split; [reflexivity|]); cbn [fst snd];
      rewrite Same; (split; [exact Counted|]); intros Cap; lia.
Qed.

(** The fourth request for the demo account within an hour, each from
    another address. *)
Lemma password_reset_cap_counts_lowercase_witness :
  let w := fold_left
             (fun w from =>
                snd (@POST_auth_forgot_password demoPlatform (envAt (minutes (fst from)))
                       (forgotPasswordRequest (snd from) "alice@example.com") w))
             [(0, "203.0.113.1"); (1, "203.0.113.2"); (2, "203.0.113.3")] world0 in
  let requests logs :=
    loggedSince (sinceDate (envAt (minutes 3)) 60) PASSWORD_RESET_REQUESTED
      (@byEmail demoPlatform "alice@example.com") logs in
  exists resp w',
    @POST_auth_forgot_password demoPlatform (envAt (minutes 3))
      (forgotPasswordRequest "203.0.113.4" "alice@example.com") w = (resp, w')
    /\ requests (World.auditLogs w') = (requests (World.auditLogs w) + 1)%nat
    /\ ((3 <= requests (World.auditLogs w))%nat ->
        resp = Response.mk 429
                 (ErrorJson "Too many password reset requests for this email. Please try again in 1 hour.")
        /\ World.passwordResetTokens w' = World.passwordResetTokens w
        /\ World.outbox w' = World.outbox w).
Proof.
  cbv zeta.
  apply (@password_reset_cap_counts_lowercase demoPlatform (envAt (minutes 3))
           (forgotPasswordRequest "203.0.113.4" "alice@example.com")
           "alice@example.com"); reflexivity.
Defined.

(** ** Where passwords change *)

Lemma samePasswords_refl (w : World.t) : samePasswords w w.
Proof. reflexivity. Qed.

Lemma samePasswords_trans (a b c : World.t) :
  samePasswords a b -> samePasswords b c -> samePasswords a c.
Proof. unfold samePasswords. congruence. Qed.

Lemma samePasswords_elsewhere {A} (m : M A) :
  (forall w, World.users (snd (m w)) = World.users w) -> evolves samePasswords m.
Proof. intros U w. unfold samePasswords. now rewrite U. Qed.

(** Only [POST /auth/reset-password] and [POST /profile/change-password]
    can change a stored password hash: a request to any other route
    leaves the hash of every account as it was. *)
Theorem only_password_routes_change_passwords `{Platform} (env : Env.t) (call : Call)
    (w : World.t) :
  (forall req, call <> ResetPassword req) ->
  (forall req, call <> ChangePassword req) ->
  map UserDoc.passwordHash (World.users (perform env call w))
  = map UserDoc.passwordHash (World.users w).
Proof.
  intros NotReset NotChange. change (samePasswords w (perform env call w)).
  assert (Ev : forall e s d, evolves samePasswords (logSecurityEvent env e s d))
    by (intros; apply samePasswords_elsewhere; intros; now rewrite logSecurityEvent_run).
  destruct call;
    try (exfalso; eapply NotReset; reflexivity);
    try (exfalso; eapply NotChange; reflexivity);
    by_route;
    try apply samePasswords_refl; try apply samePasswords_trans; try exact Ev;
    intros;
    try (apply samePasswords_elsewhere; intros; reflexivity).
  all: try (unfold sendPasswordResetEmail; destruct (Env.sendMailOk env);
            apply samePasswords_elsewhere; intros; reflexivity).
  all: intros w0; unfold samePasswords, updateLastLogin, updateUser, modify; cbn;
    now apply updateOne_map.
Qed.

(** A successful login of the demo account. *)
Lemma only_password_routes_change_passwords_witness :
  map UserDoc.passwordHash
    (World.users
       (@perform demoPlatform (envAt (minutes 1))
          (Login (loginRequest "203.0.113.7" "alice@example.com" "Str0ng!Pass9")) world0))
  = map UserDoc.passwordHash (World.users world0).
Proof.
  apply (@only_password_routes_change_passwords demoPlatform (envAt (minutes 1))
           (Login (loginRequest "203.0.113.7" "alice@example.com" "Str0ng!Pass9")) world0);
    intros req E; discriminate E.
Defined.

(** ** repos/auditLogRepo.ts: listings by user and by event type *)

(** What a filtered, sorted and limited query returns. *)
Lemma listing_spec {D} (p : D -> bool) (key : D -> Z) (limit : nat) (col : list D) :
  let listed := limitTo limit (sortDesc key (filter p col)) in
  StronglySorted (newerFirst key) listed
  /\ (forall d, In d listed -> In d col /\ p d = true)
  /\ (limit <> 0%nat -> (length listed <= limit)%nat)
  /\ ((limit = 0 \/ countDocuments p col <= limit)%nat ->
      forall d, In d col -> p d = true -> In d listed).
Proof.
  cbn zeta. split; [apply limitTo_sorted, sortDesc_sorted|]. split; [|split].
  - intros d I. now apply limitTo_incl, sortDesc_In, filter_In in I.
  - apply limitTo_length.
  - intros L d I P. rewrite limitTo_all.
    + apply sortDesc_In, filter_In. now split.
    + destruct L as [L|L]; [now left|right].
      rewrite (Permutation_length (sortDesc_perm _ _)). exact L.
Qed.

Lemma SecurityEventType_eqb_eq (a b : SecurityEventType) :
  SecurityEventType_eqb a b = true <-> a = b.
Proof. destruct a, b; cbn; split; intros E; try reflexivity; discriminate E. Qed.

(** [getUserAuditLogs] and [getAuditLogsByType] only read.  Each lists,
    newest first, stored entries of the given user, respectively of the
    given event type, and nothing else; at most [limit] of them when
    [limit] is positive, and all of them when [limit] is 0 or no more
    than [limit] entries qualify.  An entry recorded without a user id is
    in no user's listing. *)
Theorem audit_listings_select_and_sort (limit : nat) (w : World.t) :
  (forall userId,
     exists listed,
       getUserAuditLogs userId limit w = (Ok listed, w)
       /\ StronglySorted (newerFirst AuditLogDoc.timestamp) listed
       /\ (forall d, In d listed ->
             In d (World.auditLogs w) /\ AuditLogDoc.userId d = Some userId)
       /\ (limit <> 0%nat -> (length listed <= limit)%nat)
       /\ ((limit = 0 \/ length (World.auditLogs w) <= limit)%nat ->
           forall d, In d (World.auditLogs w) -> AuditLogDoc.userId d = Some userId ->
                     In d listed))
  /\ (forall eventType,
        exists listed,
          getAuditLogsByType eventType limit w = (Ok listed, w)
          /\ StronglySorted (newerFirst AuditLogDoc.timestamp) listed
          /\ (forall d, In d listed ->
                In d (World.auditLogs w) /\ AuditLogDoc.eventType d = eventType)
          /\ (limit <> 0%nat -> (length listed <= limit)%nat)
          /\ ((limit = 0 \/ length (World.auditLogs w) <= limit)%nat ->
              forall d, In d (World.auditLogs w) -> AuditLogDoc.eventType d = eventType ->
                        In d listed)).
Proof.
  assert (Few : forall p : AuditLogDoc.t -> bool,
            (limit = 0 \/ length (World.auditLogs w) <= limit)%nat ->
            (limit = 0 \/ countDocuments p (World.auditLogs w) <= limit)%nat).
  { intros p [L|L]; [now left|right]. unfold countDocuments.
    pose proof (filter_length_le p (World.auditLogs w)). lia. }
  split.
  - intros userId. eexists. split; [reflexivity|].
    match goal with
    | |- context [limitTo limit (sortDesc ?k (filter ?f ?c))] =>
        destruct (listing_spec f k limit c) as (Sorted & Only & Bound & All)
    end.
    split; [exact Sorted|]. split; [|split; [exact Bound|]].
    + intros d I. apply Only in I as [I P]. split; [exact I|].
      destruct (AuditLogDoc.userId d) as [u|]; [|discriminate P].
      apply Nat.eqb_eq in P. now subst.
    + intros L d I U. apply All; [now apply Few|exact I|].
      rewrite U. apply Nat.eqb_refl.
  - intros eventType. eexists. split; [reflexivity|].
    match goal with
    | |- context [limitTo limit (sortDesc ?k (filter ?f ?c))] =>
        destruct (listing_spec f k limit c) as (Sorted & Only & Bound & All)
    end.
    split; [exact Sorted|]. split; [|split; [exact Bound|]].
    + intros d I. apply Only in I as [I P]. split; [exact I|].
      now apply SecurityEventType_eqb_eq.
    + intros L d I E. apply All; [now apply Few|exact I|].
      now apply SecurityEventType_eqb_eq.
Qed.
